(** * Conversation memory and model-request orchestration

    A shallow embedding of the session manager (event log, topic index,
    eviction, consolidation, follow-up context) and of the LLM service
    (question classifier, retrying request executor, vision fallback loop,
    response splitter, canned fallback) of the interview assistant, with the
    properties of its specification stated and settled against it. *)

From Stdlib Require Import String Ascii List ZArith NArith QArith Lia Bool.
From stdpp Require Import base option list gmap strings pretty.

Local Open Scope Z_scope.
Local Open Scope list_scope.

(** ** JavaScript strings

    A JavaScript string is a finite sequence of UTF-16 code units; [length],
    [substring] and the regular expressions of the source all work on code
    units.  A code unit is a number, a string is a list of them. *)

Abbreviation jsstring := (list N).

(** [js "abc"] is the string whose code units are the character codes of an
    ASCII literal. *)
Definition js (s : string) : jsstring :=
  List.map N_of_ascii (list_ascii_of_string s).

Definition str_eq (a b : jsstring) : bool := bool_decide (a = b).

(** Truthiness of a string value: only the empty string is falsy. *)
Definition truthy (s : jsstring) : bool :=
  match s with [] => false | _ :: _ => true end.

(** [s.substring(0, n)]. *)
Definition substring0 (n : nat) (s : jsstring) : jsstring := firstn n s.

(** The line feed. *)
Definition nl : jsstring := [10%N].

(** Decimal rendering of a number inside a template literal. *)
Definition showZ (z : Z) : jsstring := js (pretty z).
Definition showNat (n : nat) : jsstring := js (pretty n).

Module Chars.
Definition between (lo hi c : N) : bool := ((lo <=? c) && (c <=? hi))%N.

Definition is_upper (c : N) : bool := between 65 90 c.
Definition is_lower (c : N) : bool := between 97 122 c.
Definition is_digit (c : N) : bool := between 48 57 c.

(** [\w] : ASCII letters, digits and underscore. *)
Definition is_word (c : N) : bool :=
  is_upper c || is_lower c || is_digit c || (c =? 95)%N.

(** Line terminators: LF, CR, U+2028, U+2029. *)
Definition is_line_terminator (c : N) : bool :=
  ((c =? 10) || (c =? 13) || (c =? 8232) || (c =? 8233))%N.

(** [\s], also the set removed by [trim]: white space and line
    terminators. *)
Definition is_space (c : N) : bool :=
  (between 9 13 c || (c =? 32) || (c =? 160) || (c =? 5760)
   || between 8192 8202 c || (c =? 8232) || (c =? 8233) || (c =? 8239)
   || (c =? 8287) || (c =? 12288) || (c =? 65279))%N.

(** [.] without the [s] flag. *)
Definition is_dot (c : N) : bool := negb (is_line_terminator c).

Definition any (_ : N) : bool := true.

(** Case folding of a code unit as a case-insensitive pattern without the
    [u] flag sees it when the pattern character is ASCII: ASCII letters
    fold together, no other code unit folds onto an ASCII one. *)
Definition fold_ascii (c : N) : N := if is_lower c then (c - 32)%N else c.

(** [toLowerCase] on one code unit.  ASCII and Latin-1 capitals move to
    their small letters; U+0130 and U+212A are the two further code units
    whose lower case contains an ASCII letter; the other alphabets, whose
    lower case stays outside ASCII, are left in place. *)
Definition lower (c : N) : jsstring :=
  if is_upper c then [(c + 32)%N]
  else if between 192 222 c && negb (c =? 215)%N then [(c + 32)%N]
  else if (c =? 304)%N then [105; 775]%N
  else if (c =? 8490)%N then [107]%N
  else [c].
End Chars.

Definition toLowerCase (s : jsstring) : jsstring := List.concat (List.map Chars.lower s).

Fixpoint trimStart (s : jsstring) : jsstring :=
  match s with
  | c :: s' => if Chars.is_space c then trimStart s' else s
  | [] => []
  end.

Definition trim (s : jsstring) : jsstring := rev (trimStart (rev (trimStart s))).

(** ** Regular expressions

    The fragment of the JavaScript pattern language the source uses:
    alternation, concatenation, character classes, quantifiers over a
    single-character atom (greedy or lazy), one capture group, look-ahead,
    [\b], [^] and [$].  Matching is backtracking with the priorities of the
    language: the first alternative first, a greedy quantifier longest
    first, a lazy one shortest first, and the leftmost starting position. *)
Module Regex.

Inductive regex : Type :=
| Empty
| Class (p : N -> bool)
| Cat (r1 r2 : regex)
| Or (r1 r2 : regex)
| Repeat (greedy : bool) (lo : nat) (hi : option nat) (p : N -> bool)
| Capture (r : regex)
| Ahead (r : regex)
| WordEdge
| Start
| Finish.

(** A position in the input is the code unit before it (none at the start)
    and the rest of the input.  A successful match gives the rest of the
    input after the match and the text of the capture group, if it took
    part. *)
Definition outcome : Type := jsstring * option jsstring.
Definition cont : Type := option N -> jsstring -> option jsstring -> option outcome.

Definition orelse (a : option outcome) (b : unit -> option outcome) : option outcome :=
  match a with Some x => Some x | None => b tt end.

Definition word_before (prev : option N) : bool :=
  match prev with Some c => Chars.is_word c | None => false end.

Definition word_after (s : jsstring) : bool :=
  match s with c :: _ => Chars.is_word c | [] => false end.

Definition may_repeat (hi : option nat) : bool :=
  match hi with Some O => false | _ => true end.

Fixpoint repeat_k (greedy : bool) (p : N -> bool) (lo : nat) (hi : option nat)
    (prev : option N) (s : jsstring) (cap : option jsstring) (k : cont)
    : option outcome :=
  let stop := fun _ : unit =>
    match lo with O => k prev s cap | S _ => None end in
  let more := fun _ : unit =>
    match s with
    | c :: s' =>
        if p c && may_repeat hi
        then repeat_k greedy p (Nat.pred lo) (option_map Nat.pred hi) (Some c) s' cap k
        else None
    | [] => None
    end in
  if greedy then orelse (more tt) stop else orelse (stop tt) more.

Fixpoint match_k (r : regex) (prev : option N) (s : jsstring)
    (cap : option jsstring) (k : cont) : option outcome :=
  match r with
  | Empty => k prev s cap
  | Class p =>
      match s with
      | c :: s' => if p c then k (Some c) s' cap else None
      | [] => None
      end
  | Cat r1 r2 =>
      match_k r1 prev s cap (fun prev' s' cap' => match_k r2 prev' s' cap' k)
  | Or r1 r2 =>
      orelse (match_k r1 prev s cap k) (fun _ => match_k r2 prev s cap k)
  | Repeat greedy lo hi p => repeat_k greedy p lo hi prev s cap k
  | Capture r1 =>
      match_k r1 prev s cap
        (fun prev' s' _ => k prev' s' (Some (firstn (length s - length s') s)))
  | Ahead r1 =>
      match match_k r1 prev s cap (fun _ s' cap' => Some (s', cap')) with
      | Some (_, cap') => k prev s cap'
      | None => None
      end
  | WordEdge =>
      if xorb (word_before prev) (word_after s) then k prev s cap else None
  | Start => match prev with None => k prev s cap | Some _ => None end
  | Finish => match s with [] => k prev s cap | _ :: _ => None end
  end.

(** One attempt at a given position. *)
Definition match_here (r : regex) (prev : option N) (s : jsstring) : option outcome :=
  match_k r prev s None (fun _ s' cap => Some (s', cap)).

(** The result of a search: the text before the match, the matched text,
    the text after it, and the capture. *)
Record found : Type := Found {
  before : jsstring;
  matched : jsstring;
  after : jsstring;
  group1 : option jsstring
}.

(** Leftmost match: positions are tried from left to right, the end of
    the input included. *)
Fixpoint search_from (r : regex) (skipped : jsstring) (prev : option N)
    (s : jsstring) : option found :=
  match match_here r prev s with
  | Some (rest, cap) =>
      Some (Found (rev skipped) (firstn (length s - length rest) s) rest cap)
  | None =>
      match s with
      | c :: s' => search_from r (c :: skipped) (Some c) s'
      | [] => None
      end
  end.

(** [str.match(re)] without the [g] flag, and [re.exec(str)]. *)
Definition firstMatch (r : regex) (s : jsstring) : option found :=
  search_from r [] None s.

(** [re.test(str)]. *)
Definition test (r : regex) (s : jsstring) : bool :=
  match firstMatch r s with Some _ => true | None => false end.

(** [str.replace(re, by)] without the [g] flag: the leftmost match is
    replaced, a string without a match is returned as it is. *)
Definition replace (r : regex) (by_ : jsstring) (s : jsstring) : jsstring :=
  match firstMatch r s with
  | Some f => before f ++ by_ ++ after f
  | None => s
  end.

(** [str.match(re)] with the [g] flag: every match from left to right,
    the search resuming where the previous match ended (one code unit
    further after an empty match).  [skip] counts the code units of the
    last match still to be passed over. *)
Fixpoint scan (r : regex) (skip : nat) (prev : option N) (s : jsstring)
    : list jsstring :=
  match skip with
  | S n =>
      match s with
      | c :: s' => scan r n (Some c) s'
      | [] => []
      end
  | O =>
      match match_here r prev s with
      | Some (rest, _) =>
          let len := (length s - length rest)%nat in
          firstn len s ::
            match s with
            | c :: s' => scan r (Nat.pred len) (Some c) s'
            | [] => []
            end
      | None =>
          match s with
          | c :: s' => scan r O (Some c) s'
          | [] => []
          end
      end
  end.

(** The array of matches, or [None] for the [null] the runtime returns
    when there is none. *)
Definition match_all (r : regex) (s : jsstring) : option (list jsstring) :=
  match scan r O None s with
  | [] => None
  | ms => Some ms
  end.

(** *** Pattern builders *)

Definition chr (c : N) : regex := Class (N.eqb c).
Definition chr_i (c : N) : regex :=
  Class (fun x => N.eqb (Chars.fold_ascii x) (Chars.fold_ascii c)).

Fixpoint cats (rs : list regex) : regex :=
  match rs with
  | [] => Empty
  | [r] => r
  | r :: rs' => Cat r (cats rs')
  end.

Fixpoint ors (rs : list regex) : regex :=
  match rs with
  | [] => Class (fun _ => false)
  | [r] => r
  | r :: rs' => Or r (ors rs')
  end.

(** A literal, case-sensitive and case-insensitive. *)
Definition lit (s : string) : regex := cats (List.map chr (js s)).
Definition lit_i (s : string) : regex := cats (List.map chr_i (js s)).

(** [(a|b|c)] over literals. *)
Definition words (ss : list string) : regex := ors (List.map lit ss).
Definition words_i (ss : list string) : regex := ors (List.map lit_i ss).

(** [r?], greedy. *)
Definition opt (r : regex) : regex := Or r Empty.

Definition star (p : N -> bool) : regex := Repeat true 0 None p.
Definition plus (p : N -> bool) : regex := Repeat true 1 None p.
Definition lazy_star (p : N -> bool) : regex := Repeat false 0 None p.
Definition times (lo hi : nat) (p : N -> bool) : regex := Repeat true lo (Some hi) p.

End Regex.

(** ** The question classifier ([LLMService.detectQuestionType]) *)

Module Classifier.
Import Regex.

Inductive QuestionType : Type := Coding | Design.

(** The string the source uses for each type. *)
Definition typeName (t : QuestionType) : jsstring :=
  match t with Coding => js "coding" | Design => js "design" end.

(** Coding indicators: function signatures, code syntax, algorithm
    keywords. *)
Definition codingPatterns : list regex := [
  Cat WordEdge (words ["def "; "function "; "class "; "int "; "void "; "public ";
                       "private "; "return "; "if ("; "for ("; "while ("]);
  Cat WordEdge (words ["input"; "output"; "example"; "constraint"; "leetcode";
                       "hackerrank"; "codechef"; "codeforces"]);
  cats [WordEdge;
        words ["array"; "string"; "linked list"; "binary tree"; "graph"; "matrix";
               "sort"; "search"];
        WordEdge];
  Cat WordEdge (words ["time complexity"; "space complexity"; "o(n)"; "o(log";
                       "o(1)"; "o(n^2"]);
  Cat WordEdge (words ["two pointer"; "sliding window"; "dynamic programming";
                       "backtracking"; "bfs"; "dfs"; "greedy"]);
  words ["=>"; "{}"; "[]"; "=="; "!="; "++"; "--"; "<<"; ">>"];
  ors [lit "```";
       cats [WordEdge; lit "int"; WordEdge; star Chars.is_dot; lit "("];
       cats [WordEdge; lit "void"; WordEdge; star Chars.is_dot; lit "("]]
].

(** Design indicators: architecture, system keywords. *)
Definition designPatterns : list regex := [
  Cat WordEdge (words ["design"; "architect"; "system"; "scalab"; "microservice";
                       "monolith"; "distributed"]);
  Cat WordEdge (words ["load balanc"; "api gateway"; "database"; "cache"; "cdn";
                       "message queue"; "kafka"]);
  Cat WordEdge (words ["availability"; "consistency"; "partition"; "replication";
                       "shard"]);
  Cat WordEdge (words ["user"; "request"; "server"; "client"; "service"; "endpoint";
                       "traffic"; "qps"; "latency"]);
  Cat WordEdge (words ["storage"; "bandwidth"; "throughput"; "bottleneck";
                       "single point of failure"]);
  Cat WordEdge (words ["rest"; "graphql"; "grpc"; "websocket"; "http"; "tcp"]);
  Cat WordEdge (words ["redis"; "memcached"; "postgresql"; "mongodb"; "dynamodb";
                       "cassandra"; "elasticsearch"])
].

(** [for (const pattern of patterns) if (pattern.test(text)) score++],
    for any way [run] of testing a pattern. *)
Definition countHits (run : regex -> jsstring -> bool) (patterns : list regex)
    (text : jsstring) : nat :=
  fold_left (fun score pattern => if run pattern text then S score else score)
    patterns O.

Definition codingBias (activeSkill : jsstring) : nat :=
  if str_eq activeSkill (js "dsa") || str_eq activeSkill (js "technical-screening")
  then 2%nat else 0%nat.

Definition designBias (activeSkill : jsstring) : nat :=
  if str_eq activeSkill (js "system-design") then 2%nat else 0%nat.

(** The answer for an empty text. *)
Definition modeDefault (activeSkill : jsstring) : QuestionType :=
  if str_eq activeSkill (js "system-design") then Design else Coding.

(** The body of [detectQuestionType], over the pattern test [run]. *)
Definition detectWith (run : regex -> jsstring -> bool)
    (extractedText activeSkill : jsstring) : QuestionType :=
  if negb (truthy extractedText) then modeDefault activeSkill
  else
    let text := toLowerCase extractedText in
    let codingScore := countHits run codingPatterns text in
    let designScore := countHits run designPatterns text in
    let codingScore := (codingScore + codingBias activeSkill)%nat in
    let designScore := (designScore + designBias activeSkill)%nat in
    if (designScore <? codingScore)%nat then Coding else Design.

Definition detectQuestionType : jsstring -> jsstring -> QuestionType :=
  detectWith test.

End Classifier.

(** ** The response splitter (step 5 of
    [LLMService.processScreenCaptureWithStructuredResponse]) *)

Module Splitter.
Import Regex.

Definition is_hash (c : N) : bool := (c =? 35)%N.
Definition is_asterisk (c : N) : bool := (c =? 42)%N.
Definition is_cr_lf (c : N) : bool := ((c =? 13) || (c =? 10))%N.

(** The class of separator characters: white space, em dash, hyphen,
    colon. *)
Definition is_separator (c : N) : bool :=
  (Chars.is_space c || (c =? 8212) || (c =? 45) || (c =? 58))%N.

(** The heading line of part [X]: the start of the text or a line feed,
    an optional run of one to three [#] with white space after it, an
    optional run of one or two asterisks, the word Part, white space, the
    letter, again optional asterisks, any separators, the rest of the line,
    and at least one line break.  The pattern has the [i] flag. *)
Definition heading (letter : string) : regex :=
  cats [Or Start (chr 10);
        opt (Cat (times 1 3 is_hash) (star Chars.is_space));
        opt (times 1 2 is_asterisk);
        lit_i "Part"; star Chars.is_space; lit_i letter;
        opt (times 1 2 is_asterisk);
        star is_separator;
        star (fun c => negb (is_cr_lf c));
        plus is_cr_lf].

(** What ends the body of part A, in a look-ahead: a heading of part B
    (up to three [#], white space, asterisks, all optional, then Part B),
    or the end of the text. *)
Definition endOfPartA : regex :=
  Or (cats [opt (Cat (times 0 3 is_hash) (star Chars.is_space));
            opt (times 1 2 is_asterisk);
            lit_i "Part"; star Chars.is_space; lit_i "B"])
     Finish.

Definition partARegex : regex :=
  cats [heading "A"; Capture (lazy_star Chars.any); Ahead endOfPartA].

Definition partBRegex : regex :=
  cats [heading "B"; Capture (lazy_star Chars.any); Finish].

(** [match[1]] of a successful match. *)
Definition body (f : found) : jsstring :=
  match group1 f with Some b => b | None => [] end.

Definition splitResponse (response : jsstring) : jsstring * jsstring :=
  let partA := [] in
  let partB := [] in
  let partAMatch := firstMatch partARegex response in
  let partBMatch := firstMatch partBRegex response in
  let partA := match partAMatch with Some f => trim (body f) | None => partA end in
  let partB := match partBMatch with Some f => trim (body f) | None => partB end in
  (* If splitting failed, treat the whole response as the content *)
  if negb (truthy partA) && negb (truthy partB) then ([], response)
  else (partA, partB).

End Splitter.

(** ** Data model *)

(** A value of the open metadata bag of an event. *)
Inductive MetaValue : Type :=
| MString (s : jsstring)
| MNumber (z : Z)
| MBoolean (b : bool)
| MUndefined.

Abbreviation Metadata := (gmap jsstring MetaValue).

Record Event : Type := mkEvent {
  ev_id : jsstring;
  ev_timestamp : Z;
  ev_role : jsstring;
  ev_content : jsstring;
  ev_action : jsstring;
  ev_category : jsstring;
  ev_metadata : Metadata
}.

(** One occurrence of a topic. *)
Record TopicEntry : Type := mkTopicEntry {
  te_content : jsstring;
  te_timestamp : Z;
  te_relevance : Q
}.

(** The keys of the configuration object the two services consult. *)
Record GenerationDefaults : Type := mkGenerationDefaults {
  gd_temperature : option Q;
  gd_topP : option Q;
  gd_maxTokens : option nat
}.

Record Config : Type := mkConfig {
  cfg_maxMemorySize : nat;
  cfg_compressionThreshold : nat;
  cfg_maxDurationMinutes : option Z;
  cfg_defaultMode : option jsstring;
  cfg_availableModes : option (list jsstring);
  cfg_maxRetries : option nat;
  cfg_model : option jsstring;
  cfg_generation : option GenerationDefaults
}.

Record SessionManager : Type := mkSessionManager {
  sessionMemory : list Event;
  compressionEnabled : bool;
  maxSize : nat;
  compressionThreshold : nat;
  maxDurationMinutes : Z;
  activeSkill : jsstring;
  sessionStartTime : option Z;
  sessionActive : bool;
  topicTags : gmap jsstring (list TopicEntry);
  sessionTimer : option nat
}.

(** *** Requests to the backend *)

Inductive Part : Type :=
| TextPart (text : jsstring)
| ImageUrl (url : jsstring).

Inductive Content : Type :=
| Text (s : jsstring)
| Parts (ps : list Part).

Record Message : Type := mkMessage {
  msg_role : jsstring;
  msg_content : Content
}.

(** The argument of one [client.chat.completions.create]. *)
Record Call : Type := mkCall {
  call_model : jsstring;
  call_messages : list Message;
  call_temperature : option Q;
  call_top_p : option Q;
  call_max_tokens : option nat
}.

Record Error : Type := mkError { err_message : jsstring }.

(** What a call to the backend does: it resolves with a completion, whose
    first choice may have no content, or it rejects. *)
Inductive Reply : Type :=
| Completion (content : option jsstring)
| Rejected (e : Error).

Record LLMService : Type := mkLLMService {
  client : bool;
  isInitialized : bool;
  model : jsstring;
  requestCount : nat;
  errorCount : nat
}.

(** *** The world around the two services

    The clock, the random source, the prompt files and the backend are not
    part of the program.  Each is an oracle: [clock n] is the value of the
    [n]-th [Date.now()], [random n] the suffix the [n]-th draw of
    [generateEventId] produces, [prompts name] the text
    [promptLoader.getSkillPrompt name] returns ([None] when it throws or
    returns nothing), [backend history call] the reply to [call] after the
    earlier calls [history] (oldest first).  The world also records what the
    program did to it: the timers it armed and has not cleared, every call it
    sent and every delay it slept. *)
Record World : Type := mkWorld {
  clock : nat -> Z;
  clockReads : nat;
  random : nat -> jsstring;
  randomDraws : nat;
  prompts : jsstring -> option jsstring;
  config : Config;
  base64 : list N -> jsstring;
  toJPEG : list N -> option (list N);
  backend : list Call -> Call -> Reply;
  timers : list (nat * Z);
  timerCount : nat;
  calls : list Call;
  sleeps : list Z
}.

Record App : Type := mkApp {
  world : World;
  session : SessionManager;
  service : LLMService
}.

(** *** A state monad over the application *)

Definition M (A : Type) : Type := App -> A * App.

Definition ret {A : Type} (x : A) : M A := fun a => (x, a).

Definition bind {A B : Type} (m : M A) (k : A -> M B) : M B :=
  fun a => let (x, a') := m a in k x a'.

Declare Scope js_scope.
Delimit Scope js_scope with js.
Notation "'let*' x := c 'in' k" := (bind c (fun x => k))
  (at level 100, x name, c at level 99, k at level 200) : js_scope.
Notation "c ;; k" := (bind c (fun _ => k))
  (at level 100, k at level 200) : js_scope.
Local Open Scope js_scope.

Definition gets {A : Type} (f : App -> A) : M A := fun a => (f a, a).
Definition modify (f : App -> App) : M unit := fun a => (tt, f a).

Definition when (b : bool) (m : M unit) : M unit := if b then m else ret tt.

(** [for (const x of xs) body(x)]. *)
Fixpoint forEach {A : Type} (xs : list A) (body : A -> M unit) : M unit :=
  match xs with
  | [] => ret tt
  | x :: xs' => body x ;; forEach xs' body
  end.

Definition exec {A : Type} (m : M A) (a : App) : App := snd (m a).
Definition eval {A : Type} (m : M A) (a : App) : A := fst (m a).

Definition onWorld (f : World -> World) : M unit :=
  modify (fun a => mkApp (f (world a)) (session a) (service a)).
Definition onSession (f : SessionManager -> SessionManager) : M unit :=
  modify (fun a => mkApp (world a) (f (session a)) (service a)).
Definition onService (f : LLMService -> LLMService) : M unit :=
  modify (fun a => mkApp (world a) (session a) (f (service a))).

(** *** Effects on the world *)

(** [Date.now()]: the next reading of the clock. *)
Definition dateNow : M Z :=
  fun a =>
    let w := world a in
    (clock w (clockReads w),
     mkApp (mkWorld (clock w) (S (clockReads w)) (random w) (randomDraws w) (prompts w)
              (config w) (base64 w) (toJPEG w) (backend w) (timers w) (timerCount w)
              (calls w) (sleeps w))
           (session a) (service a)).

(** [Math.random().toString(36).substr(2, 6)]: the next draw. *)
Definition randomSuffix : M jsstring :=
  fun a =>
    let w := world a in
    (random w (randomDraws w),
     mkApp (mkWorld (clock w) (clockReads w) (random w) (S (randomDraws w)) (prompts w)
              (config w) (base64 w) (toJPEG w) (backend w) (timers w) (timerCount w)
              (calls w) (sleeps w))
           (session a) (service a)).

Definition withTimers (f : list (nat * Z) -> list (nat * Z)) (bump : nat) (w : World)
    : World :=
  mkWorld (clock w) (clockReads w) (random w) (randomDraws w) (prompts w) (config w)
    (base64 w) (toJPEG w) (backend w) (f (timers w)) (bump + timerCount w) (calls w)
    (sleeps w).

(** [setTimeout(callback, ms)]: a fresh handle, pending until it is cleared;
    what happens when a timer fires is outside this development. *)
Definition setTimeout (ms : Z) : M nat :=
  let* h := gets (fun a => timerCount (world a)) in
  onWorld (withTimers (fun ts => ts ++ [(h, ms)]) 1) ;;
  ret h.

(** [clearTimeout(handle)]. *)
Definition clearTimeout (h : nat) : M unit :=
  onWorld (withTimers (List.filter (fun t => negb (Nat.eqb (fst t) h))) 0).

(** [promptLoader.getSkillPrompt(name)] inside its [try]. *)
Definition getSkillPrompt (name : jsstring) : M (option jsstring) :=
  gets (fun a => prompts (world a) name).

Definition getConfig : M Config := gets (fun a => config (world a)).

(** A prompt that is there: the call returned, and what it returned is not
    the empty string. *)
Definition loaded (p : option jsstring) : option jsstring :=
  match p with
  | Some text => if truthy text then Some text else None
  | None => None
  end.

(** ** The session manager ([SessionManager]) *)

Module Session.
Import Regex.

Definition setMemory (mem : list Event) (s : SessionManager) : SessionManager :=
  mkSessionManager mem (compressionEnabled s) (maxSize s) (compressionThreshold s)
    (maxDurationMinutes s) (activeSkill s) (sessionStartTime s) (sessionActive s)
    (topicTags s) (sessionTimer s).

Definition setTopicTags (tags : gmap jsstring (list TopicEntry)) (s : SessionManager)
    : SessionManager :=
  mkSessionManager (sessionMemory s) (compressionEnabled s) (maxSize s)
    (compressionThreshold s) (maxDurationMinutes s) (activeSkill s)
    (sessionStartTime s) (sessionActive s) tags (sessionTimer s).

Definition setActiveSkillField (skill : jsstring) (s : SessionManager) : SessionManager :=
  mkSessionManager (sessionMemory s) (compressionEnabled s) (maxSize s)
    (compressionThreshold s) (maxDurationMinutes s) skill
    (sessionStartTime s) (sessionActive s) (topicTags s) (sessionTimer s).

Definition setSessionStartTime (t : option Z) (s : SessionManager) : SessionManager :=
  mkSessionManager (sessionMemory s) (compressionEnabled s) (maxSize s)
    (compressionThreshold s) (maxDurationMinutes s) (activeSkill s)
    t (sessionActive s) (topicTags s) (sessionTimer s).

Definition setSessionActive (b : bool) (s : SessionManager) : SessionManager :=
  mkSessionManager (sessionMemory s) (compressionEnabled s) (maxSize s)
    (compressionThreshold s) (maxDurationMinutes s) (activeSkill s)
    (sessionStartTime s) b (topicTags s) (sessionTimer s).

Definition setSessionTimer (h : option nat) (s : SessionManager) : SessionManager :=
  mkSessionManager (sessionMemory s) (compressionEnabled s) (maxSize s)
    (compressionThreshold s) (maxDurationMinutes s) (activeSkill s)
    (sessionStartTime s) (sessionActive s) (topicTags s) h.

Definition this {A : Type} (field : SessionManager -> A) : M A :=
  gets (fun a => field (session a)).

Definition push (e : Event) : M unit :=
  onSession (fun s => setMemory (sessionMemory s ++ [e]) s).

(** [Math.round(ms / 60000)]: the nearest integer, a half going up. *)
Definition roundMinutes (ms : Z) : Z := (ms + 30000) / 60000.

Definition getElapsedMinutes : M Z :=
  let* start := this sessionStartTime in
  match start with
  | None | Some 0 => ret 0
  | Some t => let* now := dateNow in ret (roundMinutes (now - t))
  end.

Definition generateEventId : M jsstring :=
  let* now := dateNow in
  let* suffix := randomSuffix in
  ret (js "evt_" ++ showZ now ++ js "_" ++ suffix).

Definition defaultModes : list jsstring :=
  [js "system-design"; js "technical-screening"; js "dsa"].

Definition skillInitEvent (id : jsstring) (now : Z) (skill prompt : jsstring) : Event :=
  mkEvent id now (js "system") (js "Skill prompt loaded: " ++ skill) (js "skill_init")
    (js "system")
    (<[js "promptLength" := MNumber (Z.of_nat (length prompt))]>
       (<[js "skill" := MString skill]> ∅)).

(** The body of the loop over the skills. *)
Definition loadSkill (skill : jsstring) : M unit :=
  let* prompt := getSkillPrompt skill in
  match loaded prompt with
  | Some text =>
      let* id := generateEventId in
      let* now := dateNow in
      push (skillInitEvent id now skill text)
  | None => ret tt
  end.

Definition initializeWithSkillPrompts : M unit :=
  let* cfg := getConfig in
  let skills := default defaultModes (cfg_availableModes cfg) in
  forEach skills loadSkill.

Definition inferActionFromRole (role : jsstring) : jsstring :=
  if str_eq role (js "user") then js "user_message"
  else if str_eq role (js "model") then js "model_response"
  else if str_eq role (js "system") then js "system_event"
  else js "unknown".

(** The table of [categorizeAction]; names the object inherits from its
    prototype are not actions the program uses and are not looked up. *)
Definition categories : list (string * string) :=
  [("voice_input", "interaction"); ("chat_input", "interaction");
   ("model_response", "ai"); ("copilot_whisper", "ai");
   ("ocr_capture", "capture"); ("screenshot", "capture");
   ("skill_init", "system"); ("skill_change", "system");
   ("session_start", "system"); ("session_end", "system")]%string.

Fixpoint lookupCategory (table : list (string * string)) (action : jsstring)
    : option jsstring :=
  match table with
  | [] => None
  | (k, v) :: table' =>
      if str_eq action (js k) then Some (js v) else lookupCategory table' action
  end.

Definition categorizeAction (action : jsstring) : jsstring :=
  if negb (truthy action) then js "general"
  else default (js "general") (lookupCategory categories action).

(** *** Topic tagging *)

Definition is_topic_o (c : N) : bool :=
  Chars.is_word c || Chars.is_space c || (c =? 42)%N.

(** The vocabulary of [extractAndTagTopics]; every pattern has the flags
    [g] and [i] and stands between two [\b]. *)
Definition topicPatterns : list regex :=
  List.map (fun r => cats [WordEdge; r; WordEdge]) [
    (* Database & Storage *)
    words_i ["SQL"; "NoSQL"; "PostgreSQL"; "MySQL"; "MongoDB"; "DynamoDB"; "Cassandra";
             "Redis"; "Memcached"];
    words_i ["database"; "DB"; "schema"; "index"; "query"; "JOIN"; "partition"; "shard"];
    words_i ["ACID"; "BASE"; "transaction"; "consistency"; "durability"];
    (* Architecture *)
    words_i ["microservice"; "monolith"; "API gateway"; "service mesh"; "load balancer"];
    words_i ["REST"; "GraphQL"; "gRPC"; "WebSocket"; "HTTP"; "HTTPS"];
    words_i ["cache"; "caching"; "CDN"; "proxy"; "reverse proxy"];
    (* Scalability *)
    words_i ["horizontal scaling"; "vertical scaling"; "auto-scaling"; "replication";
             "read replica"];
    words_i ["throughput"; "latency"; "QPS"; "TPS"; "SLA"; "availability"];
    words_i ["CAP theorem"; "eventual consistency"; "strong consistency"];
    (* Algorithms & DS *)
    words_i ["hash map"; "hash table"; "binary search"; "two pointer"; "sliding window"];
    words_i ["dynamic programming"; "DP"; "greedy"; "BFS"; "DFS"; "topological sort"];
    words_i ["tree"; "graph"; "heap"; "stack"; "queue"; "trie"; "linked list"];
    ors [cats [lit_i "O("; plus is_topic_o; lit ")"];
         lit_i "time complexity"; lit_i "space complexity"];
    (* Infrastructure *)
    words_i ["Kubernetes"; "Docker"; "container"; "pod"; "deployment"; "Kafka";
             "RabbitMQ"];
    words_i ["message queue"; "pub-sub"; "event-driven"; "CQRS"; "saga"];
    (* Specific numbers/values *)
    cats [plus Chars.is_digit;
          opt (Cat (lit ".") (plus Chars.is_digit));
          star Chars.is_space;
          words_i ["MB"; "GB"; "TB"; "ms"; "seconds"; "QPS"; "TPS"; "ops/sec"]]
  ].

(** One [this.topicTags.get(topic).push(entry)], after the
    [if (!this.topicTags.has(topic)) this.topicTags.set(topic, [])]. *)
Definition tagTopic (entry : TopicEntry) (tags : gmap jsstring (list TopicEntry))
    (found : jsstring) : gmap jsstring (list TopicEntry) :=
  let topic := trim (toLowerCase found) in
  <[topic := default [] (tags !! topic) ++ [entry]]> tags.

Definition tagPattern (content : jsstring) (timestamp : Z)
    (tags : gmap jsstring (list TopicEntry)) (pattern : regex)
    : gmap jsstring (list TopicEntry) :=
  match match_all pattern content with
  | Some matches =>
      fold_left (tagTopic (mkTopicEntry (substring0 200 content) timestamp 1)) matches tags
  | None => tags
  end.

Definition extractAndTagTopics (content : jsstring) (timestamp : Z) : M unit :=
  if negb (truthy content) then ret tt
  else onSession (fun s =>
    setTopicTags (fold_left (tagPattern content timestamp) topicPatterns (topicTags s)) s).

(** *** Eviction *)

(** The test of the [filter] over the events. *)
Definition keepEvent (cutoffTime : Z) (event : Event) : bool :=
  if str_eq (ev_category event) (js "system") && str_eq (ev_action event) (js "skill_init")
  then true
  else cutoffTime <=? ev_timestamp event.

Definition keepEntry (cutoffTime : Z) (e : TopicEntry) : bool :=
  cutoffTime <=? te_timestamp e.

(** The body of the loop over the entries of the topic map, acting on the
    map it iterates. *)
Definition evictTopic (cutoffTime : Z) (topic : jsstring) (entries : list TopicEntry)
    (tags : gmap jsstring (list TopicEntry)) : gmap jsstring (list TopicEntry) :=
  let filtered := List.filter (keepEntry cutoffTime) entries in
  if (length filtered =? 0)%nat then delete topic tags
  else <[topic := filtered]> tags.

Definition evictTopics (cutoffTime : Z) (tags : gmap jsstring (list TopicEntry))
    : gmap jsstring (list TopicEntry) :=
  map_fold (evictTopic cutoffTime) tags tags.

Definition evictExpiredEvents : M unit :=
  let* now := dateNow in
  let* minutes := this maxDurationMinutes in
  let cutoffTime := now - minutes * 60 * 1000 in
  onSession (fun s => setMemory (List.filter (keepEvent cutoffTime) (sessionMemory s)) s) ;;
  onSession (fun s => setTopicTags (evictTopics cutoffTime (topicTags s)) s).

(** *** Maintenance *)

(** The event a merge leaves: the first of the pair, its content marked
    with the count 2 (the multiplication sign is code unit 215). *)
Definition merged (current : Event) : Event :=
  mkEvent (ev_id current) (ev_timestamp current) (ev_role current)
    (ev_content current ++ js " (" ++ [215%N] ++ js "2)")
    (ev_action current) (ev_category current)
    (<[js "consolidated" := MBoolean true]> (ev_metadata current)).

Definition sameSystemAction (current next : Event) : bool :=
  str_eq (ev_category current) (js "system")
  && str_eq (ev_category next) (js "system")
  && str_eq (ev_action next) (ev_action current).

(** The [while] loop of [consolidateSimilarEvents] over the events from
    index [i] on: a merge moves on by two, anything else by one. *)
Fixpoint consolidate (events : list Event) : list Event :=
  match events with
  | [] => []
  | current :: rest =>
      match rest with
      | next :: rest' =>
          if sameSystemAction current next
          then merged current :: consolidate rest'
          else current :: consolidate rest
      | [] => [current]
      end
  end.

Definition consolidateSimilarEvents : M unit :=
  onSession (fun s => setMemory (consolidate (sessionMemory s)) s).

(** [array.slice(n)] for [0 <= n]. *)
Definition slice (n : nat) {A : Type} (l : list A) : list A := skipn n l.

Definition performMaintenance : M unit :=
  evictExpiredEvents ;;
  consolidateSimilarEvents ;;
  let* mem := this sessionMemory in
  let* limit := this maxSize in
  when (limit <? length mem)%nat
    (* Keep the most recent events *)
    (let excess := (length mem - limit)%nat in
     onSession (setMemory (slice excess mem))).

Definition performMaintenanceIfNeeded : M unit :=
  let* mem := this sessionMemory in
  let* threshold := this compressionThreshold in
  when (threshold <? length mem)%nat performMaintenance.

(** *** Appending events *)

(** [a || b] on two strings, the first of which may be [null]. *)
Definition orElse (a : option jsstring) (b : jsstring) : jsstring :=
  match a with
  | Some x => if truthy x then x else b
  | None => b
  end.

(** The object literal of [addConversationEvent]: its fields are evaluated
    from top to bottom. *)
Definition newEvent (role content : jsstring) (action : option jsstring)
    (metadata : Metadata) : M Event :=
  let* id := generateEventId in
  let* timestamp := dateNow in
  let* skill := this activeSkill in
  let* elapsed := getElapsedMinutes in
  ret (mkEvent id timestamp role content
         (orElse action (inferActionFromRole role))
         (categorizeAction (orElse action role))
         (<[js "sessionElapsed" := MNumber elapsed]>
            (<[js "skill" := MString skill]> metadata))).

Definition addConversationEvent (role content : jsstring) (action : option jsstring)
    (metadata : Metadata) : M Event :=
  let* event := newEvent role content action metadata in
  push event ;;
  extractAndTagTopics content (ev_timestamp event) ;;
  evictExpiredEvents ;;
  performMaintenanceIfNeeded ;;
  ret event.

Definition addUserInput (text source : jsstring) : M Event :=
  addConversationEvent (js "user") text
    (Some (if str_eq source (js "speech") then js "voice_input" else js "chat_input"))
    (<[js "textLength" := MNumber (Z.of_nat (length text))]>
       (<[js "source" := MString source]> ∅)).

(** [{ responseLength: text.length, ...metadata }]: the caller's keys win. *)
Definition addModelResponse (text : jsstring) (metadata : Metadata) : M Event :=
  addConversationEvent (js "model") text (Some (js "model_response"))
    (metadata ∪ {[js "responseLength" := MNumber (Z.of_nat (length text))]}).

Definition screenshotPrefix : jsstring := js "Screenshot captured: ".

(** The text kept of a capture: at most 4000 code units, and three dots
    after them when something was cut. *)
Definition safeText (extractedText : jsstring) : jsstring :=
  if (4000 <? length extractedText)%nat
  then substring0 4000 extractedText ++ js "..."
  else extractedText.

Definition addOCREvent (extractedText : jsstring) (metadata : Metadata) : M Event :=
  (* Store more context (up to 4000 chars) for follow-up questions *)
  addConversationEvent (js "system") (screenshotPrefix ++ safeText extractedText)
    (Some (js "ocr_capture"))
    (metadata ∪ {[js "fullTextLength" := MNumber (Z.of_nat (length extractedText))]}).

(** [addEvent(action, details)]: the content is [details.content] when
    the details carry a text under that key, the action otherwise. *)
Definition detailsContent (details : Metadata) : option jsstring :=
  match details !! js "content" with
  | Some (MString text) => Some text
  | _ => None
  end.

Definition addEvent (action : jsstring) (details : Metadata) : M Event :=
  addConversationEvent (js "system") (orElse (detailsContent details) action)
    (Some action) details.

Definition setActiveSkill (skill : jsstring) : M unit :=
  let* previousSkill := this activeSkill in
  onSession (setActiveSkillField skill) ;;
  addConversationEvent (js "system")
    (js "Interview mode switched from " ++ previousSkill ++ js " to " ++ skill)
    (Some (js "skill_change"))
    (<[js "to" := MString skill]> (<[js "from" := MString previousSkill]> ∅)) ;;
  ret tt.

(** *** Follow-up context *)

Record Pair : Type := mkPair {
  question : jsstring;
  answer : jsstring;
  source : option jsstring
}.

(** The events the pairing looks at. *)
Definition relevant (e : Event) : bool :=
  (str_eq (ev_role e) (js "system") && str_eq (ev_action e) (js "ocr_capture"))
  || str_eq (ev_role e) (js "user")
  || str_eq (ev_role e) (js "model").

(** The pattern that finds the prefix of a capture at the start of a
    content: the words, any case, and the white space after them. *)
Definition prefixRegex : regex :=
  cats [Start; lit_i "Screenshot captured:"; star Chars.is_space].

Definition stripPrefix (content : jsstring) : jsstring := replace prefixRegex [] content.

Definition pending (q : option jsstring) : bool :=
  match q with Some text => truthy text | None => false end.

(** The state of the pairing loop: the pairs so far, [currentQuestion]
    and [questionSource]. *)
Definition PairState : Type := list Pair * option jsstring * option jsstring.

Definition pairStep (st : PairState) (event : Event) : PairState :=
  let '(pairs, currentQuestion, questionSource) := st in
  if str_eq (ev_action event) (js "ocr_capture") then
    (pairs, Some (stripPrefix (ev_content event)), Some (js "screen"))
  else if str_eq (ev_role event) (js "user") then
    (pairs, Some (ev_content event), Some (js "voice/chat"))
  else if str_eq (ev_role event) (js "model") && pending currentQuestion then
    (pairs ++ [mkPair (default [] currentQuestion) (ev_content event) questionSource],
     None, None)
  else st.

Definition buildPairs (relevantEvents : list Event) : list Pair :=
  fst (fst (fold_left pairStep relevantEvents ([], None, None))).

(** [array.slice(-n)] for a count [0 <= n]: the last [n] elements, and,
    [-0] being [0], the whole array for [n = 0]. *)
Definition sliceLast {A : Type} (n : nat) (l : list A) : list A :=
  match n with
  | O => l
  | S _ => skipn (length l - n) l
  end.

(** The text of one turn; [i] is the index of the pair in the slice. *)
Definition renderTurn (i : nat) (pair : Pair) : jsstring :=
  let label :=
    if bool_decide (source pair = Some (js "screen"))
    then js "SCREEN CONTENT" else js "USER MESSAGE" in
  (nl ++ js "--- Turn " ++ showNat (i + 1) ++ js " ---" ++ nl)
  ++ (label ++ js ":" ++ nl ++ substring0 1500 (question pair) ++ nl ++ nl)
  ++ (js "YOUR PREVIOUS ANSWER:" ++ nl ++ substring0 2000 (answer pair) ++ nl).

Definition contextHeader : jsstring := js "=== PREVIOUS CONVERSATION CONTEXT ===" ++ nl.
Definition contextFooter : jsstring := nl ++ js "=== END PREVIOUS CONTEXT ===" ++ nl.

Definition renderPairs (recentPairs : list Pair) : jsstring :=
  contextHeader
  ++ List.concat (imap renderTurn recentPairs)
  ++ contextFooter.

Definition followUpContextOf (memory : list Event) (maxPairs : nat) : jsstring :=
  let relevantEvents := List.filter relevant memory in
  if (length relevantEvents =? 0)%nat then []
  else
    let pairs := buildPairs relevantEvents in
    if (length pairs =? 0)%nat then []
    else renderPairs (sliceLast maxPairs pairs).

Definition getFollowUpContext (maxPairs : nat) : M jsstring :=
  let* memory := this sessionMemory in
  ret (followUpContextOf memory maxPairs).

(** *** Session lifecycle *)

(** [startSession(mode)].  The timer snapshot the source returns at the
    end is a view for the display and is left out. *)
Definition startSession (mode : option jsstring) : M unit :=
  match loaded mode with
  | Some m => onSession (setActiveSkillField m)
  | None => ret tt
  end ;;
  let* now := dateNow in
  onSession (setSessionStartTime (Some now)) ;;
  onSession (setSessionActive true) ;;
  onSession (setMemory []) ;;
  onSession (setTopicTags ∅) ;;
  (* Auto-end after maxDurationMinutes *)
  let* minutes := this maxDurationMinutes in
  let* handle := setTimeout (minutes * 60 * 1000) in
  onSession (setSessionTimer (Some handle)) ;;
  let* skill := this activeSkill in
  addConversationEvent (js "system")
    (js "Interview session started. Mode: " ++ skill ++ js ". Duration: "
     ++ showZ minutes ++ js " minutes.")
    (Some (js "session_start")) ∅ ;;
  ret tt.

(** [clear()]; a timer handle that is there is truthy. *)
Definition clear : M unit :=
  onSession (setMemory []) ;;
  onSession (setTopicTags ∅) ;;
  onSession (setSessionStartTime None) ;;
  onSession (setSessionActive false) ;;
  let* timer := this sessionTimer in
  match timer with
  | Some handle =>
      clearTimeout handle ;;
      onSession (setSessionTimer None)
  | None => ret tt
  end ;;
  initializeWithSkillPrompts.

(** [maxDurationMinutes || 240] and [defaultMode || 'system-design']. *)
Definition configuredMinutes (cfg : Config) : Z :=
  match cfg_maxDurationMinutes cfg with
  | Some 0 | None => 240
  | Some m => m
  end.

Definition fresh (cfg : Config) : SessionManager :=
  mkSessionManager [] true (cfg_maxMemorySize cfg) (cfg_compressionThreshold cfg)
    (configuredMinutes cfg) (orElse (cfg_defaultMode cfg) (js "system-design"))
    None false ∅ None.

(** [new SessionManager()]. *)
Definition construct : M unit :=
  let* cfg := getConfig in
  onSession (fun _ => fresh cfg) ;;
  initializeWithSkillPrompts.

End Session.

(** ** The LLM service ([LLMService]) *)

(** The long prose literals of the service: the assistant prompt of the
    co-pilot, the three response formats of [buildSystemPrompt] (the medium
    and the long one contain the assistant prompt), the extraction prompt
    and request of the vision step, the two built-in structured prompts, and
    the three notes added for a follow-up.  No branch of the program looks
    inside them, so they are kept as they come. *)
Record Texts : Type := mkTexts {
  copilotAssistantPrompt : jsstring;
  responseFormatShort : jsstring;
  responseFormatMedium : jsstring;
  responseFormatLong : jsstring;
  extractionPrompt : jsstring;
  extractionRequest : jsstring;
  builtinDesignPrompt : jsstring;
  builtinCodingPrompt : jsstring;
  followUpNoteText : jsstring;
  followUpNoteVoice : jsstring;
  followUpNoteScreen : jsstring
}.

(** What an [await] or a call inside a [try] comes back with. *)
Inductive Result (A : Type) : Type :=
| Returned (x : A)
| Thrown (e : Error).
Arguments Returned {A} x.
Arguments Thrown {A} e.

Record ResponseMetadata : Type := mkResponseMetadata {
  md_processingTime : Z;
  md_model : jsstring;
  md_visionModel : option jsstring;
  md_skill : jsstring;
  md_complexity : option jsstring;
  md_detectedType : option Classifier.QuestionType;
  md_usedFallback : bool;
  md_isFollowUp : option bool;
  md_isCopilot : option bool;
  md_isImageAnalysis : option bool;
  md_isStructuredResponse : option bool
}.

(** The object an entry point resolves with; a field a path does not set is
    [None]. *)
Record Response : Type := mkResponse {
  response : jsstring;
  partA : option jsstring;
  partB : option jsstring;
  detectedType : option Classifier.QuestionType;
  extractedText : option jsstring;
  metadata : ResponseMetadata
}.

Module LLM.
Import Classifier.

Definition self {A : Type} (field : LLMService -> A) : M A :=
  gets (fun a => field (service a)).

Definition bumpRequestCount (s : LLMService) : LLMService :=
  mkLLMService (client s) (isInitialized s) (model s) (S (requestCount s)) (errorCount s).

Definition bumpErrorCount (s : LLMService) : LLMService :=
  mkLLMService (client s) (isInitialized s) (model s) (requestCount s) (S (errorCount s)).

(** [client.chat.completions.create(call)], awaited: the call goes on the
    record and the backend replies. *)
Definition create (c : Call) : M Reply :=
  fun a =>
    let w := world a in
    (backend w (calls w) c,
     mkApp (mkWorld (clock w) (clockReads w) (random w) (randomDraws w) (prompts w)
              (config w) (base64 w) (toJPEG w) (backend w) (timers w) (timerCount w)
              (calls w ++ [c]) (sleeps w))
           (session a) (service a)).

(** [await this.delay(ms)]. *)
Definition delay (ms : Z) : M unit :=
  onWorld (fun w =>
    mkWorld (clock w) (clockReads w) (random w) (randomDraws w) (prompts w) (config w)
      (base64 w) (toJPEG w) (backend w) (timers w) (timerCount w) (calls w)
      (sleeps w ++ [ms])).

Definition defaultModel : jsstring := js "llama-3.3-70b-versatile".

(** [initializeClient()] for the API key the environment holds; the
    constructor of the client is taken not to throw. *)
Definition initializeClient (apiKey : option jsstring) : M unit :=
  match loaded apiKey with
  | None =>
      onService (fun s =>
        mkLLMService (client s) false (model s) (requestCount s) (errorCount s))
  | Some _ =>
      let* cfg := getConfig in
      onService (fun s =>
        mkLLMService true true (Session.orElse (cfg_model cfg) defaultModel)
          (requestCount s) (errorCount s))
  end.

(** [getGenerationConfig(overrides)]: an override, else the configured
    default, else the built-in value. *)
Record GenConfig : Type := mkGenConfig {
  temperature : Q;
  top_p : Q;
  max_tokens : nat
}.

Definition noOverrides : GenerationDefaults := mkGenerationDefaults None None None.

Definition getGenerationConfig (overrides : GenerationDefaults) : M GenConfig :=
  let* cfg := getConfig in
  let defaults := default noOverrides (cfg_generation cfg) in
  ret (mkGenConfig
         (default (default (7 # 10)%Q (gd_temperature defaults)) (gd_temperature overrides))
         (default (default (9 # 10)%Q (gd_topP defaults)) (gd_topP overrides))
         (default (default 4096%nat (gd_maxTokens defaults)) (gd_maxTokens overrides))).

Section WithTexts.
Variable texts : Texts.

Definition codeLanguageNote (lead : string) (programmingLanguage : option jsstring)
    : jsstring :=
  match loaded programmingLanguage with
  | Some language => nl ++ nl ++ js lead ++ language ++ js " only."
  | None => []
  end.

Definition complexityInstructions (complexity : jsstring) : jsstring :=
  if str_eq complexity (js "short") then responseFormatShort texts
  else if str_eq complexity (js "long") then responseFormatLong texts
  else responseFormatMedium texts.

Definition buildSystemPrompt (activeSkill complexity : jsstring)
    (programmingLanguage : option jsstring) : M jsstring :=
  let* skillPrompt := getSkillPrompt activeSkill in
  let basePrompt := default [] (loaded skillPrompt) in
  ret (basePrompt ++ complexityInstructions complexity
       ++ codeLanguageNote "When providing code, use " programmingLanguage).

(** *** Messages *)

Definition screenContentLabel : jsstring := js "[Screen Content]: ".

Definition formatEvent (event : Event) : Message :=
  let role :=
    if str_eq (ev_role event) (js "model") then js "assistant"
    else if str_eq (ev_role event) (js "user")
            || (str_eq (ev_role event) (js "system")
                && str_eq (ev_action event) (js "ocr_capture"))
    then js "user"
    else js "system" in
  let content :=
    if str_eq (ev_action event) (js "ocr_capture")
    then Regex.replace Session.prefixRegex screenContentLabel (ev_content event)
    else ev_content event in
  mkMessage role (Text content).

(** [array.slice(-20)]. *)
Definition last20 {A : Type} (l : list A) : list A := skipn (length l - 20) l.

Definition formatSessionMemory (sessionMemory : list Event) : list Message :=
  List.map formatEvent
    (last20 (List.filter (fun event => truthy (ev_role event) && truthy (ev_content event))
               sessionMemory)).

Definition buildMessages (systemPrompt userText : jsstring) (sessionMemory : list Event)
    : list Message :=
  [mkMessage (js "system") (Text systemPrompt)]
  ++ formatSessionMemory sessionMemory
  ++ [mkMessage (js "user") (Text userText)].

(** *** The request executor *)

Definition configuredRetries (cfg : Config) : nat :=
  match cfg_maxRetries cfg with
  | Some (S n) => S n
  | _ => 3%nat
  end.

Definition emptyResponse : Error := mkError (js "Empty response from Groq").
Definition notInitialized : Error := mkError (js "Groq client not initialized").

(** What one attempt of [executeRequest] makes of a reply: the text, or
    the error its [catch] receives. *)
Definition textOf (reply : Reply) : Result jsstring :=
  match reply with
  | Completion (Some text) => if truthy text then Returned text else Thrown emptyResponse
  | Completion None => Thrown emptyResponse
  | Rejected e => Thrown e
  end.

Definition requestCall (name : jsstring) (messages : list Message) (genConfig : GenConfig)
    : Call :=
  mkCall name messages (Some (temperature genConfig)) (Some (top_p genConfig))
    (Some (max_tokens genConfig)).

(** The [for] loop of [executeRequest] from attempt [attempt] on, with
    [remaining] attempts still allowed, the one under way included. *)
Fixpoint attempts (maxRetries remaining attempt : nat) (messages : list Message)
    (genConfig : GenConfig) (lastError : Error) : M (Result jsstring) :=
  match remaining with
  | O => ret (Thrown lastError)
  | S remaining' =>
      let* name := self model in
      let* reply := create (requestCall name messages genConfig) in
      match textOf reply with
      | Returned text => ret (Returned text)
      | Thrown error =>
          when (attempt <? maxRetries)%nat (delay (1000 * Z.of_nat attempt)) ;;
          attempts maxRetries remaining' (S attempt) messages genConfig error
      end
  end.

(** [executeRequest]; [lastError] has no value before the first failure,
    and the loop makes one attempt at least before it throws it. *)
Definition executeRequest (messages : list Message) (genConfig : GenConfig)
    : M (Result jsstring) :=
  let* ready := self client in
  if negb ready then ret (Thrown notInitialized)
  else
    let* cfg := getConfig in
    let maxRetries := configuredRetries cfg in
    attempts maxRetries maxRetries 1 messages genConfig notInitialized.

(** *** The canned fallback *)

Definition emDash : jsstring := [8212%N].

Definition fallbackText (activeSkill : jsstring) : jsstring :=
  if str_eq activeSkill (js "system-design") then
    js "Consider the scalability implications here. Think about read vs write patterns, caching layers, and whether you need strong consistency or eventual consistency."
  else if str_eq activeSkill (js "technical-screening") then
    js "Think about the time complexity of your approach. Is there a way to optimize with a different data structure like a hash map or a heap?"
  else
    js "Let me think about this problem. Consider the pattern " ++ emDash
    ++ js " is it a sliding window, two pointers, or dynamic programming approach?".

Definition generateFallbackResponse (text activeSkill : jsstring) : Response :=
  let processingTime := 0 in
  mkResponse (fallbackText activeSkill) (Some []) (Some [])
    (Some (modeDefault activeSkill))
    (Some text)
    (mkResponseMetadata processingTime (js "fallback") None activeSkill None None
       true None None None (Some false)).

(** The [catch] of an entry point. *)
Definition recover (text activeSkill : jsstring) : M Response :=
  onService bumpErrorCount ;;
  ret (generateFallbackResponse text activeSkill).

(** The follow-up transcript in front of the new text, when there is
    one. *)
Definition withFollowUp (lead : string) (text : jsstring) : M jsstring :=
  let* followUpContext := Session.getFollowUpContext 3 in
  if truthy followUpContext
  then ret (followUpContext ++ nl ++ nl ++ js lead ++ nl ++ text)
  else ret text.

(** *** Text *)

Definition textOverrides (complexity : jsstring) : GenerationDefaults :=
  if str_eq complexity (js "short")
  then mkGenerationDefaults (Some (3 # 10)%Q) None (Some 100%nat)
  else if str_eq complexity (js "medium")
  then mkGenerationDefaults (Some (5 # 10)%Q) None (Some 500%nat)
  else noOverrides.

Definition processTextWithSkill (text activeSkill : jsstring) (sessionMemory : list Event)
    (programmingLanguage : option jsstring) (complexity : jsstring) (isFollowUp : bool)
    : M Response :=
  let* startTime := dateNow in
  let* ready := self isInitialized in
  if negb ready then ret (generateFallbackResponse text activeSkill)
  else
    let* systemPrompt := buildSystemPrompt activeSkill complexity programmingLanguage in
    let* systemPrompt :=
      ret (if isFollowUp then systemPrompt ++ followUpNoteText texts else systemPrompt) in
    let* userMessage :=
      if isFollowUp
      then withFollowUp "NEW MESSAGE (respond to this, building on context above):" text
      else ret text in
    let messages := buildMessages systemPrompt userMessage sessionMemory in
    let* genConfig := getGenerationConfig (textOverrides complexity) in
    let* outcome := executeRequest messages genConfig in
    match outcome with
    | Returned answer =>
        let* finished := dateNow in
        let processingTime := finished - startTime in
        onService bumpRequestCount ;;
        let* name := self model in
        ret (mkResponse answer None None None None
               (mkResponseMetadata processingTime name None activeSkill (Some complexity)
                  None false (Some isFollowUp) None None None))
    | Thrown _ => recover text activeSkill
    end.

(** *** Transcription *)

Definition focusAreas (activeSkill : jsstring) : jsstring :=
  if str_eq activeSkill (js "system-design") then
    js "- Scalability patterns, load balancers, database choices, caching strategies, CAP theorem, microservices, message queues, consistency models, rate limiting, sharding"
  else if str_eq activeSkill (js "technical-screening") then
    js "- Algorithm optimization, data structure selection, time/space complexity, edge cases, code correctness, design patterns"
  else
    js "- Data structures, algorithms, optimal complexity, clean implementations".

Definition getCopilotWhisperPrompt (activeSkill : jsstring)
    (programmingLanguage : option jsstring) : M jsstring :=
  let* copilotPrompt := getSkillPrompt (js "copilot-whisper") in
  let prompt :=
    match loaded copilotPrompt with
    | None =>
        copilotAssistantPrompt texts ++ nl ++ js "FOCUS AREAS for " ++ activeSkill
        ++ js ":" ++ nl ++ focusAreas activeSkill
    | Some fromFile => copilotAssistantPrompt texts ++ nl ++ nl ++ fromFile
    end in
  ret (prompt ++ codeLanguageNote "If code is needed, use " programmingLanguage).

Definition processTranscriptionWithIntelligentResponse (text activeSkill : jsstring)
    (sessionMemory : list Event) (programmingLanguage : option jsstring)
    (isFollowUp : bool) : M Response :=
  let* startTime := dateNow in
  let* ready := self isInitialized in
  if negb ready then ret (generateFallbackResponse text activeSkill)
  else
    let* copilotPrompt := getCopilotWhisperPrompt activeSkill programmingLanguage in
    let* copilotPrompt :=
      ret (if isFollowUp then copilotPrompt ++ followUpNoteVoice texts else copilotPrompt) in
    let* userMessage :=
      if isFollowUp
      then withFollowUp "NEW USER MESSAGE (respond to this, building on context above):" text
      else ret text in
    let messages := buildMessages copilotPrompt userMessage sessionMemory in
    let* genConfig :=
      getGenerationConfig
        (mkGenerationDefaults (Some (5 # 10)%Q) None
           (Some (if isFollowUp then 500%nat else 300%nat))) in
    let* outcome := executeRequest messages genConfig in
    match outcome with
    | Returned answer =>
        let* finished := dateNow in
        let processingTime := finished - startTime in
        onService bumpRequestCount ;;
        let* name := self model in
        ret (mkResponse answer None None None None
               (mkResponseMetadata processingTime name None activeSkill (Some (js "medium"))
                  None false (Some isFollowUp) (Some true) None None))
    | Thrown _ => recover text activeSkill
    end.

(** *** Screen capture *)

(** Vision models to try in order of preference. *)
Definition visionModels : list jsstring :=
  [js "meta-llama/llama-4-scout-17b-16e-instruct";
   js "llama-3.2-11b-vision-preview";
   js "llama-3.2-90b-vision-preview"].

Definition visionCall (extractionMessages : list Message) (modelName : jsstring) : Call :=
  mkCall modelName extractionMessages (Some (1 # 10)%Q) None (Some 2048%nat).

(** The loop over the vision models: the name of the model whose call
    resolved and the text it extracted, or nothing when every call was
    rejected. *)
Fixpoint tryVisionModels (candidates : list jsstring) (extractionMessages : list Message)
    : M (option (jsstring * jsstring)) :=
  match candidates with
  | [] => ret None
  | modelName :: candidates' =>
      let* reply := create (visionCall extractionMessages modelName) in
      match reply with
      | Completion content => ret (Some (modelName, default [] (loaded content)))
      | Rejected _ => tryVisionModels candidates' extractionMessages
      end
  end.

Definition fourMegabytes : nat := 4 * 1024 * 1024.

Definition dataUrl (mimeType payload : jsstring) : jsstring :=
  js "data:" ++ mimeType ++ js ";base64," ++ payload.

(** The URL of the image: as it is, or re-encoded as JPEG when its
    base64 text is longer than 4 MB and the re-encoding does not fail. *)
Definition imageUrlOf (imageBuffer : list N) (mimeType : jsstring) : M jsstring :=
  let* w := gets world in
  let base64Image := base64 w imageBuffer in
  if (fourMegabytes <? length base64Image)%nat then
    match toJPEG w imageBuffer with
    | Some jpegBuffer => ret (dataUrl (js "image/jpeg") (base64 w jpegBuffer))
    | None => ret (dataUrl mimeType base64Image)
    end
  else ret (dataUrl mimeType base64Image).

Definition structuredPromptFor (detected : QuestionType) : M jsstring :=
  let promptName :=
    match detected with
    | Design => js "screen-capture-design"
    | Coding => js "screen-capture-coding"
    end in
  let* loadedPrompt := getSkillPrompt promptName in
  match loaded loadedPrompt with
  | Some fromFile => ret fromFile
  | None =>
      ret (match detected with
           | Design => builtinDesignPrompt texts
           | Coding => builtinCodingPrompt texts
           end)
  end.

Definition imageRequested : jsstring := js "Image analysis requested".
Definition imageFailed : jsstring := js "Image analysis failed".

Definition processScreenCaptureWithStructuredResponse (imageBuffer : list N)
    (mimeType activeSkill : jsstring) (sessionMemory : list Event)
    (programmingLanguage : option jsstring) (isFollowUp : bool) : M Response :=
  let* startTime := dateNow in
  let* ready := self isInitialized in
  if negb ready then ret (generateFallbackResponse imageRequested activeSkill)
  else
    (* Step 1: Extract text/content from the screenshot using vision model *)
    let* imageUrl := imageUrlOf imageBuffer mimeType in
    let extractionMessages :=
      [mkMessage (js "system") (Text (extractionPrompt texts));
       mkMessage (js "user") (Parts [TextPart (extractionRequest texts); ImageUrl imageUrl])] in
    let* extraction := tryVisionModels visionModels extractionMessages in
    match extraction with
    | None => recover imageFailed activeSkill
    | Some (visionModel, extracted) =>
        (* Step 2: Detect whether this is a design or coding question *)
        let detected := detectQuestionType extracted activeSkill in
        (* Step 3: Load the appropriate structured prompt *)
        let* structuredPrompt := structuredPromptFor detected in
        let structuredPrompt :=
          structuredPrompt
          ++ codeLanguageNote "When providing code, use " programmingLanguage in
        (* Step 4: Build context-aware prompt and generate response *)
        let structuredPrompt :=
          if isFollowUp then structuredPrompt ++ followUpNoteScreen texts
          else structuredPrompt in
        let* userMessage :=
          if isFollowUp
          then withFollowUp "NEW SCREEN CONTENT (answer this, building on context above):"
                 extracted
          else ret extracted in
        let memoryToUse := if isFollowUp then sessionMemory else [] in
        let responseMessages := buildMessages structuredPrompt userMessage memoryToUse in
        let* genConfig :=
          getGenerationConfig
            (mkGenerationDefaults (Some (5 # 10)%Q) None (Some 4096%nat)) in
        let* outcome := executeRequest responseMessages genConfig in
        match outcome with
        | Returned answer =>
            let* finished := dateNow in
            let processingTime := finished - startTime in
            onService bumpRequestCount ;;
            (* Step 5: Split response into Part A and Part B *)
            let '(a, b) := Splitter.splitResponse answer in
            let* name := self model in
            ret (mkResponse answer (Some a) (Some b) (Some detected) (Some extracted)
                   (mkResponseMetadata processingTime name (Some visionModel) activeSkill
                      None (Some detected) false (Some isFollowUp) None (Some true)
                      (Some true)))
        | Thrown _ => recover imageFailed activeSkill
        end
    end.

End WithTexts.

End LLM.

(** ** Views of the session and its end ([SessionManager]) *)

(** What [getSessionTimer] returns; before a session has started the
    object has the fields [elapsed], [remaining] and [isActive] only. *)
Record TimerView : Type := mkTimerView {
  tv_elapsed : Z;
  tv_remaining : Z;
  tv_elapsedFormatted : option jsstring;
  tv_remainingFormatted : option jsstring;
  tv_isActive : bool;
  tv_percentComplete : option Z
}.

(** An entry of a transcript or of a history. *)
Record HistoryEntry : Type := mkHistoryEntry {
  he_role : jsstring;
  he_content : jsstring;
  he_timestamp : Z;
  he_action : option jsstring
}.

(** What [generateSessionSummary] returns.  The topic index is a finite
    map, which does not keep the order in which its keys were inserted, so
    [topicsCovered] is the set of the keys. *)
Record Summary : Type := mkSummary {
  sum_duration : jsstring;
  sum_durationMinutes : Z;
  sum_mode : jsstring;
  sum_totalEvents : nat;
  sum_userMessages : nat;
  sum_aiResponses : nat;
  sum_topicsCovered : gset jsstring;
  sum_topicCount : nat;
  sum_transcript : list HistoryEntry
}.

(** What [getOptimizedHistory] returns. *)
Record OptimizedHistory : Type := mkOptimizedHistory {
  oh_recent : list Event;
  oh_important : list Event;
  oh_topics : gset jsstring;
  oh_timer : TimerView;
  oh_eventCount : nat
}.

(** What [getMemoryUsage] returns. *)
Record MemoryUsage : Type := mkMemoryUsage {
  mu_eventCount : nat;
  mu_topicCount : nat;
  mu_maxSize : nat;
  mu_maxDurationMinutes : Z;
  mu_sessionActive : bool;
  mu_timer : TimerView
}.

Module Views.
Import Session.

(** [String(n).padStart(2, '0')] for an integer [n]. *)
Definition pad2 (n : Z) : jsstring :=
  let digits := showZ n in
  repeat 48%N (2 - length digits)%nat ++ digits.

(** [formatTime(totalSeconds)] for an integer: [Math.floor] of a quotient
    is the floor division, [%] the remainder with the sign of the
    dividend. *)
Definition formatTime (totalSeconds : Z) : jsstring :=
  let hours := totalSeconds / 3600 in
  let minutes := Z.rem totalSeconds 3600 / 60 in
  let seconds := Z.rem totalSeconds 60 in
  if 0 <? hours
  then pad2 hours ++ js ":" ++ pad2 minutes ++ js ":" ++ pad2 seconds
  else pad2 minutes ++ js ":" ++ pad2 seconds.

(** [formatTimeAgo(timestamp)]. *)
Definition formatTimeAgo (timestamp : Z) : M jsstring :=
  let* now := dateNow in
  let minutes := roundMinutes (now - timestamp) in
  if minutes <? 1 then ret (js "just now")
  else if minutes =? 1 then ret (js "1 minute ago")
  else ret (showZ minutes ++ js " minutes ago").

Section WithPercent.

(** [Math.min(100, Math.round((elapsedSeconds / totalSeconds) * 100))] is
    computed in double precision; [percentOf elapsedSeconds totalSeconds]
    is the number it gives. *)
Variable percentOf : Z -> Z -> Z.

Definition getSessionTimer : M TimerView :=
  let* start := this sessionStartTime in
  let* minutes := this maxDurationMinutes in
  match start with
  | None | Some 0 => ret (mkTimerView 0 (minutes * 60) None None false None)
  | Some t =>
      let* now := dateNow in
      let elapsedMs := now - t in
      let elapsedSeconds := elapsedMs / 1000 in
      let totalSeconds := minutes * 60 in
      let remainingSeconds := Z.max 0 (totalSeconds - elapsedSeconds) in
      let* active := this sessionActive in
      ret (mkTimerView elapsedSeconds remainingSeconds
             (Some (formatTime elapsedSeconds)) (Some (formatTime remainingSeconds))
             active (Some (percentOf elapsedSeconds totalSeconds)))
  end.

Definition isUserOrModel (e : Event) : bool :=
  str_eq (ev_role e) (js "user") || str_eq (ev_role e) (js "model").

Definition transcriptEntry (e : Event) : HistoryEntry :=
  mkHistoryEntry (ev_role e) (ev_content e) (ev_timestamp e) None.

(** [generateSessionSummary()]: the timer first, the elapsed minutes when
    the object literal reaches them. *)
Definition generateSessionSummary : M Summary :=
  let* timer := getSessionTimer in
  let* s := gets session in
  let topics := dom (topicTags s) in
  let userMessages :=
    length (List.filter (fun e => str_eq (ev_role e) (js "user")) (sessionMemory s)) in
  let aiResponses :=
    length (List.filter (fun e => str_eq (ev_role e) (js "model")) (sessionMemory s)) in
  let* durationMinutes := getElapsedMinutes in
  ret (mkSummary
         (default (js "00:00") (loaded (tv_elapsedFormatted timer)))
         durationMinutes (activeSkill s) (length (sessionMemory s)) userMessages aiResponses
         topics (size topics)
         (List.map transcriptEntry (List.filter isUserOrModel (sessionMemory s)))).

(** [endSession()]; its log line reads the clock once more. *)
Definition endSession : M Summary :=
  let* timer := this sessionTimer in
  match timer with
  | Some handle =>
      clearTimeout handle ;;
      onSession (setSessionTimer None)
  | None => ret tt
  end ;;
  let* summary := generateSessionSummary in
  onSession (setSessionActive false) ;;
  getElapsedMinutes ;;
  ret summary.

(** [startSession(mode)] with the timer view it returns. *)
Definition startSessionTimer (mode : option jsstring) : M TimerView :=
  startSession mode ;;
  getSessionTimer.

(** *** Histories *)

Definition getConversationHistory (maxEntries : nat) : M (list HistoryEntry) :=
  let* memory := this sessionMemory in
  ret (List.map transcriptEntry (sliceLast maxEntries (List.filter isUserOrModel memory))).

Definition getFullConversationHistory : M (list HistoryEntry) :=
  let* memory := this sessionMemory in
  ret (List.map
         (fun e => mkHistoryEntry (ev_role e) (ev_content e) (ev_timestamp e)
                     (Some (ev_action e)))
         (List.filter (fun e => negb (str_eq (ev_action e) (js "skill_init"))) memory)).

(** The two tests of [getOptimizedHistory]. *)
Definition isRecent (e : Event) : bool :=
  str_eq (ev_role e) (js "user")
  || str_eq (ev_role e) (js "model")
  || (str_eq (ev_role e) (js "system") && str_eq (ev_action e) (js "ocr_capture")).

Definition isImportant (e : Event) : bool :=
  str_eq (ev_category e) (js "interaction")
  || str_eq (ev_category e) (js "ai")
  || (str_eq (ev_category e) (js "system") && str_eq (ev_action e) (js "ocr_capture")).

Definition getOptimizedHistory (limit : nat) : M OptimizedHistory :=
  evictExpiredEvents ;;
  let* memory := this sessionMemory in
  let recent := sliceLast limit (List.filter isRecent memory) in
  let important := sliceLast 5 (List.filter isImportant memory) in
  let* tags := this topicTags in
  let* timer := getSessionTimer in
  ret (mkOptimizedHistory recent important (dom tags) timer (length memory)).

Definition getRecentEvents (count : nat) : M (list Event) :=
  let* memory := this sessionMemory in
  ret (sliceLast count memory).

Definition getMemoryUsage : M MemoryUsage :=
  let* s := gets session in
  let* timer := getSessionTimer in
  ret (mkMemoryUsage (length (sessionMemory s)) (size (topicTags s)) (maxSize s)
         (maxDurationMinutes s) (sessionActive s) timer).

End WithPercent.

End Views.

(** ** Image analysis, the connection test and the key ([LLMService]) *)

(** What [testConnection] resolves with.  The errors of this development
    carry a message only, so the [status] of a failure is not part of the
    report. *)
Record ConnectionReport : Type := mkConnectionReport {
  cr_success : bool;
  cr_response : option jsstring;
  cr_responseTime : option Z;
  cr_model : option jsstring;
  cr_error : option jsstring
}.

(** What [getStats] returns. *)
Record Stats : Type := mkStats {
  st_isInitialized : bool;
  st_model : jsstring;
  st_requestCount : nat;
  st_errorCount : nat;
  st_provider : jsstring
}.

Module Connection.
Import LLM.

Definition noClient : jsstring := js "Client not initialized. Check your GROQ_API_KEY.".

(** The one message of the test; the words it asks for stand between
    double quotes (code unit 34). *)
Definition testMessage : jsstring :=
  js "Say " ++ [34%N] ++ js "DeepVoice connected" ++ [34%N] ++ js " in exactly those words.".

Definition testCall (name : jsstring) : Call :=
  mkCall name [mkMessage (js "user") (Text testMessage)] (Some 0%Q) None (Some 20%nat).

Definition testConnection : M ConnectionReport :=
  let* hasClient := self client in
  if negb hasClient then ret (mkConnectionReport false None None None (Some noClient))
  else
    let* startTime := dateNow in
    let* name := self model in
    let* reply := create (testCall name) in
    match reply with
    | Completion content =>
        let* finished := dateNow in
        let responseTime := finished - startTime in
        let text := default [] (loaded content) in
        let* name := self model in
        ret (mkConnectionReport true (Some (trim text)) (Some responseTime) (Some name) None)
    | Rejected error =>
        ret (mkConnectionReport false None None None (Some (err_message error)))
    end.

(** [updateApiKey(newApiKey)] for a string: the environment then holds the
    new key, and [initializeClient] reads it from there. *)
Definition updateApiKey (newApiKey : jsstring) : M unit :=
  initializeClient (Some newApiKey).

Definition getStats : M Stats :=
  let* s := gets service in
  ret (mkStats (isInitialized s) (model s) (requestCount s) (errorCount s) (js "groq")).

Section WithTexts.
Variable texts : Texts.

(** The rules of the extraction and the request that goes with the image:
    two more prose constants no branch looks into. *)
Variable visualDataExtractorRules : jsstring.
Variable completeExtractionRequest : jsstring.

Definition imageModel : jsstring := js "llama-3.2-11b-vision-preview".
Definition noResponse : jsstring := js "No response generated.".

(** [processImageWithSkill]; with no client object the call throws inside
    the [try], before anything is sent. *)
Definition processImageWithSkill (imageBuffer : list N) (mimeType activeSkill : jsstring)
    (sessionMemory : list Event) (programmingLanguage : option jsstring) : M Response :=
  let* startTime := dateNow in
  let* ready := self isInitialized in
  if negb ready then ret (generateFallbackResponse imageRequested activeSkill)
  else
    let* skillPrompt := buildSystemPrompt texts activeSkill (js "long") programmingLanguage in
    let systemPrompt := visualDataExtractorRules ++ nl ++ nl ++ skillPrompt in
    (* Encode image to base64 for vision models *)
    let* w := gets world in
    let imageUrl := dataUrl mimeType (base64 w imageBuffer) in
    let messages :=
      [mkMessage (js "system") (Text systemPrompt)]
      ++ formatSessionMemory sessionMemory
      ++ [mkMessage (js "user")
            (Parts [TextPart completeExtractionRequest; ImageUrl imageUrl])] in
    let* hasClient := self client in
    if negb hasClient then recover imageFailed activeSkill
    else
      let* genConfig :=
        getGenerationConfig (mkGenerationDefaults (Some (1 # 10)%Q) None None) in
      let* reply := create (requestCall imageModel messages genConfig) in
      match reply with
      | Completion content =>
          let answer := default noResponse (loaded content) in
          let* finished := dateNow in
          let processingTime := finished - startTime in
          onService bumpRequestCount ;;
          ret (mkResponse answer None None None None
                 (mkResponseMetadata processingTime imageModel None activeSkill None None
                    false None None (Some true) None))
      | Rejected _ => recover imageFailed activeSkill
      end.

End WithTexts.

End Connection.

(** * Properties *)

Local Open Scope nat_scope.

(** ** Strings *)

Lemma str_eq_true (a b : jsstring) : str_eq a b = true <-> a = b.
Proof. unfold str_eq. apply bool_decide_eq_true. Qed.

Lemma str_eq_false (a b : jsstring) : str_eq a b = false <-> a <> b.
Proof. unfold str_eq. apply bool_decide_eq_false. Qed.

Lemma str_eq_refl (a : jsstring) : str_eq a a = true.
Proof. by apply str_eq_true. Qed.

Lemma truthy_false (s : jsstring) : truthy s = false <-> s = [].
Proof. destruct s; simpl; split; congruence. Qed.

Lemma substring0_length (n : nat) (s : jsstring) : length (substring0 n s) <= n.
Proof. unfold substring0. rewrite length_firstn. lia. Qed.

(** ** Eviction *)

Module EvictionFacts.
Import Session.

(** What the loop over the topic map leaves under a key: the entries
    inside the window, and no key at all when there is none. *)
Definition surviving (cutoffTime : Z) (entries : list TopicEntry)
    : option (list TopicEntry) :=
  match List.filter (keepEntry cutoffTime) entries with
  | [] => None
  | kept => Some kept
  end.

Lemma evictTopic_spec (cutoffTime : Z) (topic : jsstring) (entries : list TopicEntry)
    (tags : gmap jsstring (list TopicEntry)) (key : jsstring) :
  evictTopic cutoffTime topic entries tags !! key =
    if decide (topic = key) then surviving cutoffTime entries else tags !! key.
Proof.
  unfold evictTopic, surviving.
  destruct (List.filter (keepEntry cutoffTime) entries) as [|e kept]; simpl.
  - rewrite lookup_delete. by destruct (decide (topic = key)).
  - rewrite lookup_insert. by destruct (decide (topic = key)).
Qed.

Lemma map_fold_evictTopic (cutoffTime : Z) (live tags : gmap jsstring (list TopicEntry))
    (key : jsstring) :
  map_fold (evictTopic cutoffTime) live tags !! key =
    match tags !! key with
    | Some entries => surviving cutoffTime entries
    | None => live !! key
    end.
Proof.
  apply (map_fold_weak_ind (fun r m =>
    r !! key = match m !! key with
               | Some entries => surviving cutoffTime entries
               | None => live !! key
               end)).
  - by rewrite lookup_empty.
  - intros topic entries m r Hfresh IH.
    rewrite evictTopic_spec, lookup_insert.
    destruct (decide (topic = key)) as [->|Hne]; [done|exact IH].
Qed.

Lemma evictTopics_lookup (cutoffTime : Z) (tags : gmap jsstring (list TopicEntry))
    (key : jsstring) :
  evictTopics cutoffTime tags !! key = tags !! key ≫= surviving cutoffTime.
Proof.
  unfold evictTopics. rewrite map_fold_evictTopic.
  by destruct (tags !! key).
Qed.

Lemma surviving_Some (cutoffTime : Z) (entries kept : list TopicEntry) :
  surviving cutoffTime entries = Some kept ->
  kept = List.filter (keepEntry cutoffTime) entries /\ kept <> [].
Proof.
  unfold surviving.
  destruct (List.filter (keepEntry cutoffTime) entries) eqn:E; [done|].
  intros [= <-]. done.
Qed.

(** The clock reading [evictExpiredEvents] takes, and its cut-off. *)
Definition nextReading (a : App) : Z := clock (world a) (clockReads (world a)).

Definition cutoffOf (a : App) : Z :=
  (nextReading a - maxDurationMinutes (session a) * 60 * 1000)%Z.

Lemma evictExpiredEvents_run (a : App) :
  Session.evictExpiredEvents a =
    (tt,
     mkApp (world (snd (dateNow a)))
       (setTopicTags (evictTopics (cutoffOf a) (topicTags (session a)))
          (setMemory (List.filter (keepEvent (cutoffOf a)) (sessionMemory (session a)))
             (session a)))
       (service a)).
Proof. by destruct a. Qed.

Lemma keepEvent_true (cutoffTime : Z) (e : Event) :
  keepEvent cutoffTime e = true <->
  (cutoffTime <= ev_timestamp e)%Z
  \/ (ev_category e = js "system" /\ ev_action e = js "skill_init").
Proof.
  unfold keepEvent.
  destruct (str_eq (ev_category e) (js "system")) eqn:Hc;
    destruct (str_eq (ev_action e) (js "skill_init")) eqn:Ha; cbn [andb];
    rewrite ?Z.leb_le;
    first [apply str_eq_true in Hc | apply str_eq_false in Hc];
    first [apply str_eq_true in Ha | apply str_eq_false in Ha];
    tauto.
Qed.

End EvictionFacts.

(** C3.  After [evictExpiredEvents] has run with the clock at [now], every
    event left in the log has a timestamp of at least
    [now - maxDurationMinutes * 60000] or is a [skill_init] event of category
    [system], and every event of the old log that meets this condition is
    still there; under every topic key that is left, the occurrences are
    those of the old list inside the same window, and there is at least one;
    an occurrence inside the window is never lost. *)
Theorem evictExpired_leaves_window (a : App) :
  let cutoff := EvictionFacts.cutoffOf a in
  let before := session a in
  let after := session (exec Session.evictExpiredEvents a) in
  (forall e, In e (sessionMemory after) ->
     (cutoff <= ev_timestamp e)%Z
     \/ (ev_category e = js "system" /\ ev_action e = js "skill_init"))
  /\ (forall e, In e (sessionMemory before) ->
        (cutoff <= ev_timestamp e)%Z
        \/ (ev_category e = js "system" /\ ev_action e = js "skill_init") ->
        In e (sessionMemory after))
  /\ (forall topic kept, topicTags after !! topic = Some kept ->
        kept <> []
        /\ (forall o, In o kept -> (cutoff <= te_timestamp o)%Z)
        /\ exists entries, topicTags before !! topic = Some entries
             /\ kept = List.filter (fun o => (cutoff <=? te_timestamp o)%Z) entries)
  /\ (forall topic entries o, topicTags before !! topic = Some entries ->
        In o entries -> (cutoff <= te_timestamp o)%Z ->
        exists kept, topicTags after !! topic = Some kept /\ In o kept).
Proof.
  intros cutoff before after.
  assert (Hmem : sessionMemory after
                 = List.filter (Session.keepEvent cutoff) (sessionMemory before)).
  { unfold after, exec. by rewrite EvictionFacts.evictExpiredEvents_run. }
  assert (Htags : topicTags after = Session.evictTopics cutoff (topicTags before)).
  { unfold after, exec. by rewrite EvictionFacts.evictExpiredEvents_run. }
  repeat split.
  - intros e He. rewrite Hmem in He. apply filter_In in He as [_ He].
    by apply EvictionFacts.keepEvent_true.
  - intros e He Hkeep. rewrite Hmem. apply filter_In. split; [done|].
    by apply EvictionFacts.keepEvent_true.
  - rewrite Htags, EvictionFacts.evictTopics_lookup in H.
    destruct (topicTags before !! topic) as [entries|]; [|done]. simpl in H.
    by apply EvictionFacts.surviving_Some in H as [_ ?].
  - intros o Ho. rewrite Htags, EvictionFacts.evictTopics_lookup in H.
    destruct (topicTags before !! topic) as [entries|]; [|done]. simpl in H.
    apply EvictionFacts.surviving_Some in H as [-> _].
    apply filter_In in Ho as [_ Ho]. by apply Z.leb_le.
  - rewrite Htags, EvictionFacts.evictTopics_lookup in H.
    destruct (topicTags before !! topic) as [entries|]; [|done]. simpl in H.
    apply EvictionFacts.surviving_Some in H as [-> _]. by exists entries.
  - intros topic entries o Hentries Ho Hin.
    rewrite Htags, EvictionFacts.evictTopics_lookup, Hentries. simpl.
    unfold EvictionFacts.surviving.
    assert (Hkept : In o (List.filter (Session.keepEntry cutoff) entries)).
    { apply filter_In. split; [done|]. by apply Z.leb_le. }
    destruct (List.filter (Session.keepEntry cutoff) entries) as [|x kept]; [done|].
    by eexists.
Qed.

(** ** Consolidation *)

Module ConsolidationFacts.
Import Session.

(** Some event of category [system] stands right before another one of
    category [system] with the same action. *)
Fixpoint adjacentDuplicate (events : list Event) : bool :=
  match events with
  | current :: rest =>
      match rest with
      | next :: _ => sameSystemAction current next || adjacentDuplicate rest
      | [] => false
      end
  | [] => false
  end.

(** Induction that follows the loop: it moves on by one event or by
    two. *)
Lemma by_pairs (P : list Event -> Prop) :
  P [] ->
  (forall e, P [e]) ->
  (forall a b l, P l -> P (b :: l) -> P (a :: b :: l)) ->
  forall l, P l.
Proof.
  intros Hnil Hone Hstep l.
  assert (H : P l /\ forall e, P (e :: l)); [|tauto].
  induction l as [|x l [IH1 IH2]]; split; auto.
Qed.

Lemma consolidate_pair (a b : Event) (l : list Event) :
  consolidate (a :: b :: l) =
    if sameSystemAction a b then merged a :: consolidate l
    else a :: consolidate (b :: l).
Proof. reflexivity. Qed.

Lemma adjacentDuplicate_pair (a b : Event) (l : list Event) :
  adjacentDuplicate (a :: b :: l) = sameSystemAction a b || adjacentDuplicate (b :: l).
Proof. reflexivity. Qed.

Lemma consolidate_length (events : list Event) :
  length (consolidate events) <= length events.
Proof.
  induction events as [| e | a b l IH1 IH2] using by_pairs; [done..|].
  rewrite consolidate_pair.
  destruct (sameSystemAction a b); cbn [length] in *; lia.
Qed.

Lemma consolidate_fixed (events : list Event) :
  adjacentDuplicate events = false -> consolidate events = events.
Proof.
  induction events as [| e | a b l IH1 IH2] using by_pairs; [done..|].
  rewrite adjacentDuplicate_pair, consolidate_pair. intros H.
  apply orb_false_iff in H as [-> H]. f_equal. by apply IH2.
Qed.

Lemma consolidate_shrinks (events : list Event) :
  adjacentDuplicate events = true -> length (consolidate events) < length events.
Proof.
  induction events as [| e | a b l IH1 IH2] using by_pairs; [done..|].
  rewrite adjacentDuplicate_pair, consolidate_pair. intros H.
  destruct (sameSystemAction a b).
  - pose proof (consolidate_length l). cbn [length]. lia.
  - cbn [orb] in H. specialize (IH2 H). cbn [length] in *. lia.
Qed.

Lemma consolidate_fixed_iff (events : list Event) :
  consolidate events = events <-> adjacentDuplicate events = false.
Proof.
  split; [|apply consolidate_fixed].
  intros Hfix. destruct (adjacentDuplicate events) eqn:E; [|done].
  apply consolidate_shrinks in E. rewrite Hfix in E. lia.
Qed.

Lemma consolidateSimilarEvents_run (a : App) :
  sessionMemory (session (exec consolidateSimilarEvents a))
  = consolidate (sessionMemory (session a)).
Proof. by destruct a. Qed.

(** Three times the same event of category [system]: one pass leaves
    two, a second pass leaves one. *)
Lemma consolidate_triple (e : Event) :
  ev_category e = js "system" ->
  consolidate [e; e; e] = [merged e; e]
  /\ consolidate [merged e; e] = [merged (merged e)].
Proof.
  intros Hsys.
  assert (H1 : sameSystemAction e e = true).
  { unfold sameSystemAction. by rewrite Hsys, !str_eq_refl. }
  assert (H2 : sameSystemAction (merged e) e = true).
  { unfold sameSystemAction. cbn [merged ev_category ev_action].
    by rewrite Hsys, !str_eq_refl. }
  rewrite !consolidate_pair, H1, H2. by cbn [consolidate].
Qed.

(** A log that three calls of [setActiveSkill] leave: three
    [skill_change] events in a row. *)
Definition modeSwitch (id : string) (t : Z) : Event :=
  mkEvent (js id) t (js "system") (js "Interview mode switched from dsa to dsa")
    (js "skill_change") (js "system") ∅.

Definition threeSwitches : list Event :=
  [modeSwitch "evt_1_a" 1; modeSwitch "evt_2_b" 2; modeSwitch "evt_3_c" 3].

End ConsolidationFacts.

(** C2, as stated: a second pass of [consolidate] right after a first one
    changes nothing.  It fails on three [skill_change] events in a row: the
    first pass leaves two events, the second pass merges these two. *)
Lemma consolidate_twice_differs :
  let once := Session.consolidate ConsolidationFacts.threeSwitches in
  length once = 2
  /\ length (Session.consolidate once) = 1
  /\ Session.consolidate once <> once.
Proof.
  cbv zeta. split; [by vm_compute|]. split; [by vm_compute|].
  intros H. apply (f_equal (@length Event)) in H. vm_compute in H. discriminate.
Qed.

(** C2, amended.  A pass over a log in which no event of category [system]
    stands right before another one of category [system] with the same
    action leaves the log as it is, and only then; so a second pass of
    [consolidateSimilarEvents] changes nothing exactly when the first pass
    has left no such pair.  A pass never makes the log longer, and of three
    copies of one [system] event it leaves two. *)
Theorem consolidate_twice_iff (a : App) :
  let once := exec Session.consolidateSimilarEvents a in
  let twice := exec Session.consolidateSimilarEvents once in
  (sessionMemory (session twice) = sessionMemory (session once)
   <-> ConsolidationFacts.adjacentDuplicate (sessionMemory (session once)) = false)
  /\ length (sessionMemory (session once)) <= length (sessionMemory (session a))
  /\ (forall e, ev_category e = js "system" ->
        Session.consolidate [e; e; e] = [Session.merged e; e]).
Proof.
  intros once twice. unfold twice, once.
  rewrite !ConsolidationFacts.consolidateSimilarEvents_run.
  split; [apply ConsolidationFacts.consolidate_fixed_iff|].
  split; [apply ConsolidationFacts.consolidate_length|].
  intros e He. by apply ConsolidationFacts.consolidate_triple.
Qed.

(** ** Concrete worlds and logs for the examples *)

Module Sample.

(** The values of [config.js]. *)
Definition shippedConfig : Config :=
  mkConfig 1000 500 (Some 240%Z) (Some (js "system-design"))
    (Some [js "system-design"; js "technical-screening"; js "dsa"])
    (Some 3) (Some (js "llama-3.3-70b-versatile"))
    (Some (mkGenerationDefaults (Some (7 # 10)%Q) (Some (9 # 10)%Q) (Some 4096))).

(** A configuration with a small log: maintenance above 2 events, at most
    3 events kept. *)
Definition smallConfig : Config :=
  mkConfig 3 2 (Some 240%Z) (Some (js "system-design"))
    (Some [js "system-design"; js "technical-screening"; js "dsa"])
    (Some 3) (Some (js "llama-3.3-70b-versatile")) None.

Definition unreachable : Error := mkError (js "connect ECONNREFUSED").

(** A world whose clock starts at one million and moves by one
    millisecond per reading, where the prompt files of the three skills
    exist, and whose backend rejects every call. *)
Definition quietWorld (cfg : Config) : World :=
  mkWorld (fun n => (1000000 + Z.of_nat n)%Z) 0 (fun n => js "k3x9q" ++ showNat n) 0
    (fun name =>
       if bool_decide (In name [js "system-design"; js "technical-screening"; js "dsa"])
       then Some (js "You are helping in an interview.") else None)
    cfg (fun _ => js "aGVsbG8=") (fun _ => None)
    (fun _ _ => Rejected unreachable) [] 0 [] [].

Definition idleService : LLMService := mkLLMService false false [] 0 0.
Definition readyService : LLMService :=
  mkLLMService true true (js "llama-3.3-70b-versatile") 0 0.

Definition appWith (cfg : Config) (memory : list Event) (svc : LLMService) : App :=
  mkApp (quietWorld cfg) (Session.setMemory memory (Session.fresh cfg)) svc.

Definition userSaid (t : Z) (text : string) : Event :=
  mkEvent (js "evt_u") t (js "user") (js text) (js "chat_input") (js "interaction") ∅.

Definition modelSaid (t : Z) (text : string) : Event :=
  mkEvent (js "evt_m") t (js "model") (js text) (js "model_response") (js "ai") ∅.

Definition captured (t : Z) (text : jsstring) : Event :=
  mkEvent (js "evt_c") t (js "system") (Session.screenshotPrefix ++ text)
    (js "ocr_capture") (js "capture") ∅.

(** Five events, all inside the window. *)
Definition fiveTurns : list Event :=
  [userSaid 999001 "q1"; modelSaid 999002 "a1"; userSaid 999003 "q2";
   modelSaid 999004 "a2"; userSaid 999005 "q3"].

End Sample.

(** *** An eviction, step by step

    A log with a baseline event and a question from long ago and a question
    from just now, and a topic index with an old and a new occurrence of one
    topic and an old occurrence of another. *)
Module Expired.

Definition baseline : Event :=
  Session.skillInitEvent (js "evt_0_aaaaaa") 0 (js "dsa") (js "You are helping.").

Definition oldQuestion : Event := Sample.userSaid 5 "How does Redis persist data?".
Definition newQuestion : Event := Sample.userSaid 19999990 "And Kafka?".

Definition oldEntry : TopicEntry := mkTopicEntry (js "How does Redis persist data?") 5 1.
Definition newEntry : TopicEntry := mkTopicEntry (js "Redis again") 19999990 1.

(** The clock reads 20,000,000: the window of 240 minutes starts at
    5,600,000. *)
Definition app : App :=
  let w := Sample.quietWorld Sample.shippedConfig in
  mkApp (mkWorld (fun _ => 20000000%Z) 0 (random w) 0 (prompts w) (config w) (base64 w)
           (toJPEG w) (backend w) [] 0 [] [])
    (Session.setMemory [baseline; oldQuestion; newQuestion]
       (Session.setTopicTags
          (<[js "redis" := [oldEntry; newEntry]]> (<[js "kafka" := [oldEntry]]> ∅))
          (Session.fresh Sample.shippedConfig)))
    Sample.idleService.

End Expired.

Lemma evictExpired_leaves_window_witness :
  let after := session (exec Session.evictExpiredEvents Expired.app) in
  EvictionFacts.cutoffOf Expired.app = 5600000%Z
  /\ sessionMemory after = [Expired.baseline; Expired.newQuestion]
  /\ topicTags after !! js "kafka" = None
  /\ topicTags after !! js "redis" = Some [Expired.newEntry]
  /\ (forall e, In e (sessionMemory after) ->
        (5600000 <= ev_timestamp e)%Z
        \/ (ev_category e = js "system" /\ ev_action e = js "skill_init")).
Proof.
  cbv zeta. split; [reflexivity|]. split; [vm_compute; reflexivity|].
  split; [vm_compute; reflexivity|]. split; [vm_compute; reflexivity|].
  exact (proj1 (evictExpired_leaves_window Expired.app)).
Defined.

(** ** Maintenance *)

Module MaintenanceFacts.
Import Session.

(** The state after the first two steps of [performMaintenance]. *)
Definition processed (a : App) : App :=
  exec (evictExpiredEvents ;; consolidateSimilarEvents) a.

Lemma processed_maxSize (a : App) : maxSize (session (processed a)) = maxSize (session a).
Proof. by destruct a. Qed.

Lemma performMaintenance_run (a : App) :
  let mid := processed a in
  let mem := sessionMemory (session mid) in
  exec performMaintenance a =
    if maxSize (session a) <? length mem
    then mkApp (world mid)
           (setMemory (slice (length mem - maxSize (session a)) mem) (session mid))
           (service mid)
    else mid.
Proof.
  destruct a as [w s l]. cbv zeta.
  unfold processed, exec, performMaintenance, bind, this, gets, when.
  rewrite EvictionFacts.evictExpiredEvents_run.
  cbn -[Nat.ltb slice List.filter evictTopics consolidate].
  destruct (maxSize s <? _); reflexivity.
Qed.

Lemma performMaintenanceIfNeeded_run (a : App) :
  exec performMaintenanceIfNeeded a =
    if compressionThreshold (session a) <? length (sessionMemory (session a))
    then exec performMaintenance a
    else a.
Proof.
  destruct a as [w s l].
  unfold exec, performMaintenanceIfNeeded, bind, this, gets, when.
  cbn -[Nat.ltb performMaintenance].
  destruct (compressionThreshold s <? _); reflexivity.
Qed.

(** The log that truncation starts from: the processed log when
    maintenance runs, the log itself when it does not. *)
Definition beforeTruncation (a : App) : list Event :=
  if compressionThreshold (session a) <? length (sessionMemory (session a))
  then sessionMemory (session (processed a))
  else sessionMemory (session a).

(** After [performMaintenanceIfNeeded], with the threshold not above the
    hard limit: the length of the log, and the events that were dropped. *)
Lemma maintenance_truncates (a : App) :
  compressionThreshold (session a) <= maxSize (session a) ->
  let after := session (exec performMaintenanceIfNeeded a) in
  length (sessionMemory after) <= maxSize (session a)
  /\ maxSize after = maxSize (session a)
  /\ exists dropped,
       beforeTruncation a = dropped ++ sessionMemory after
       /\ (dropped <> [] -> length (sessionMemory after) = maxSize (session a)).
Proof.
  intros Hcfg after. unfold after, beforeTruncation.
  rewrite performMaintenanceIfNeeded_run.
  destruct (compressionThreshold (session a) <? length (sessionMemory (session a))) eqn:Hdue.
  - rewrite performMaintenance_run. cbv zeta.
    set (mem := sessionMemory (session (processed a))).
    destruct (maxSize (session a) <? length mem) eqn:Hbig.
    + apply Nat.ltb_lt in Hbig. cbn [session setMemory sessionMemory maxSize].
      unfold slice. rewrite length_skipn.
      split; [lia|]. split; [apply processed_maxSize|].
      exists (firstn (length mem - maxSize (session a)) mem).
      split; [by rewrite firstn_skipn|]. intros _. lia.
    + apply Nat.ltb_ge in Hbig. fold mem.
      split; [done|]. split; [apply processed_maxSize|].
      exists []. split; [done|]. by intros [].
  - apply Nat.ltb_ge in Hdue.
    split; [lia|]. split; [done|]. exists []. split; [done|]. by intros [].
Qed.

End MaintenanceFacts.

(** ** Running monadic code *)

Lemma eval_bind {A B : Type} (m : M A) (k : A -> M B) (a : App) :
  eval (bind m k) a = eval (k (eval m a)) (exec m a).
Proof. unfold eval, exec, bind. by destruct (m a). Qed.

Lemma exec_bind {A B : Type} (m : M A) (k : A -> M B) (a : App) :
  exec (bind m k) a = exec (k (eval m a)) (exec m a).
Proof. unfold eval, exec, bind. by destruct (m a). Qed.

Lemma eval_ret {A : Type} (x : A) (a : App) : eval (ret x) a = x.
Proof. reflexivity. Qed.

Lemma exec_ret {A : Type} (x : A) (a : App) : exec (ret x) a = a.
Proof. reflexivity. Qed.

Ltac run_eval := repeat (rewrite eval_bind; cbv beta); rewrite ?eval_ret.

(** ** Appending *)

Module AppendFacts.
Import Session.

(** The event [addConversationEvent] returns carries the role and the
    content it was given, and the action when one was given. *)
Lemma addConversationEvent_returns (role content action : jsstring) (md : Metadata)
    (a : App) :
  let e := eval (addConversationEvent role content (Some action) md) a in
  ev_role e = role /\ ev_content e = content
  /\ (action <> [] -> ev_action e = action).
Proof.
  cbv zeta. unfold addConversationEvent. run_eval. unfold newEvent. run_eval.
  cbn [ev_role ev_content ev_action]. repeat split.
  intros Hact. unfold orElse. destruct action; [done|reflexivity].
Qed.

Lemma safeText_short (text : jsstring) :
  length text <= 4000 -> safeText text = text.
Proof.
  intros H. unfold safeText. apply Nat.ltb_ge in H. by rewrite H.
Qed.

Lemma safeText_long (text : jsstring) :
  4000 < length text -> safeText text = firstn 4000 text ++ js "...".
Proof.
  intros H. unfold safeText. apply Nat.ltb_lt in H. by rewrite H.
Qed.

(** What a step leaves of the set-up: the clock and the limits. *)
Definition sameSetup (a a' : App) : Prop :=
  clock (world a') = clock (world a)
  /\ maxDurationMinutes (session a') = maxDurationMinutes (session a)
  /\ maxSize (session a') = maxSize (session a)
  /\ compressionThreshold (session a') = compressionThreshold (session a).

Lemma sameSetup_refl (a : App) : sameSetup a a.
Proof. by repeat split. Qed.

Lemma sameSetup_trans (a b c : App) : sameSetup a b -> sameSetup b c -> sameSetup a c.
Proof. unfold sameSetup. intuition congruence. Qed.

(** Reading the clock or the random source leaves the set-up and the
    session as they are. *)
Definition onlyReads (a a' : App) : Prop :=
  clock (world a') = clock (world a) /\ session a' = session a.

Lemma dateNow_run (a : App) :
  eval dateNow a = clock (world a) (clockReads (world a))
  /\ clockReads (world (exec dateNow a)) = S (clockReads (world a))
  /\ onlyReads a (exec dateNow a).
Proof. by destruct a. Qed.

Lemma generateEventId_run (a : App) :
  clockReads (world (exec generateEventId a)) = S (clockReads (world a))
  /\ onlyReads a (exec generateEventId a).
Proof. by destruct a. Qed.

Lemma getElapsedMinutes_run (a : App) :
  onlyReads a (exec getElapsedMinutes a)
  /\ clockReads (world (exec getElapsedMinutes a)) <= S (clockReads (world a)).
Proof.
  destruct a as [w s l]. unfold getElapsedMinutes, exec, bind, this, gets.
  cbn [session fst snd].
  destruct (sessionStartTime s) as [[|t|t]|]; cbn; repeat split; lia.
Qed.

Lemma newEvent_run (role content : jsstring) (action : option jsstring) (md : Metadata)
    (a : App) :
  let e := eval (newEvent role content action md) a in
  let a' := exec (newEvent role content action md) a in
  onlyReads a a'
  /\ clockReads (world a') <= clockReads (world a) + 3
  /\ ev_timestamp e = clock (world a) (S (clockReads (world a)))
  /\ ev_category e = categorizeAction (orElse action role).
Proof.
  cbv zeta. unfold newEvent.
  rewrite !eval_bind, !exec_bind, eval_ret, exec_ret. cbn [ev_timestamp ev_category].
  destruct (generateEventId_run a) as (Hreads1 & Hclock1 & Hsession1).
  set (a1 := exec generateEventId a) in *.
  destruct (dateNow_run a1) as (Hnow & Hreads2 & Hclock2 & Hsession2).
  set (a2 := exec dateNow a1) in *.
  assert (Ha3 : exec (this activeSkill) a2 = a2) by reflexivity. rewrite Ha3.
  destruct (getElapsedMinutes_run a2) as ((Hclock4 & Hsession4) & Hreads4).
  split; [split; congruence|]. split; [lia|]. split; [|done].
  rewrite Hnow, Hclock1, Hreads1. reflexivity.
Qed.

Lemma push_run (e : Event) (a : App) :
  sameSetup a (exec (push e) a)
  /\ clockReads (world (exec (push e) a)) = clockReads (world a)
  /\ sessionMemory (session (exec (push e) a)) = sessionMemory (session a) ++ [e].
Proof. destruct a. by repeat split. Qed.

Lemma extractAndTagTopics_run (content : jsstring) (t : Z) (a : App) :
  sameSetup a (exec (extractAndTagTopics content t) a)
  /\ clockReads (world (exec (extractAndTagTopics content t) a)) = clockReads (world a)
  /\ sessionMemory (session (exec (extractAndTagTopics content t) a))
     = sessionMemory (session a).
Proof.
  destruct a. unfold extractAndTagTopics. destruct (negb (truthy content)); by repeat split.
Qed.

Lemma evictExpiredEvents_keeps_last (e : Event) (a : App) :
  let a' := exec evictExpiredEvents a in
  sameSetup a a'
  /\ clockReads (world a') = S (clockReads (world a))
  /\ (keepEvent (EvictionFacts.cutoffOf a) e = true ->
      last (sessionMemory (session a)) = Some e ->
      last (sessionMemory (session a')) = Some e).
Proof.
  cbv zeta. unfold exec. rewrite EvictionFacts.evictExpiredEvents_run. cbn [snd].
  split; [by destruct a|]. split; [by destruct a|].
  intros Hkeep Hlast. apply last_Some in Hlast as [front Hfront].
  cbn [session setTopicTags setMemory sessionMemory]. rewrite Hfront.
  rewrite List.filter_app. cbn [List.filter]. rewrite Hkeep. apply last_snoc.
Qed.

Lemma consolidate_snoc (e : Event) (events : list Event) :
  ev_category e <> js "system" ->
  consolidate (events ++ [e]) = consolidate events ++ [e].
Proof.
  intros Hcat.
  assert (Hno : forall x, sameSystemAction x e = false).
  { intros x. unfold sameSystemAction. apply str_eq_false in Hcat. rewrite Hcat.
    by rewrite andb_false_r. }
  induction events as [| x | a b l IH1 IH2] using ConsolidationFacts.by_pairs.
  - reflexivity.
  - cbn [app]. rewrite ConsolidationFacts.consolidate_pair, Hno. reflexivity.
  - cbn [app]. rewrite !ConsolidationFacts.consolidate_pair.
    destruct (sameSystemAction a b).
    + by rewrite IH1.
    + cbn [app] in IH2. by rewrite IH2.
Qed.

Lemma skipn_keeps_last {A : Type} (x : A) (l : list A) (n : nat) :
  n < length l -> last l = Some x -> last (skipn n l) = Some x.
Proof.
  intros Hn Hlast. apply last_Some in Hlast as [front ->].
  rewrite length_app in Hn. cbn in Hn.
  rewrite skipn_app. replace (n - length front) with 0 by lia. cbn [skipn].
  apply last_snoc.
Qed.

Lemma consolidateSimilarEvents_keeps_last (e : Event) (a : App) :
  let a' := exec consolidateSimilarEvents a in
  sameSetup a a'
  /\ (ev_category e <> js "system" ->
      last (sessionMemory (session a)) = Some e ->
      last (sessionMemory (session a')) = Some e).
Proof.
  cbv zeta. split; [by destruct a|].
  intros Hcat Hlast. rewrite ConsolidationFacts.consolidateSimilarEvents_run.
  apply last_Some in Hlast as [front ->]. rewrite consolidate_snoc by done.
  apply last_snoc.
Qed.

Lemma onlyReads_sameSetup (a a' : App) : onlyReads a a' -> sameSetup a a'.
Proof. intros [Hc Hs]. unfold sameSetup. rewrite Hc, Hs. by repeat split. Qed.

Lemma performMaintenanceIfNeeded_sameSetup (a : App) :
  sameSetup a (exec performMaintenanceIfNeeded a).
Proof.
  rewrite MaintenanceFacts.performMaintenanceIfNeeded_run.
  destruct (compressionThreshold (session a) <? _); [|apply sameSetup_refl].
  rewrite MaintenanceFacts.performMaintenance_run. cbv zeta.
  assert (Hmid : sameSetup a (MaintenanceFacts.processed a)) by (by destruct a).
  destruct (maxSize (session a) <? _); [|done].
  destruct Hmid as (? & ? & ? & ?). by repeat split.
Qed.

(** The readings of the clock up to the fifth one from now are within the
    window of the timestamp [t]: one call of [addConversationEvent] reads
    the clock five times at most. *)
Definition withinWindow (a : App) (t : Z) : Prop :=
  forall n, n < clockReads (world a) + 5 ->
    (clock (world a) n - maxDurationMinutes (session a) * 60 * 1000 <= t)%Z.

Lemma withinWindow_keeps (a a' : App) (e : Event) :
  withinWindow a (ev_timestamp e) ->
  sameSetup a a' ->
  clockReads (world a') < clockReads (world a) + 5 ->
  keepEvent (EvictionFacts.cutoffOf a') e = true.
Proof.
  intros Hwin (Hc & Hd & _) Hreads. apply EvictionFacts.keepEvent_true. left.
  unfold EvictionFacts.cutoffOf, EvictionFacts.nextReading. rewrite Hc, Hd.
  by apply Hwin.
Qed.

Lemma performMaintenanceIfNeeded_keeps_last (e : Event) (a : App) :
  0 < maxSize (session a) ->
  ev_category e <> js "system" ->
  keepEvent (EvictionFacts.cutoffOf a) e = true ->
  last (sessionMemory (session a)) = Some e ->
  last (sessionMemory (session (exec performMaintenanceIfNeeded a))) = Some e.
Proof.
  intros Hsize Hcat Hkeep Hlast.
  rewrite MaintenanceFacts.performMaintenanceIfNeeded_run.
  destruct (compressionThreshold (session a) <? length (sessionMemory (session a)));
    [|done].
  rewrite MaintenanceFacts.performMaintenance_run. cbv zeta.
  assert (Hmid : last (sessionMemory (session (MaintenanceFacts.processed a))) = Some e).
  { unfold MaintenanceFacts.processed. rewrite exec_bind.
    apply consolidateSimilarEvents_keeps_last; [done|].
    by apply evictExpiredEvents_keeps_last. }
  destruct (maxSize (session a) <? _) eqn:Hbig; [|done].
  apply Nat.ltb_lt in Hbig. cbn [session setMemory sessionMemory]. unfold slice.
  apply skipn_keeps_last; [lia|done].
Qed.

(** An event whose category is not [system] is the last one of the log
    after [addConversationEvent], when the log may hold an event at all and
    the clock does not run past the window during the call. *)
Lemma addConversationEvent_stored (role content : jsstring) (action : option jsstring)
    (md : Metadata) (a : App) :
  categorizeAction (orElse action role) <> js "system" ->
  0 < maxSize (session a) ->
  withinWindow a (clock (world a) (S (clockReads (world a)))) ->
  last (sessionMemory (session (exec (addConversationEvent role content action md) a)))
  = Some (eval (addConversationEvent role content action md) a).
Proof.
  intros Hcat Hsize Hwin. unfold addConversationEvent.
  rewrite eval_bind, exec_bind. cbv beta.
  destruct (newEvent_run role content action md a) as (Hreads & Hcount1 & Hts & Hcategory).
  set (e := eval (newEvent role content action md) a) in *.
  set (a1 := exec (newEvent role content action md) a) in *.
  rewrite <- Hts in Hwin. rewrite <- Hcategory in Hcat.
  pose proof (onlyReads_sameSetup _ _ Hreads) as Hsetup1.
  rewrite !eval_bind, !exec_bind, eval_ret, exec_ret.
  destruct (push_run e a1) as (Hsetup2 & Hcount2 & Hmem2).
  set (a2 := exec (push e) a1) in *.
  destruct (extractAndTagTopics_run content (ev_timestamp e) a2)
    as (Hsetup3 & Hcount3 & Hmem3).
  set (a3 := exec (extractAndTagTopics content (ev_timestamp e)) a2) in *.
  destruct (evictExpiredEvents_keeps_last e a3) as (Hsetup4 & Hcount4 & Hkeep4).
  set (a4 := exec evictExpiredEvents a3) in *.
  assert (H13 : sameSetup a a3).
  { eapply sameSetup_trans; [exact Hsetup1|].
    eapply sameSetup_trans; [exact Hsetup2|exact Hsetup3]. }
  assert (H14 : sameSetup a a4) by (by eapply sameSetup_trans).
  apply performMaintenanceIfNeeded_keeps_last; [|done| |].
  - destruct H14 as (_ & _ & -> & _). done.
  - apply (withinWindow_keeps a); [done..|lia].
  - apply Hkeep4.
    + apply (withinWindow_keeps a); [done..|lia].
    + rewrite Hmem3, Hmem2. apply last_snoc.
Qed.

(** The log is within the hard limit after every append. *)
Lemma addConversationEvent_bounded (role content : jsstring) (action : option jsstring)
    (md : Metadata) (a : App) :
  compressionThreshold (session a) <= maxSize (session a) ->
  let a' := exec (addConversationEvent role content action md) a in
  length (sessionMemory (session a')) <= maxSize (session a)
  /\ sameSetup a a'.
Proof.
  intros Hcfg. cbv zeta. unfold addConversationEvent.
  rewrite exec_bind. cbv beta.
  destruct (newEvent_run role content action md a) as (Hreads & _).
  set (e := eval (newEvent role content action md) a) in *.
  set (a1 := exec (newEvent role content action md) a) in *.
  pose proof (onlyReads_sameSetup _ _ Hreads) as Hsetup1.
  rewrite !exec_bind, exec_ret.
  destruct (push_run e a1) as (Hsetup2 & _).
  set (a2 := exec (push e) a1) in *.
  destruct (extractAndTagTopics_run content (ev_timestamp e) a2) as (Hsetup3 & _).
  set (a3 := exec (extractAndTagTopics content (ev_timestamp e)) a2) in *.
  destruct (evictExpiredEvents_keeps_last e a3) as (Hsetup4 & _).
  set (a4 := exec evictExpiredEvents a3) in *.
  assert (H14 : sameSetup a a4).
  { eapply sameSetup_trans; [exact Hsetup1|].
    eapply sameSetup_trans; [exact Hsetup2|].
    eapply sameSetup_trans; [exact Hsetup3|exact Hsetup4]. }
  pose proof H14 as (Hc & Hd & Hm & Ht).
  destruct (MaintenanceFacts.maintenance_truncates a4 ltac:(lia)) as (Hlen & Hmax & _).
  split; [lia|].
  eapply sameSetup_trans; [exact H14|].
  apply performMaintenanceIfNeeded_sameSetup.
Qed.

(** A capture is an event of category [capture]. *)
Lemma capture_not_system :
  categorizeAction (orElse (Some (js "ocr_capture")) (js "system")) <> js "system".
Proof. vm_compute. discriminate. Qed.

End AppendFacts.

(** C4.  With [compressionThreshold <= maxSize], the log is never longer
    than [maxSize] after [performMaintenanceIfNeeded], in particular after
    every append; what is left is the end of the log that eviction and
    consolidation produced (of the log itself when no maintenance was due):
    only events at the front are dropped, and when some are dropped exactly
    the last [maxSize] events stay. *)
Theorem maintenance_bounds_memory (a : App) :
  compressionThreshold (session a) <= maxSize (session a) ->
  let after := session (exec Session.performMaintenanceIfNeeded a) in
  length (sessionMemory after) <= maxSize (session a)
  /\ maxSize after = maxSize (session a)
  /\ (exists dropped,
        MaintenanceFacts.beforeTruncation a = dropped ++ sessionMemory after
        /\ (dropped <> [] -> length (sessionMemory after) = maxSize (session a)))
  /\ (forall role content action md,
        let appended := exec (Session.addConversationEvent role content action md) a in
        length (sessionMemory (session appended)) <= maxSize (session appended)
        /\ compressionThreshold (session appended) <= maxSize (session appended)).
Proof.
  intros Hcfg after.
  destruct (MaintenanceFacts.maintenance_truncates a Hcfg) as (Hlen & Hmax & Hdropped).
  split; [exact Hlen|]. split; [exact Hmax|]. split; [exact Hdropped|].
  intros role content action md appended.
  destruct (AppendFacts.addConversationEvent_bounded role content action md a Hcfg)
    as (Hbound & _ & _ & Hm & Ht).
  fold appended in Hbound, Hm, Ht. rewrite Hm, Ht. split; [exact Hbound|exact Hcfg].
Qed.

Lemma maintenance_bounds_memory_witness :
  let a := Sample.appWith Sample.smallConfig Sample.fiveTurns Sample.idleService in
  compressionThreshold (session a) <= maxSize (session a)
  /\ length (sessionMemory (session (exec Session.performMaintenanceIfNeeded a))) <= 3
  /\ sessionMemory (session (exec Session.performMaintenanceIfNeeded a))
     = skipn 2 Sample.fiveTurns.
Proof.
  cbv zeta.
  assert (H : compressionThreshold
                (session (Sample.appWith Sample.smallConfig Sample.fiveTurns Sample.idleService))
              <= maxSize
                   (session (Sample.appWith Sample.smallConfig Sample.fiveTurns
                               Sample.idleService))) by (vm_compute; lia).
  split; [exact H|].
  split.
  - exact (proj1 (maintenance_bounds_memory _ H)).
  - vm_compute. reflexivity.
Defined.

(** C9.  The event [addOCREvent] appends has the content
    ["Screenshot captured: "] followed by the extracted text cut to its first
    4000 code units, followed by three dots exactly when the text was longer
    than 4000; a text of at most 4000 code units is kept whole.  This event
    is the last one of the log after the call, when the log may hold an
    event at all and the clock stays within the window of the timestamp of
    the event. *)
Theorem ocr_event_capped (a : App) (extracted : jsstring) (md : Metadata) :
  let e := eval (Session.addOCREvent extracted md) a in
  (exists kept marker,
     ev_content e = Session.screenshotPrefix ++ kept ++ marker
     /\ kept = firstn 4000 extracted
     /\ length kept <= 4000
     /\ marker = (if 4000 <? length extracted then js "..." else [])
     /\ (length extracted <= 4000 -> kept = extracted)
     /\ ev_role e = js "system"
     /\ ev_action e = js "ocr_capture")
  /\ (0 < maxSize (session a) ->
      AppendFacts.withinWindow a (clock (world a) (S (clockReads (world a)))) ->
      last (sessionMemory (session (exec (Session.addOCREvent extracted md) a))) = Some e).
Proof.
  cbv zeta. unfold Session.addOCREvent. split.
  - destruct (AppendFacts.addConversationEvent_returns (js "system")
                (Session.screenshotPrefix ++ Session.safeText extracted) (js "ocr_capture")
                (md ∪ {[js "fullTextLength" := MNumber (Z.of_nat (length extracted))]}) a)
      as (Hrole & Hcontent & Haction).
    exists (firstn 4000 extracted), (if 4000 <? length extracted then js "..." else []).
    rewrite Hcontent, Hrole, Haction by done.
    repeat split.
    + f_equal. unfold Session.safeText, substring0.
      destruct (4000 <? length extracted) eqn:E; [done|].
      apply Nat.ltb_ge in E. by rewrite firstn_all2, app_nil_r.
    + rewrite length_firstn. lia.
    + intros H. by apply firstn_all2.
  - intros Hsize Hwindow.
    apply AppendFacts.addConversationEvent_stored;
      [apply AppendFacts.capture_not_system|done..].
Qed.

Lemma ocr_event_capped_witness :
  let a := Sample.appWith Sample.shippedConfig Sample.fiveTurns Sample.idleService in
  let long := repeat 120%N 4001 in
  let e := eval (Session.addOCREvent long ∅) a in
  0 < maxSize (session a)
  /\ AppendFacts.withinWindow a (clock (world a) (S (clockReads (world a))))
  /\ last (sessionMemory (session (exec (Session.addOCREvent long ∅) a))) = Some e
  /\ length (ev_content e) = 21 + 4000 + 3.
Proof.
  cbv zeta.
  assert (Hsize : 0 < maxSize (session (Sample.appWith Sample.shippedConfig Sample.fiveTurns
                                          Sample.idleService))) by (vm_compute; lia).
  assert (Hwindow : AppendFacts.withinWindow
                      (Sample.appWith Sample.shippedConfig Sample.fiveTurns Sample.idleService)
                      (clock (world (Sample.appWith Sample.shippedConfig Sample.fiveTurns
                                       Sample.idleService)) 1)).
  { intros n Hn. cbn in *. lia. }
  split; [exact Hsize|]. split; [exact Hwindow|]. split.
  - exact (proj2 (ocr_event_capped _ (repeat 120%N 4001) ∅) Hsize Hwindow).
  - destruct (proj1 (ocr_event_capped
                       (Sample.appWith Sample.shippedConfig Sample.fiveTurns Sample.idleService)
                       (repeat 120%N 4001) ∅))
      as (kept & marker & -> & -> & _ & -> & _).
    rewrite !length_app, length_firstn, repeat_length. vm_compute. reflexivity.
Defined.

(** ** Follow-up context *)

Module FollowUpSpec.
Import Session.

(** The last [n] elements of a list. *)
Definition lastN {A : Type} (n : nat) (l : list A) : list A := skipn (length l - n) l.

(** *** The pairing as the specification words it

    A question is a user event, or an [ocr_capture] system event with its
    prefix stripped; it is paired with the next model event; a later
    question replaces one that has had no answer. *)
Definition statedQuestion (e : Event) : option (jsstring * jsstring) :=
  if str_eq (ev_role e) (js "system") && str_eq (ev_action e) (js "ocr_capture")
  then Some (stripPrefix (ev_content e), js "screen")
  else if str_eq (ev_role e) (js "user")
  then Some (ev_content e, js "voice/chat")
  else None.

Fixpoint statedPairs (current : option (jsstring * jsstring)) (events : list Event)
    : list Pair :=
  match events with
  | [] => []
  | e :: rest =>
      match statedQuestion e with
      | Some q => statedPairs (Some q) rest
      | None =>
          if str_eq (ev_role e) (js "model") then
            match current with
            | Some (text, origin) =>
                mkPair text (ev_content e) (Some origin) :: statedPairs None rest
            | None => statedPairs None rest
            end
          else statedPairs current rest
      end
  end.

(** The stated result: nothing without pairs, else the last [maxPairs]
    pairs between the two markers. *)
Definition statedContext (memory : list Event) (maxPairs : nat) : jsstring :=
  match statedPairs None memory with
  | [] => []
  | pairs => renderPairs (lastN maxPairs pairs)
  end.

(** *** The pairing the loop computes

    Among the events the loop looks at, a question is an event whose
    action is [ocr_capture], with the prefix stripped, or else a user
    event; a model event takes the question that is waiting only when its
    text is not empty. *)
Definition asQuestion (e : Event) : option (jsstring * jsstring) :=
  if str_eq (ev_action e) (js "ocr_capture")
  then Some (stripPrefix (ev_content e), js "screen")
  else if str_eq (ev_role e) (js "user")
  then Some (ev_content e, js "voice/chat")
  else None.

Fixpoint pairsFrom (current : option (jsstring * jsstring)) (events : list Event)
    : list Pair :=
  match events with
  | [] => []
  | e :: rest =>
      if negb (relevant e) then pairsFrom current rest
      else
        match asQuestion e with
        | Some q => pairsFrom (Some q) rest
        | None =>
            match current with
            | Some (text, origin) =>
                if truthy text
                then mkPair text (ev_content e) (Some origin) :: pairsFrom None rest
                else pairsFrom current rest
            | None => pairsFrom None rest
            end
        end
  end.

(** The loop state that stands for a waiting question. *)
Definition loopState (acc : list Pair) (current : option (jsstring * jsstring))
    : PairState :=
  (acc, fst <$> current, snd <$> current).

Lemma relevant_answer (e : Event) :
  relevant e = true -> asQuestion e = None -> str_eq (ev_role e) (js "model") = true.
Proof.
  unfold relevant, asQuestion.
  destruct (str_eq (ev_action e) (js "ocr_capture")); [done|].
  destruct (str_eq (ev_role e) (js "user")); [done|].
  rewrite andb_false_r. by cbn [orb].
Qed.

Lemma pairStep_loopState (acc : list Pair) (current : option (jsstring * jsstring))
    (e : Event) :
  relevant e = true ->
  pairStep (loopState acc current) e =
    match asQuestion e with
    | Some q => loopState acc (Some q)
    | None =>
        match current with
        | Some (text, origin) =>
            if truthy text
            then loopState (acc ++ [mkPair text (ev_content e) (Some origin)]) None
            else loopState acc current
        | None => loopState acc None
        end
    end.
Proof.
  intros Hrel. pose proof (relevant_answer e Hrel) as Hanswer.
  unfold pairStep, loopState, asQuestion in *.
  destruct (str_eq (ev_action e) (js "ocr_capture")); [done|].
  destruct (str_eq (ev_role e) (js "user")); [done|].
  rewrite Hanswer by done. cbn [andb].
  destruct current as [[text origin]|]; cbn [fmap option_fmap option_map pending fst snd];
    [|done].
  destruct (truthy text); done.
Qed.

Lemma fold_pairStep (events : list Event) :
  forall acc current,
    fst (fst (fold_left pairStep (List.filter relevant events) (loopState acc current)))
    = acc ++ pairsFrom current events.
Proof.
  induction events as [|e rest IH]; intros acc current.
  - cbn. by rewrite app_nil_r.
  - cbn [List.filter pairsFrom]. destruct (relevant e) eqn:Hrel; cbn [negb].
    + cbn [fold_left]. rewrite pairStep_loopState by done.
      destruct (asQuestion e) as [q|]; [apply IH|].
      destruct current as [[text origin]|]; [|apply IH].
      destruct (truthy text); [|apply IH].
      rewrite IH, <- app_assoc. done.
    + apply IH.
Qed.

Lemma buildPairs_spec (memory : list Event) :
  buildPairs (List.filter relevant memory) = pairsFrom None memory.
Proof. unfold buildPairs. apply (fold_pairStep memory [] None). Qed.

(** Without a relevant event there is no pair. *)
Lemma pairsFrom_irrelevant (memory : list Event) :
  List.filter relevant memory = [] -> pairsFrom None memory = [].
Proof. intros H. rewrite <- buildPairs_spec, H. reflexivity. Qed.

Lemma sliceLast_lastN {A : Type} (n : nat) (l : list A) :
  0 < n -> sliceLast n l = lastN n l.
Proof. intros H. destruct n; [lia|reflexivity]. Qed.

(** The text of a turn, with the two cut texts made explicit. *)
Definition turnText (i : nat) (label shownQuestion shownAnswer : jsstring) : jsstring :=
  (nl ++ js "--- Turn " ++ showNat (i + 1) ++ js " ---" ++ nl)
  ++ (label ++ js ":" ++ nl ++ shownQuestion ++ nl ++ nl)
  ++ (js "YOUR PREVIOUS ANSWER:" ++ nl ++ shownAnswer ++ nl).

Lemma renderTurn_bounded (i : nat) (pair : Pair) :
  exists label shownQuestion shownAnswer,
    renderTurn i pair = turnText i label shownQuestion shownAnswer
    /\ shownQuestion = firstn 1500 (question pair)
    /\ shownAnswer = firstn 2000 (answer pair)
    /\ length shownQuestion <= 1500
    /\ length shownAnswer <= 2000.
Proof.
  eexists _, (firstn 1500 (question pair)), (firstn 2000 (answer pair)).
  split; [reflexivity|]. rewrite !length_firstn. repeat split; lia.
Qed.

(** A question that is not empty and the model event right after it form a
    pair, whatever comes before and after. *)
Lemma pairsFrom_adjacent (front back : list Event) (q m : Event)
    (text origin : jsstring) :
  forall current,
    relevant q = true -> asQuestion q = Some (text, origin) -> truthy text = true ->
    relevant m = true -> asQuestion m = None ->
    In (mkPair text (ev_content m) (Some origin))
       (pairsFrom current (front ++ q :: m :: back)).
Proof.
  intros current Hq Hquestion Htext Hm Hanswer. revert current.
  induction front as [|e front IH]; intros current.
  - cbn [app pairsFrom]. rewrite Hq, Hquestion, Hm, Hanswer, Htext. cbn [negb]. by left.
  - cbn [app pairsFrom]. destruct (negb (relevant e)); [apply IH|].
    destruct (asQuestion e) as [q'|]; [apply IH|].
    destruct current as [[text' origin']|]; [|apply IH].
    destruct (truthy text'); [right|]; apply IH.
Qed.

(** A capture of nothing but a blank, and the answer given to it. *)
Definition blankCapture : list Event :=
  [Sample.captured 999001 (js " "); Sample.modelSaid 999002 "It is a blank page."].

End FollowUpSpec.

(** C7, as stated: every question is paired with the model event that
    follows it.  It fails on a capture whose text is a single blank followed
    by the answer of the model: stripping the prefix leaves the empty text,
    the stated pairing has one pair and a context to render, the function
    returns the empty string. *)
Lemma followUp_blank_question_unpaired :
  let a := Sample.appWith Sample.shippedConfig FollowUpSpec.blankCapture Sample.idleService in
  FollowUpSpec.statedPairs None FollowUpSpec.blankCapture
    = [Session.mkPair [] (js "It is a blank page.") (Some (js "screen"))]
  /\ FollowUpSpec.statedContext FollowUpSpec.blankCapture 3 <> []
  /\ eval (Session.getFollowUpContext 3) a = []
  /\ eval (Session.getFollowUpContext 3) a
     <> FollowUpSpec.statedContext FollowUpSpec.blankCapture 3.
Proof.
  cbv zeta.
  assert (H1 : FollowUpSpec.statedContext FollowUpSpec.blankCapture 3 <> []).
  { intros H. apply (f_equal (@length N)) in H. vm_compute in H. discriminate. }
  assert (H2 : eval (Session.getFollowUpContext 3)
                 (Sample.appWith Sample.shippedConfig FollowUpSpec.blankCapture
                    Sample.idleService) = []) by (vm_compute; reflexivity).
  split; [vm_compute; reflexivity|].
  split; [exact H1|]. split; [exact H2|].
  rewrite H2. intros H. by apply H1.
Qed.

(** C7, amended.  For [maxPairs >= 1], [getFollowUpContext] pairs every
    question whose text is not empty with the next model event, where a
    question is an event of the relevant ones whose action is [ocr_capture],
    its prefix stripped, or else a user event, and a later question replaces
    one that has had no answer; it returns the empty string when there is no
    pair, and otherwise the last [maxPairs] pairs between the two markers,
    turn by turn, each question cut to at most 1500 code units and each
    answer to at most 2000. *)
Theorem followUp_context_pairs (a : App) (maxPairs : nat) :
  0 < maxPairs ->
  let pairs := FollowUpSpec.pairsFrom None (sessionMemory (session a)) in
  let shown := FollowUpSpec.lastN maxPairs pairs in
  eval (Session.getFollowUpContext maxPairs) a
    = match pairs with
      | [] => []
      | _ => Session.contextHeader
             ++ List.concat (imap Session.renderTurn shown)
             ++ Session.contextFooter
      end
  /\ length shown = Nat.min maxPairs (length pairs)
  /\ (forall front back q m text origin,
        sessionMemory (session a) = front ++ q :: m :: back ->
        Session.relevant q = true -> FollowUpSpec.asQuestion q = Some (text, origin) ->
        text <> [] ->
        Session.relevant m = true -> FollowUpSpec.asQuestion m = None ->
        In (Session.mkPair text (ev_content m) (Some origin)) pairs)
  /\ (forall i pair, shown !! i = Some pair ->
        exists label shownQuestion shownAnswer,
          Session.renderTurn i pair
            = FollowUpSpec.turnText i label shownQuestion shownAnswer
          /\ shownQuestion = firstn 1500 (Session.question pair)
          /\ shownAnswer = firstn 2000 (Session.answer pair)
          /\ length shownQuestion <= 1500
          /\ length shownAnswer <= 2000).
Proof.
  intros Hpos pairs shown. repeat split.
  - unfold Session.getFollowUpContext. run_eval.
    unfold Session.this, gets, eval. cbn [fst].
    unfold Session.followUpContextOf.
    destruct (length (List.filter Session.relevant (sessionMemory (session a))) =? 0) eqn:Hnone.
    + apply Nat.eqb_eq, length_zero_iff_nil in Hnone.
      unfold pairs. by rewrite FollowUpSpec.pairsFrom_irrelevant.
    + rewrite FollowUpSpec.buildPairs_spec. fold pairs.
      destruct pairs as [|p ps] eqn:Hpairs; [done|].
      cbn [length Nat.eqb]. rewrite FollowUpSpec.sliceLast_lastN by done.
      reflexivity.
  - unfold shown, FollowUpSpec.lastN. rewrite length_skipn. lia.
  - intros front back q m text origin Hmem Hq Hquestion Htext Hm Hanswer.
    unfold pairs. rewrite Hmem. apply FollowUpSpec.pairsFrom_adjacent; try done.
    by destruct text.
  - intros i pair _. apply FollowUpSpec.renderTurn_bounded.
Qed.

Lemma followUp_context_pairs_witness :
  let memory :=
    [Sample.userSaid 999001 "q1"; Sample.modelSaid 999002 "a1";
     Sample.userSaid 999003 "q2"; Sample.modelSaid 999004 "a2";
     Sample.userSaid 999005 "q3"; Sample.modelSaid 999006 "a3";
     Sample.userSaid 999007 "q4"; Sample.modelSaid 999008 "a4";
     Sample.userSaid 999009 "q5"; Sample.modelSaid 999010 "a5"] in
  let a := Sample.appWith Sample.shippedConfig memory Sample.idleService in
  0 < 3
  /\ List.map Session.question (FollowUpSpec.lastN 3 (FollowUpSpec.pairsFrom None memory))
     = [js "q3"; js "q4"; js "q5"]
  /\ eval (Session.getFollowUpContext 3) a
     = Session.contextHeader
       ++ List.concat (imap Session.renderTurn
                         (FollowUpSpec.lastN 3 (FollowUpSpec.pairsFrom None memory)))
       ++ Session.contextFooter.
Proof.
  cbv zeta. split; [lia|]. split; [vm_compute; reflexivity|].
  match goal with
  | |- eval _ ?a = _ =>
      destruct (followUp_context_pairs a 3 ltac:(lia)) as [H _]; rewrite H
  end.
  vm_compute. reflexivity.
Defined.

(** With [maxPairs = 0] the slice is the whole list: every pair is
    rendered. *)
Lemma followUp_zero_renders_all (a : App) :
  let pairs := FollowUpSpec.pairsFrom None (sessionMemory (session a)) in
  pairs <> [] ->
  eval (Session.getFollowUpContext 0) a = Session.renderPairs pairs.
Proof.
  intros pairs Hsome.
  unfold Session.getFollowUpContext. run_eval.
  unfold Session.this, gets, eval. cbn [fst].
  unfold Session.followUpContextOf.
  destruct (length (List.filter Session.relevant (sessionMemory (session a))) =? 0) eqn:Hnone.
  - apply Nat.eqb_eq, length_zero_iff_nil in Hnone.
    apply FollowUpSpec.pairsFrom_irrelevant in Hnone. by destruct Hsome.
  - rewrite FollowUpSpec.buildPairs_spec. fold pairs.
    destruct pairs; [done|reflexivity].
Qed.

(** ** Clearing *)

Module ClearFacts.
Import Session.

(** The skills whose prompt is there. *)
Definition loads (w : World) (skill : jsstring) : bool :=
  match loaded (prompts w skill) with Some _ => true | None => false end.

(** An event is the baseline event of a skill. *)
Definition baselineOf (skill : jsstring) (e : Event) : Prop :=
  ev_role e = js "system"
  /\ ev_action e = js "skill_init"
  /\ ev_category e = js "system"
  /\ ev_content e = js "Skill prompt loaded: " ++ skill
  /\ ev_metadata e !! js "skill" = Some (MString skill).

(** What a run leaves alone. *)
Definition sameButMemory (a a' : App) : Prop :=
  prompts (world a') = prompts (world a)
  /\ config (world a') = config (world a)
  /\ timers (world a') = timers (world a)
  /\ calls (world a') = calls (world a)
  /\ topicTags (session a') = topicTags (session a)
  /\ sessionStartTime (session a') = sessionStartTime (session a)
  /\ sessionActive (session a') = sessionActive (session a)
  /\ sessionTimer (session a') = sessionTimer (session a)
  /\ service a' = service a.

Lemma sameButMemory_refl (a : App) : sameButMemory a a.
Proof. by repeat split. Qed.

Lemma sameButMemory_trans (a b c : App) :
  sameButMemory a b -> sameButMemory b c -> sameButMemory a c.
Proof. unfold sameButMemory. intuition congruence. Qed.

Lemma loadSkill_run (skill : jsstring) (a : App) :
  let a' := exec (loadSkill skill) a in
  sameButMemory a a'
  /\ exists new,
       sessionMemory (session a') = sessionMemory (session a) ++ new
       /\ Forall2 baselineOf (if loads (world a) skill then [skill] else []) new.
Proof.
  destruct a as [w s l]. cbv zeta. unfold loads, exec, loadSkill, bind, getSkillPrompt, gets.
  cbn [world fst snd].
  destruct (loaded (prompts w skill)) as [text|].
  - split; [by repeat split|]. eexists. split; [reflexivity|].
    constructor; [|constructor]. repeat split.
  - split; [by repeat split|]. exists []. split; [by rewrite app_nil_r|constructor].
Qed.

Lemma forEach_loadSkill (skills : list jsstring) :
  forall a,
    let a' := exec (forEach skills loadSkill) a in
    sameButMemory a a'
    /\ exists new,
         sessionMemory (session a') = sessionMemory (session a) ++ new
         /\ Forall2 baselineOf (List.filter (loads (world a)) skills) new.
Proof.
  induction skills as [|skill skills IH]; intros a; cbv zeta.
  - split; [apply sameButMemory_refl|]. exists []. split; [by rewrite app_nil_r|constructor].
  - cbn [forEach]. rewrite exec_bind.
    destruct (loadSkill_run skill a) as (Hsame1 & new1 & Hmem1 & Hnew1).
    destruct (IH (exec (loadSkill skill) a)) as (Hsame2 & new2 & Hmem2 & Hnew2).
    split; [by eapply sameButMemory_trans|].
    exists (new1 ++ new2). split.
    + rewrite Hmem2, Hmem1. by rewrite app_assoc.
    + assert (Hloads : loads (world (exec (loadSkill skill) a)) = loads (world a)).
      { unfold loads. destruct Hsame1 as [-> _]. reflexivity. }
      rewrite Hloads in Hnew2. cbn [List.filter].
      destruct (loads (world a) skill); cbn [app].
      * inversion Hnew1 as [|? e ? rest Hb Hrest]; subst.
        inversion Hrest; subst. by constructor.
      * by inversion Hnew1; subst.
Qed.

Lemma initializeWithSkillPrompts_run (a : App) :
  exec initializeWithSkillPrompts a
  = exec (forEach (default defaultModes (cfg_availableModes (config (world a)))) loadSkill) a.
Proof. reflexivity. Qed.

(** What [clear] does to a manager: the log is seeded again with one
    baseline event for every configured skill whose prompt is there, in
    the order of the configuration; the topic index is empty, the session
    has no start time and is not active, no timer is held, and the timer
    that was held is no longer pending. *)
Lemma clear_resets (a : App) :
  let a' := exec clear a in
  let skills := default defaultModes (cfg_availableModes (config (world a))) in
  Forall2 baselineOf (List.filter (loads (world a)) skills) (sessionMemory (session a'))
  /\ topicTags (session a') = ∅
  /\ sessionStartTime (session a') = None
  /\ sessionActive (session a') = false
  /\ sessionTimer (session a') = None
  /\ (forall handle ms, sessionTimer (session a) = Some handle ->
        ~ In (handle, ms) (timers (world a'))).
Proof.
  destruct a as [w s l]. cbv zeta.
  assert (Hrun : exists b,
    exec clear (mkApp w s l) = exec initializeWithSkillPrompts b
    /\ prompts (world b) = prompts w /\ config (world b) = config w
    /\ sessionMemory (session b) = [] /\ topicTags (session b) = ∅
    /\ sessionStartTime (session b) = None /\ sessionActive (session b) = false
    /\ sessionTimer (session b) = None
    /\ forall handle ms, sessionTimer s = Some handle ->
         ~ In (handle, ms) (timers (world b))).
  { unfold exec, clear, bind, onSession, modify, this, gets.
    cbn -[initializeWithSkillPrompts].
    destruct (sessionTimer s) as [h|] eqn:Hh; cbn -[initializeWithSkillPrompts].
    - eexists. split; [reflexivity|]. cbn. repeat split; try done.
      intros handle ms [= <-] Hin. apply filter_In in Hin as [_ Hin].
      cbn in Hin. by rewrite Nat.eqb_refl in Hin.
    - eexists. split; [reflexivity|]. cbn. by repeat split. }
  destruct Hrun as (b & -> & Hp & Hc & Hm & Ht & Hst & Hact & Htm & Hgone).
  rewrite initializeWithSkillPrompts_run.
  destruct (forEach_loadSkill (default defaultModes (cfg_availableModes (config (world b)))) b)
    as (Hsame & new & Hmem & Hnew).
  destruct Hsame as (Hp' & Hc' & Htimers' & _ & Htags' & Hst' & Hact' & Htm' & _).
  rewrite Hm in Hmem. cbn [app] in Hmem. rewrite Hmem, Htags', Hst', Hact', Htm', Htimers'.
  rewrite Hc in *. cbn [world config].
  assert (Hl : loads (world b) = loads w) by (unfold loads; by rewrite Hp).
  rewrite Hl in Hnew. by repeat split.
Qed.

End ClearFacts.

(** C10.  [startSession] arms a timer without clearing the one the manager
    already holds; after two starts two timers are pending and only the
    second is held.  [clear] cancels the timer that is held: the first one
    is still pending after it. *)
Theorem clear_leaves_earlier_timer :
  let a0 := Sample.appWith Sample.shippedConfig [] Sample.idleService in
  let started :=
    exec (Session.startSession (Some (js "dsa")) ;; Session.startSession (Some (js "dsa"))) a0 in
  let cleared := exec Session.clear started in
  timers (world started) = [(0, 14400000%Z); (1, 14400000%Z)]
  /\ sessionTimer (session started) = Some 1
  /\ sessionTimer (session cleared) = None
  /\ timers (world cleared) = [(0, 14400000%Z)]
  /\ List.map ev_action (sessionMemory (session cleared))
     = [js "skill_init"; js "skill_init"; js "skill_init"].
Proof. vm_compute. repeat split. Qed.

(** ** The classifier *)

Module ClassifierFacts.
Import Classifier.

(** The number of patterns of a family that match the text: a pattern
    counts once, however often it matches. *)
Definition hits (patterns : list Regex.regex) (text : jsstring) : nat :=
  length (List.filter (fun pattern => Regex.test pattern text) patterns).

Lemma fold_count (run : Regex.regex -> jsstring -> bool) (text : jsstring)
    (patterns : list Regex.regex) :
  forall score,
    fold_left (fun score pattern => if run pattern text then S score else score)
      patterns score
    = score + length (List.filter (fun pattern => run pattern text) patterns).
Proof.
  induction patterns as [|p ps IH]; intros score; cbn [fold_left List.filter].
  - cbn. lia.
  - rewrite IH. destruct (run p text); cbn [length]; lia.
Qed.

Lemma countHits_hits (patterns : list Regex.regex) (text : jsstring) :
  countHits Regex.test patterns text = hits patterns text.
Proof. unfold countHits, hits. by rewrite fold_count. Qed.

Lemma hits_bounded (patterns : list Regex.regex) (text : jsstring) :
  hits patterns text <= length patterns.
Proof. unfold hits. apply filter_length_le. Qed.

Lemma modeDefault_design (skill : jsstring) :
  modeDefault skill = Design <-> skill = js "system-design".
Proof.
  unfold modeDefault. destruct (str_eq skill (js "system-design")) eqn:E.
  - apply str_eq_true in E. by split.
  - apply str_eq_false in E. split; [done|]. intros ->. by destruct E.
Qed.

(** The bias of a mode: 2 for the family of the mode, when the mode is
    one of the three the classifier knows, nothing otherwise. *)
Lemma bias_of_mode (skill : jsstring) :
  (skill = js "dsa" \/ skill = js "technical-screening" ->
     codingBias skill = 2 /\ designBias skill = 0)
  /\ (skill = js "system-design" -> codingBias skill = 0 /\ designBias skill = 2)
  /\ (skill <> js "dsa" -> skill <> js "technical-screening" ->
      skill <> js "system-design" -> codingBias skill = 0 /\ designBias skill = 0).
Proof.
  unfold codingBias, designBias. repeat split.
  - destruct H as [-> | ->]; reflexivity.
  - destruct H as [-> | ->]; reflexivity.
  - subst. reflexivity.
  - subst. reflexivity.
  - apply str_eq_false in H, H0. by rewrite H, H0.
  - apply str_eq_false in H1. by rewrite H1.
Qed.

End ClassifierFacts.

(** C5.  For a text that is not empty, [detectQuestionType] counts for each
    family the patterns that match the lower-cased text, each pattern once
    (so at most 7 per family), adds 2 to the coding count in the modes [dsa]
    and [technical-screening] and 2 to the design count in the mode
    [system-design], and answers coding exactly when the coding score is
    strictly greater, design otherwise, ties included.  For the empty text it
    answers design in the mode [system-design] and coding in every other
    mode, whatever the patterns would say. *)
Theorem classifier_rule (extracted skill : jsstring) :
  let lowered := toLowerCase extracted in
  let codingScore :=
    ClassifierFacts.hits Classifier.codingPatterns lowered + Classifier.codingBias skill in
  let designScore :=
    ClassifierFacts.hits Classifier.designPatterns lowered + Classifier.designBias skill in
  (extracted <> [] ->
     (Classifier.detectQuestionType extracted skill = Classifier.Coding
      <-> designScore < codingScore)
     /\ (Classifier.detectQuestionType extracted skill = Classifier.Design
         <-> codingScore <= designScore))
  /\ ClassifierFacts.hits Classifier.codingPatterns lowered <= 7
  /\ ClassifierFacts.hits Classifier.designPatterns lowered <= 7
  /\ ((skill = js "dsa" \/ skill = js "technical-screening" ->
         Classifier.codingBias skill = 2 /\ Classifier.designBias skill = 0)
      /\ (skill = js "system-design" ->
            Classifier.codingBias skill = 0 /\ Classifier.designBias skill = 2)
      /\ (skill <> js "dsa" -> skill <> js "technical-screening" ->
          skill <> js "system-design" ->
          Classifier.codingBias skill = 0 /\ Classifier.designBias skill = 0))
  /\ (extracted = [] ->
        forall run, Classifier.detectWith run extracted skill = Classifier.modeDefault skill)
  /\ (Classifier.modeDefault skill = Classifier.Design <-> skill = js "system-design")
  /\ (Classifier.modeDefault skill = Classifier.Coding <-> skill <> js "system-design").
Proof.
  intros lowered codingScore designScore.
  split; [|split; [|split; [|split; [|split; [|split]]]]].
  - intros Hsome.
    assert (Hrun : Classifier.detectQuestionType extracted skill
                   = if designScore <? codingScore then Classifier.Coding
                     else Classifier.Design).
    { unfold Classifier.detectQuestionType, Classifier.detectWith.
      destruct extracted as [|c rest]; [done|]. cbn [truthy negb].
      by rewrite !ClassifierFacts.countHits_hits. }
    rewrite Hrun. destruct (designScore <? codingScore) eqn:E.
    + apply Nat.ltb_lt in E. split; split; try done; lia.
    + apply Nat.ltb_ge in E. split; split; try done; lia.
  - apply (ClassifierFacts.hits_bounded Classifier.codingPatterns).
  - apply (ClassifierFacts.hits_bounded Classifier.designPatterns).
  - apply ClassifierFacts.bias_of_mode.
  - intros -> run. reflexivity.
  - apply ClassifierFacts.modeDefault_design.
  - pose proof (ClassifierFacts.modeDefault_design skill) as H.
    destruct (Classifier.modeDefault skill); split; intros; try done.
    + intros Heq. apply H in Heq. done.
    + destruct H0. by apply H.
Qed.

(** Fixtures of the tie-break, in the mode [system-design]: two coding
    patterns against the design bias of 2 is a tie and gives design; three
    coding patterns give coding; a word that matches many times counts
    once. *)
Lemma classifier_fixtures :
  let tie := js "Given an array, return the sorted array" in
  let clear := js "use BFS on the graph; time complexity O(n) array array" in
  ClassifierFacts.hits Classifier.codingPatterns (toLowerCase tie) = 2
  /\ ClassifierFacts.hits Classifier.designPatterns (toLowerCase tie) = 0
  /\ Classifier.detectQuestionType tie (js "system-design") = Classifier.Design
  /\ Classifier.detectQuestionType tie (js "dsa") = Classifier.Coding
  /\ ClassifierFacts.hits Classifier.codingPatterns (toLowerCase clear) = 3
  /\ Classifier.detectQuestionType clear (js "system-design") = Classifier.Coding
  /\ ClassifierFacts.hits Classifier.codingPatterns (js "array array array array") = 1
  /\ Classifier.detectQuestionType [] (js "system-design") = Classifier.Design
  /\ Classifier.detectQuestionType [] (js "dsa") = Classifier.Coding.
Proof. vm_compute. repeat split. Qed.

(** ** The splitter *)

Module SplitterFacts.
Import Splitter.

(** The example of the specification: two bare headings, one line under
    each. *)
Definition bareHeadings : jsstring :=
  js "## Part A" ++ nl ++ js "Do X" ++ nl ++ js "## Part B" ++ nl ++ js "Code Y".

(** Headings that carry a title on their line. *)
Definition titledHeadings : jsstring :=
  js "## Part A " ++ [8212%N] ++ js " What to Say" ++ nl ++ js "- restate" ++ nl
  ++ js "- clarify" ++ nl ++ js "**PART b**: Solution" ++ nl ++ js "x = 1".

(** Only the first heading, and a line break at the end. *)
Definition onlyPartA : jsstring := js "## Part A" ++ nl ++ js "Do X" ++ nl.

(** When neither pattern matches, the whole text is part B. *)
Lemma split_without_match (response : jsstring) :
  Regex.firstMatch partARegex response = None ->
  Regex.firstMatch partBRegex response = None ->
  splitResponse response = ([], response).
Proof. intros HA HB. unfold splitResponse. by rewrite HA, HB. Qed.

(** No text is lost when both parts come out empty. *)
Lemma split_keeps_text (response a b : jsstring) :
  splitResponse response = (a, b) -> a = [] -> b = [] -> response = [].
Proof.
  unfold splitResponse.
  destruct (negb (truthy _) && negb (truthy _)) eqn:E.
  - intros [= <- <-] _ ->. reflexivity.
  - intros [= <- <-] Ha Hb. rewrite Ha, Hb in E. discriminate.
Qed.

(** What the splitter does get right: a text without the word, titled
    headings in several spellings. *)
Lemma split_examples :
  splitResponse (js "hello world") = ([], js "hello world")
  /\ splitResponse titledHeadings
     = (js "- restate" ++ nl ++ js "- clarify", js "x = 1").
Proof. vm_compute. by split. Qed.

End SplitterFacts.

(** C6.  On the text ["## Part A\nDo X\n## Part B\nCode Y"] the splitter
    gives an empty part A and ["Code Y"] as part B: after a bare heading the
    separator class, which contains white space, takes the line break, the
    rest-of-line step takes the line ["Do X"], and the body starts after it.
    With only a bare part A heading and a final line break, part A is empty
    as well and the whole text goes to part B. *)
Theorem split_loses_first_line :
  Splitter.splitResponse SplitterFacts.bareHeadings = ([], js "Code Y")
  /\ Splitter.splitResponse SplitterFacts.onlyPartA = ([], SplitterFacts.onlyPartA)
  /\ (exists f, Regex.firstMatch Splitter.partARegex SplitterFacts.bareHeadings = Some f
                /\ Regex.group1 f = Some []
                /\ Regex.matched f = js "## Part A" ++ nl ++ js "Do X"
                                     ++ nl).
Proof.
  split; [vm_compute; reflexivity|]. split; [vm_compute; reflexivity|].
  eexists. split; [vm_compute; reflexivity|]. split; reflexivity.
Qed.

(** ** The request executor and the vision loop *)

Module ExecutorFacts.
Import LLM.

















End ExecutorFacts.

(** *** A backend that needs a second attempt *)

Module Flaky.
Import LLM.

Definition first : jsstring := js "meta-llama/llama-4-scout-17b-16e-instruct".
Definition second : jsstring := js "llama-3.2-11b-vision-preview".

(** Every call is rejected, but a call to [second] that comes after an
    earlier call to [second]: the first candidate always fails, the second
    one succeeds on its second attempt. *)
Definition reply (history : list Call) (c : Call) : Reply :=
  if str_eq (call_model c) second
     && existsb (fun earlier => str_eq (call_model earlier) second) history
  then Completion (Some (js "def two_sum(nums, target):"))
  else Rejected Sample.unreachable.

Definition flakyWorld : World :=
  let w := Sample.quietWorld Sample.shippedConfig in
  mkWorld (clock w) (clockReads w) (random w) (randomDraws w) (prompts w) (config w)
    (base64 w) (toJPEG w) reply (timers w) (timerCount w) (calls w) (sleeps w).


(** A service whose one configured model is [second]. *)
Definition secondApp : App :=
  mkApp flakyWorld (Session.fresh Sample.shippedConfig) (mkLLMService true true second 0 0).

Definition someTexts : Texts :=
  mkTexts (js "You are a technical interview assistant.") (js "RESPONSE FORMAT: hint")
    (js "RESPONSE FORMAT: explain") (js "RESPONSE FORMAT: deep dive")
    (js "STRICT PERSONA: Visual Data Extractor") (js "Perform a COMPLETE DATA EXTRACTION")
    (js "Analyze this content from a system design interview.")
    (js "Analyze this content from a coding/DSA interview.")
    (js "IMPORTANT: This is a FOLLOW-UP message.") (js "IMPORTANT: This is a FOLLOW-UP message.")
    (js "IMPORTANT: This is a FOLLOW-UP to a previous problem.").

Definition request : list Message := [mkMessage (js "user") (Text (js "extract"))].
Definition gen : GenConfig := mkGenConfig (5 # 10)%Q (9 # 10)%Q 4096.
Definition png : list N := [137; 80; 78; 71]%N.

End Flaky.




(** The retrying executor on a model that succeeds on its second attempt:
    two calls, one delay of a second, the text. *)
Lemma executeRequest_second_attempt :
  let run := LLM.executeRequest Flaky.request Flaky.gen in
  eval run Flaky.secondApp = Returned (js "def two_sum(nums, target):")
  /\ List.map call_model (calls (world (exec run Flaky.secondApp)))
     = [Flaky.second; Flaky.second]
  /\ sleeps (world (exec run Flaky.secondApp)) = [1000%Z].
Proof. vm_compute. repeat split. Qed.

(** ** The service without a client *)

Module FallbackFacts.
Import LLM.

(** An entry point has answered with the canned response [canned] and has
    not touched the backend: no call was sent, no delay slept, and neither
    the session nor the service has changed. *)
Definition AnswersCanned (run : M Response) (canned : Response) (a : App) : Prop :=
  eval run a = canned
  /\ md_usedFallback (metadata (eval run a)) = true
  /\ calls (world (exec run a)) = calls (world a)
  /\ sleeps (world (exec run a)) = sleeps (world a)
  /\ session (exec run a) = session a
  /\ service (exec run a) = service a.

Lemma fallback_is_skill_aware (text skill : jsstring) :
  md_usedFallback (metadata (generateFallbackResponse text skill)) = true
  /\ md_model (metadata (generateFallbackResponse text skill)) = js "fallback"
  /\ md_skill (metadata (generateFallbackResponse text skill)) = skill
  /\ response (generateFallbackResponse text skill) = fallbackText skill
  /\ response (generateFallbackResponse text skill) <> [].
Proof.
  repeat split. cbn [response generateFallbackResponse]. unfold fallbackText.
  destruct (str_eq skill (js "system-design"));
    [|destruct (str_eq skill (js "technical-screening"))];
    intros H; apply (f_equal (@length N)) in H; vm_compute in H; discriminate.
Qed.

(** The guard the entry points start with. *)
Lemma guard_run (canned : Response) (rest : Z -> M Response) (a : App) :
  isInitialized (service a) = false ->
  (let* startTime := dateNow in
   let* ready := self isInitialized in
   if negb ready then ret canned else rest startTime) a
  = (canned, exec dateNow a).
Proof.
  intros Hidle. destruct a as [w s l]. cbn [service] in Hidle.
  unfold bind at 1. cbn [dateNow world session service].
  unfold bind, self, gets, exec. cbn [service fst snd dateNow world session].
  by rewrite Hidle.
Qed.

Lemma exec_guard (canned : Response) (rest : Z -> M Response) (a : App) :
  isInitialized (service a) = false ->
  exec (let* startTime := dateNow in
        let* ready := self isInitialized in
        if negb ready then ret canned else rest startTime) a
  = exec dateNow a.
Proof. intros Hidle. unfold exec at 1. by rewrite guard_run. Qed.

Lemma guarded_answers_canned (text skill : jsstring) (rest : Z -> M Response) (a : App) :
  isInitialized (service a) = false ->
  AnswersCanned
    (let* startTime := dateNow in
     let* ready := self isInitialized in
     if negb ready then ret (generateFallbackResponse text skill) else rest startTime)
    (generateFallbackResponse text skill) a.
Proof.
  intros Hidle. unfold AnswersCanned, eval.
  rewrite (exec_guard _ rest) by done.
  rewrite guard_run by done. cbn [fst]. destruct a as [w s l].
  by repeat split.
Qed.

(** The canned response, written out: the text is one of three fixed hints
    and the skill alone chooses it, the detected type follows the skill, the
    two parts are empty, the extracted text is the text the entry point
    passes, and the metadata name the skill and mark the fallback. *)
Definition Canned (text skill : jsstring) (r : Response) : Prop :=
  (skill = js "system-design" ->
   response r
   = js "Consider the scalability implications here. Think about read vs write patterns, caching layers, and whether you need strong consistency or eventual consistency."
   /\ detectedType r = Some Classifier.Design)
  /\ (skill = js "technical-screening" ->
      response r
      = js "Think about the time complexity of your approach. Is there a way to optimize with a different data structure like a hash map or a heap?"
      /\ detectedType r = Some Classifier.Coding)
  /\ (skill <> js "system-design" -> skill <> js "technical-screening" ->
      response r
      = js "Let me think about this problem. Consider the pattern " ++ [8212%N]
        ++ js " is it a sliding window, two pointers, or dynamic programming approach?"
      /\ detectedType r = Some Classifier.Coding)
  /\ response r <> []
  /\ partA r = Some [] /\ partB r = Some []
  /\ extractedText r = Some text
  /\ md_processingTime (metadata r) = 0%Z
  /\ md_model (metadata r) = js "fallback"
  /\ md_skill (metadata r) = skill
  /\ md_usedFallback (metadata r) = true
  /\ md_isStructuredResponse (metadata r) = Some false
  /\ md_isImageAnalysis (metadata r) = None.

Lemma generateFallbackResponse_canned (text skill : jsstring) :
  Canned text skill (generateFallbackResponse text skill).
Proof.
  destruct (fallback_is_skill_aware text skill) as (_ & _ & _ & _ & Hne).
  unfold Canned. split; [|split; [|split; [|split; [exact Hne|by repeat split]]]].
  - intros ->. split; by vm_compute.
  - intros ->. split; by vm_compute.
  - intros Hdesign Hscreening.
    cbn [response detectedType generateFallbackResponse].
    unfold fallbackText, Classifier.modeDefault.
    apply str_eq_false in Hdesign, Hscreening. by rewrite Hdesign, Hscreening.
Qed.

(** An entry point stopped by its guard has read the clock once and done
    nothing else. *)
Definition OnlyReadsClock (run : M Response) (a : App) : Prop :=
  exec run a = exec dateNow a.

End FallbackFacts.

(** C8.  When the service is not initialised, each of [processTextWithSkill],
    [processTranscriptionWithIntelligentResponse] and
    [processScreenCaptureWithStructuredResponse] returns the canned response
    of the active skill, with [usedFallback] set, after reading the clock and
    nothing else: no call goes to the backend and no delay is slept.  The
    canned response is written out: its text is the scalability hint for
    [system-design], the complexity hint for [technical-screening] and the
    pattern hint for every other skill, whatever the text, the image, the
    memory and the other arguments are; its detected type is [design] for
    [system-design] and [coding] otherwise; its extracted text is the text
    given, and [Image analysis requested] for a screen capture; its metadata
    carry the skill, the model [fallback] and [usedFallback = true]. *)
Theorem uninitialized_answers_canned (texts : Texts) (a : App)
    (text mimeType skill complexity : jsstring) (imageBuffer : list N)
    (memory : list Event) (language : option jsstring) (isFollowUp : bool) :
  isInitialized (service a) = false ->
  let onText :=
    LLM.processTextWithSkill texts text skill memory language complexity isFollowUp in
  let onTranscription :=
    LLM.processTranscriptionWithIntelligentResponse texts text skill memory language
      isFollowUp in
  let onScreen :=
    LLM.processScreenCaptureWithStructuredResponse texts imageBuffer mimeType skill
      memory language isFollowUp in
  FallbackFacts.AnswersCanned onText (LLM.generateFallbackResponse text skill) a
  /\ FallbackFacts.AnswersCanned onTranscription (LLM.generateFallbackResponse text skill) a
  /\ FallbackFacts.AnswersCanned onScreen
       (LLM.generateFallbackResponse LLM.imageRequested skill) a
  /\ FallbackFacts.Canned text skill (eval onText a)
  /\ FallbackFacts.Canned text skill (eval onTranscription a)
  /\ FallbackFacts.Canned (js "Image analysis requested") skill (eval onScreen a)
  /\ FallbackFacts.OnlyReadsClock onText a
  /\ FallbackFacts.OnlyReadsClock onTranscription a
  /\ FallbackFacts.OnlyReadsClock onScreen a.
Proof.
  intros Hidle. cbv zeta.
  unfold LLM.processTextWithSkill, LLM.processTranscriptionWithIntelligentResponse,
    LLM.processScreenCaptureWithStructuredResponse, FallbackFacts.OnlyReadsClock.
  split; [by apply FallbackFacts.guarded_answers_canned|].
  split; [by apply FallbackFacts.guarded_answers_canned|].
  split; [by apply FallbackFacts.guarded_answers_canned|].
  unfold eval. rewrite !FallbackFacts.guard_run by done. cbn [fst].
  split; [apply FallbackFacts.generateFallbackResponse_canned|].
  split; [apply FallbackFacts.generateFallbackResponse_canned|].
  split; [apply FallbackFacts.generateFallbackResponse_canned|].
  split; [|split]; by apply FallbackFacts.exec_guard.
Qed.

Lemma uninitialized_answers_canned_witness :
  let a := Sample.appWith Sample.shippedConfig Sample.fiveTurns Sample.idleService in
  let onText :=
    LLM.processTextWithSkill Flaky.someTexts (js "hello") (js "dsa") Sample.fiveTurns None
      (js "long") true in
  let onScreen :=
    LLM.processScreenCaptureWithStructuredResponse Flaky.someTexts Flaky.png
      (js "image/png") (js "dsa") Sample.fiveTurns None true in
  isInitialized (service a) = false
  /\ FallbackFacts.AnswersCanned onScreen
       (LLM.generateFallbackResponse LLM.imageRequested (js "dsa")) a
  /\ FallbackFacts.Canned (js "hello") (js "dsa") (eval onText a)
  /\ FallbackFacts.Canned (js "Image analysis requested") (js "dsa") (eval onScreen a)
  /\ FallbackFacts.OnlyReadsClock onScreen a.
Proof.
  cbv zeta.
  assert (Hidle : isInitialized (service (Sample.appWith Sample.shippedConfig
            Sample.fiveTurns Sample.idleService)) = false) by reflexivity.
  split; [exact Hidle|].
  destruct (uninitialized_answers_canned Flaky.someTexts
              (Sample.appWith Sample.shippedConfig Sample.fiveTurns Sample.idleService)
              (js "hello") (js "image/png") (js "dsa") (js "long") Flaky.png
              Sample.fiveTurns None true Hidle)
    as (_ & _ & Hscreen & Htext & _ & Hcanned & _ & _ & Hclock).
  split; [exact Hscreen|]. split; [exact Htext|]. split; [exact Hcanned|]. exact Hclock.
Defined.

(** * Further properties *)

From Stdlib Require Import Sorted.

(** ** The log under appends *)

Module LogFacts.
Import Session.

(** Everything of the application but the log, the topic index and the
    numbers of readings taken from the clock and the random source. *)
Definition surroundings (a : App) :=
  let w := world a in
  let s := session a in
  (clock w, random w, prompts w, config w, base64 w, toJPEG w, backend w,
   (timers w, timerCount w, calls w, sleeps w),
   (compressionEnabled s, maxSize s, compressionThreshold s, maxDurationMinutes s),
   (activeSkill s, sessionStartTime s, sessionActive s, sessionTimer s),
   service a).

(** A run that touches the log and the topic index only, and reads the
    clock and the random source. *)
Definition onlyLog (a a' : App) : Prop :=
  surroundings a' = surroundings a
  /\ clockReads (world a) <= clockReads (world a')
  /\ randomDraws (world a) <= randomDraws (world a').

Lemma onlyLog_refl (a : App) : onlyLog a a.
Proof. by repeat split. Qed.

Lemma onlyLog_trans (a b c : App) : onlyLog a b -> onlyLog b c -> onlyLog a c.
Proof.
  intros (H1 & H2 & H3) (H4 & H5 & H6). repeat split; [congruence|lia..].
Qed.

Lemma onlyLog_fields (a a' : App) :
  onlyLog a a' ->
  clock (world a') = clock (world a)
  /\ timers (world a') = timers (world a)
  /\ timerCount (world a') = timerCount (world a)
  /\ calls (world a') = calls (world a)
  /\ maxSize (session a') = maxSize (session a)
  /\ compressionThreshold (session a') = compressionThreshold (session a)
  /\ maxDurationMinutes (session a') = maxDurationMinutes (session a)
  /\ activeSkill (session a') = activeSkill (session a)
  /\ sessionStartTime (session a') = sessionStartTime (session a)
  /\ sessionActive (session a') = sessionActive (session a)
  /\ sessionTimer (session a') = sessionTimer (session a)
  /\ service a' = service a.
Proof.
  intros [H _]. unfold surroundings in H. injection H. intros. by repeat split.
Qed.

(** The part of an event that no step of the maintenance rewrites: a merge
    changes the content and the metadata only. *)
Definition identity (e : Event) : jsstring * Z * jsstring * jsstring * jsstring :=
  (ev_id e, ev_timestamp e, ev_role e, ev_action e, ev_category e).

Lemma filter_sublist {A : Type} (p : A -> bool) (l : list A) : sublist (List.filter p l) l.
Proof.
  induction l as [|x l IH]; [constructor|].
  cbn [List.filter]. destruct (p x); by constructor.
Qed.

Lemma consolidate_identity (events : list Event) :
  sublist (List.map identity (consolidate events)) (List.map identity events).
Proof.
  induction events as [| e | a b l IH1 IH2] using ConsolidationFacts.by_pairs.
  - constructor.
  - reflexivity.
  - rewrite ConsolidationFacts.consolidate_pair.
    destruct (sameSystemAction a b); cbn [List.map].
    + constructor. by constructor.
    + by constructor.
Qed.

Lemma map_sublist {A B : Type} (f : A -> B) (l k : list A) :
  sublist l k -> sublist (List.map f l) (List.map f k).
Proof. induction 1; cbn [List.map]; by constructor. Qed.

(** The steps of an append, one by one. *)

Lemma dateNow_log (a : App) :
  onlyLog a (exec dateNow a)
  /\ session (exec dateNow a) = session a
  /\ clockReads (world (exec dateNow a)) = S (clockReads (world a)).
Proof. destruct a as [w s l]. cbn. repeat split; cbn; first [reflexivity | lia]. Qed.

Lemma generateEventId_log (a : App) :
  onlyLog a (exec generateEventId a)
  /\ session (exec generateEventId a) = session a
  /\ clockReads (world (exec generateEventId a)) = S (clockReads (world a)).
Proof. destruct a as [w s l]. cbn. repeat split; cbn; first [reflexivity | lia]. Qed.

Lemma getElapsedMinutes_log (a : App) :
  onlyLog a (exec getElapsedMinutes a)
  /\ session (exec getElapsedMinutes a) = session a
  /\ clockReads (world (exec getElapsedMinutes a)) <= S (clockReads (world a)).
Proof.
  destruct a as [w s l]. unfold getElapsedMinutes, exec, bind, this, gets.
  cbn [session fst snd].
  destruct (sessionStartTime s) as [[|t|t]|]; cbn; repeat split; cbn; first [reflexivity | lia].
Qed.

Lemma newEvent_log (role content : jsstring) (action : option jsstring) (md : Metadata)
    (a : App) :
  let e := eval (newEvent role content action md) a in
  let a' := exec (newEvent role content action md) a in
  onlyLog a a'
  /\ session a' = session a
  /\ S (S (clockReads (world a))) <= clockReads (world a') <= clockReads (world a) + 3
  /\ ev_timestamp e = clock (world a) (S (clockReads (world a)))
  /\ ev_role e = role
  /\ ev_content e = content
  /\ ev_action e = orElse action (inferActionFromRole role)
  /\ ev_category e = categorizeAction (orElse action role).
Proof.
  cbv zeta. unfold newEvent.
  rewrite !eval_bind, !exec_bind, eval_ret, exec_ret.
  cbn [ev_timestamp ev_category ev_role ev_content ev_action].
  destruct (generateEventId_log a) as (Hlog1 & Hsession1 & Hreads1).
  set (a1 := exec generateEventId a) in *.
  destruct (dateNow_log a1) as (Hlog2 & Hsession2 & Hreads2).
  pose proof (AppendFacts.dateNow_run a1) as (Hnow & _).
  set (a2 := exec dateNow a1) in *.
  assert (Ha3 : exec (this activeSkill) a2 = a2) by reflexivity. rewrite Ha3.
  destruct (getElapsedMinutes_log a2) as (Hlog4 & Hsession4 & Hupper4).
  pose proof Hlog4 as (_ & Hreads4 & _).
  split; [eapply onlyLog_trans; [|exact Hlog4]; by eapply onlyLog_trans|].
  split; [congruence|]. split; [lia|]. split; [|done].
  rewrite Hnow. apply onlyLog_fields in Hlog1 as (-> & _). by rewrite Hreads1.
Qed.

Lemma push_log (e : Event) (a : App) :
  onlyLog a (exec (push e) a)
  /\ clockReads (world (exec (push e) a)) = clockReads (world a)
  /\ sessionMemory (session (exec (push e) a)) = sessionMemory (session a) ++ [e]
  /\ topicTags (session (exec (push e) a)) = topicTags (session a).
Proof. destruct a. by repeat split. Qed.

Lemma extractAndTagTopics_log (content : jsstring) (t : Z) (a : App) :
  onlyLog a (exec (extractAndTagTopics content t) a)
  /\ clockReads (world (exec (extractAndTagTopics content t) a)) = clockReads (world a)
  /\ sessionMemory (session (exec (extractAndTagTopics content t) a))
     = sessionMemory (session a).
Proof.
  destruct a. unfold extractAndTagTopics. destruct (negb (truthy content)); by repeat split.
Qed.

Lemma evictExpiredEvents_log (a : App) :
  let a' := exec evictExpiredEvents a in
  onlyLog a a'
  /\ clockReads (world a') = S (clockReads (world a))
  /\ sessionMemory (session a')
     = List.filter (keepEvent (EvictionFacts.cutoffOf a)) (sessionMemory (session a))
  /\ topicTags (session a') = evictTopics (EvictionFacts.cutoffOf a) (topicTags (session a)).
Proof.
  cbv zeta. unfold exec. rewrite EvictionFacts.evictExpiredEvents_run. cbn [snd].
  destruct a as [w s l]. cbn. repeat split; cbn; first [reflexivity | lia].
Qed.

Lemma consolidateSimilarEvents_log (a : App) :
  let a' := exec consolidateSimilarEvents a in
  onlyLog a a'
  /\ sessionMemory (session a') = consolidate (sessionMemory (session a))
  /\ topicTags (session a') = topicTags (session a).
Proof. destruct a. by repeat split. Qed.

(** What [performMaintenanceIfNeeded] makes of the log and of the topic
    index: it leaves them, or it evicts, consolidates and drops from the
    front what is above the hard limit. *)
Definition maintained (a : App) : list Event :=
  consolidate (List.filter (keepEvent (EvictionFacts.cutoffOf a)) (sessionMemory (session a))).

Lemma performMaintenanceIfNeeded_log (a : App) :
  let a' := exec performMaintenanceIfNeeded a in
  onlyLog a a'
  /\ clockReads (world a') <= S (clockReads (world a))
  /\ ((sessionMemory (session a') = sessionMemory (session a)
       /\ topicTags (session a') = topicTags (session a))
      \/ (sessionMemory (session a')
          = skipn (length (maintained a) - maxSize (session a)) (maintained a)
          /\ topicTags (session a')
             = evictTopics (EvictionFacts.cutoffOf a) (topicTags (session a)))).
Proof.
  cbv zeta. rewrite MaintenanceFacts.performMaintenanceIfNeeded_run.
  destruct (compressionThreshold (session a) <? _);
    [|split; [apply onlyLog_refl|split; [lia|by left]]].
  rewrite MaintenanceFacts.performMaintenance_run. cbv zeta.
  unfold MaintenanceFacts.processed. rewrite exec_bind.
  destruct (evictExpiredEvents_log a) as (Hlog1 & Hreads1 & Hmem1 & Htags1).
  set (a1 := exec evictExpiredEvents a) in *.
  destruct (consolidateSimilarEvents_log a1) as (Hlog2 & Hmem2 & Htags2).
  assert (Hreads2 : clockReads (world (exec consolidateSimilarEvents a1))
                    = clockReads (world a1)) by (by destruct a1).
  set (a2 := exec consolidateSimilarEvents a1) in *.
  assert (Hlog : onlyLog a a2) by (by eapply onlyLog_trans).
  assert (Hmem : sessionMemory (session a2) = maintained a).
  { unfold maintained. by rewrite Hmem2, Hmem1. }
  destruct (maxSize (session a) <? _) eqn:Hbig.
  - split.
    { destruct Hlog as (H & ? & ?). split; [by rewrite <- H|by split]. }
    split; [cbn [world]; lia|].
    right. cbn [session setMemory sessionMemory topicTags]. unfold slice.
    rewrite Hmem. split; [done|]. by rewrite Htags2, Htags1.
  - split; [done|]. split; [lia|]. right. apply Nat.ltb_ge in Hbig.
    rewrite Hmem in *. replace (length (maintained a) - maxSize (session a)) with 0 by lia.
    split; [done|]. by rewrite Htags2, Htags1.
Qed.

Lemma performMaintenanceIfNeeded_identity (a : App) :
  sublist (List.map identity (sessionMemory (session (exec performMaintenanceIfNeeded a))))
    (List.map identity (sessionMemory (session a))).
Proof.
  destruct (performMaintenanceIfNeeded_log a) as (_ & _ & [[-> _] | [-> _]]); [done|].
  etrans; [apply map_sublist, sublist_drop|]. unfold maintained.
  etrans; [apply consolidate_identity|].
  apply map_sublist, filter_sublist.
Qed.

(** One append, as a whole. *)
Lemma addConversationEvent_log (role content : jsstring) (action : option jsstring)
    (md : Metadata) (a : App) :
  let e := eval (addConversationEvent role content action md) a in
  let a' := exec (addConversationEvent role content action md) a in
  onlyLog a a'
  /\ S (S (S (clockReads (world a)))) <= clockReads (world a') <= clockReads (world a) + 5
  /\ ev_timestamp e = clock (world a) (S (clockReads (world a)))
  /\ ev_role e = role
  /\ ev_content e = content
  /\ ev_action e = orElse action (inferActionFromRole role)
  /\ ev_category e = categorizeAction (orElse action role)
  /\ sublist (List.map identity (sessionMemory (session a')))
       (List.map identity (sessionMemory (session a)) ++ [identity e]).
Proof.
  cbv zeta. unfold addConversationEvent.
  rewrite !eval_bind, !exec_bind, eval_ret, exec_ret.
  destruct (newEvent_log role content action md a)
    as (Hlog1 & Hsession1 & Hreads1 & Hts & Hrole & Hcontent & Haction & Hcategory).
  set (e := eval (newEvent role content action md) a) in *.
  set (a1 := exec (newEvent role content action md) a) in *.
  destruct (push_log e a1) as (Hlog2 & Hreads2 & Hmem2 & _).
  set (a2 := exec (push e) a1) in *.
  destruct (extractAndTagTopics_log content (ev_timestamp e) a2) as (Hlog3 & Hreads3 & Hmem3).
  set (a3 := exec (extractAndTagTopics content (ev_timestamp e)) a2) in *.
  destruct (evictExpiredEvents_log a3) as (Hlog4 & Hreads4 & Hmem4 & _).
  set (a4 := exec evictExpiredEvents a3) in *.
  destruct (performMaintenanceIfNeeded_log a4) as (Hlog5 & Hreads5 & _).
  pose proof (performMaintenanceIfNeeded_identity a4) as Hsub.
  set (a5 := exec performMaintenanceIfNeeded a4) in *.
  assert (H14 : onlyLog a a4).
  { eapply onlyLog_trans; [exact Hlog1|]. eapply onlyLog_trans; [exact Hlog2|].
    by eapply onlyLog_trans. }
  split; [by eapply onlyLog_trans|].
  split.
  { destruct Hlog5 as (_ & ? & _). lia. }
  do 5 (split; [done|]).
  etrans; [exact Hsub|]. rewrite Hmem4, Hmem3, Hmem2, Hsession1.
  rewrite <- (map_app identity _ [e]). apply map_sublist, filter_sublist.
Qed.

(** The log after an append, in full: the new event goes to the end, the
    eviction filters with the cut-off of its reading of the clock, and the
    maintenance, when it is due, filters again with the cut-off of the next
    reading, consolidates and drops from the front what is above the hard
    limit. *)
Definition cutoffAt (a : App) (reading : nat) : Z :=
  (clock (world a) reading - maxDurationMinutes (session a) * 60 * 1000)%Z.

Lemma addConversationEvent_memory (role content : jsstring) (action : option jsstring)
    (md : Metadata) (a : App) :
  let e := eval (addConversationEvent role content action md) a in
  let a' := exec (addConversationEvent role content action md) a in
  exists reading,
    S (S (clockReads (world a))) <= reading <= clockReads (world a) + 3
    /\ let kept :=
         List.filter (keepEvent (cutoffAt a reading)) (sessionMemory (session a) ++ [e]) in
       let tidied := consolidate (List.filter (keepEvent (cutoffAt a (S reading))) kept) in
       sessionMemory (session a') = kept
       \/ sessionMemory (session a')
          = skipn (length tidied - maxSize (session a)) tidied.
Proof.
  cbv zeta. unfold addConversationEvent.
  rewrite !eval_bind, !exec_bind, eval_ret, exec_ret.
  destruct (newEvent_log role content action md a) as (Hlog1 & Hsession1 & Hreads1 & _).
  set (e := eval (newEvent role content action md) a) in *.
  set (a1 := exec (newEvent role content action md) a) in *.
  destruct (push_log e a1) as (Hlog2 & Hreads2 & Hmem2 & _).
  set (a2 := exec (push e) a1) in *.
  destruct (extractAndTagTopics_log content (ev_timestamp e) a2) as (Hlog3 & Hreads3 & Hmem3).
  set (a3 := exec (extractAndTagTopics content (ev_timestamp e)) a2) in *.
  destruct (evictExpiredEvents_log a3) as (Hlog4 & Hreads4 & Hmem4 & _).
  set (a4 := exec evictExpiredEvents a3) in *.
  destruct (performMaintenanceIfNeeded_log a4) as (_ & _ & Hmem5).
  assert (H13 : onlyLog a a3).
  { eapply onlyLog_trans; [exact Hlog1|]. by eapply onlyLog_trans. }
  assert (H14 : onlyLog a a4) by (by eapply onlyLog_trans).
  assert (Hc3 : EvictionFacts.cutoffOf a3 = cutoffAt a (clockReads (world a1))).
  { unfold EvictionFacts.cutoffOf, EvictionFacts.nextReading, cutoffAt.
    apply onlyLog_fields in H13 as (-> & _ & _ & _ & _ & _ & -> & _).
    by rewrite Hreads3, Hreads2. }
  assert (Hc4 : EvictionFacts.cutoffOf a4 = cutoffAt a (S (clockReads (world a1)))).
  { unfold EvictionFacts.cutoffOf, EvictionFacts.nextReading, cutoffAt.
    apply onlyLog_fields in H14 as (-> & _ & _ & _ & _ & _ & -> & _).
    by rewrite Hreads4, Hreads3, Hreads2. }
  assert (Hsize : maxSize (session a4) = maxSize (session a)).
  { by apply onlyLog_fields in H14 as (_ & _ & _ & _ & -> & _). }
  exists (clockReads (world a1)). split; [lia|].
  unfold maintained in Hmem5. rewrite Hc4, Hsize, Hmem4, Hc3, Hmem3, Hmem2, Hsession1 in Hmem5.
  destruct Hmem5 as [[-> _] | [-> _]]; [by left|by right].
Qed.

(** For the next [n] readings the clock stays inside the window: an event
    stamped with one of them is not evicted at a later one of them. *)
Definition unhurried (a : App) (n : nat) : Prop :=
  forall i j,
    clockReads (world a) <= i -> i <= j -> j < clockReads (world a) + n ->
    (cutoffAt a j <= clock (world a) i)%Z.

(** The log is in the order of the clock: the timestamps do not decrease
    along it, and none is later than the next reading of the clock. *)
Definition chronological (a : App) : Prop :=
  StronglySorted Z.le (List.map ev_timestamp (sessionMemory (session a)))
  /\ Forall (fun t => (t <= EvictionFacts.nextReading a)%Z)
       (List.map ev_timestamp (sessionMemory (session a))).

Definition monotone (clock : nat -> Z) : Prop :=
  forall m n, m <= n -> (clock m <= clock n)%Z.

Lemma sublist_sorted (l k : list Z) :
  sublist l k -> StronglySorted Z.le k -> StronglySorted Z.le l.
Proof.
  induction 1 as [|x l k Hsub IH|x l k Hsub IH]; intros Hsorted.
  - constructor.
  - apply StronglySorted_inv in Hsorted as [Hk Hx]. constructor; [by apply IH|].
    eapply Forall_forall. intros y Hy. rewrite Forall_forall in Hx. apply Hx.
    by eapply sublist_subseteq.
  - apply StronglySorted_inv in Hsorted as [Hk _]. by apply IH.
Qed.

Lemma sorted_snoc (l : list Z) (t : Z) :
  StronglySorted Z.le l -> Forall (fun x => (x <= t)%Z) l -> StronglySorted Z.le (l ++ [t]).
Proof.
  induction l as [|x l IH]; intros Hsorted Hall.
  - repeat constructor.
  - apply StronglySorted_inv in Hsorted as [Hl Hx]. inversion Hall; subst.
    cbn [app]. constructor; [by apply IH|].
    apply Forall_app. split; [done|]. by repeat constructor.
Qed.

Lemma timestamps_of_identity (l k : list Event) :
  sublist (List.map identity l) (List.map identity k) ->
  sublist (List.map ev_timestamp l) (List.map ev_timestamp k).
Proof.
  intros H. apply (map_sublist (fun i => snd (fst (fst (fst i))))) in H.
  by rewrite !List.map_map in H.
Qed.

Lemma addConversationEvent_chronological (role content : jsstring) (action : option jsstring)
    (md : Metadata) (a : App) :
  monotone (clock (world a)) ->
  chronological a ->
  chronological (exec (addConversationEvent role content action md) a).
Proof.
  intros Hmono [Hsorted Hbound].
  destruct (addConversationEvent_log role content action md a)
    as (Hlog & Hreads & Hts & _ & _ & _ & _ & Hsub).
  set (e := eval (addConversationEvent role content action md) a) in *.
  set (a' := exec (addConversationEvent role content action md) a) in *.
  rewrite <- (map_app identity _ [e]) in Hsub. apply timestamps_of_identity in Hsub.
  rewrite map_app in Hsub. cbn [List.map] in Hsub.
  apply onlyLog_fields in Hlog as (Hclock & _).
  unfold EvictionFacts.nextReading in Hbound.
  assert (Hall : Forall (fun t => (t <= EvictionFacts.nextReading a')%Z)
                   (List.map ev_timestamp (sessionMemory (session a)) ++ [ev_timestamp e])).
  { unfold EvictionFacts.nextReading. rewrite Hclock. apply Forall_app. split.
    - eapply Forall_impl; [exact Hbound|]. cbv beta. intros t Ht.
      etrans; [exact Ht|]. apply Hmono. lia.
    - constructor; [|constructor]. rewrite Hts. apply Hmono. lia. }
  split.
  - eapply sublist_sorted; [exact Hsub|]. apply sorted_snoc; [done|].
    eapply Forall_impl; [exact Hbound|]. cbv beta. intros t Ht. rewrite Hts.
    etrans; [exact Ht|]. apply Hmono. lia.
  - rewrite Forall_forall in Hall. apply Forall_forall. intros t Ht. apply Hall.
    by eapply sublist_subseteq.
Qed.

End LogFacts.

(** X1.  An append neither invents nor reorders events: whatever the role,
    the content, the action and the metadata, the identities (id, timestamp,
    role, action and category) of the events the log holds after
    [addConversationEvent] are a subsequence of the identities it held
    before, followed by the identity of the new event.  Eviction,
    consolidation and truncation only ever drop events or rewrite a content
    and a metadata; the log grows by one event at most. *)
Theorem append_keeps_identities_in_order (role content : jsstring)
    (action : option jsstring) (md : Metadata) (a : App) :
  let e := eval (Session.addConversationEvent role content action md) a in
  let a' := exec (Session.addConversationEvent role content action md) a in
  sublist (List.map LogFacts.identity (sessionMemory (session a')))
    (List.map LogFacts.identity (sessionMemory (session a)) ++ [LogFacts.identity e])
  /\ length (sessionMemory (session a')) <= S (length (sessionMemory (session a))).
Proof.
  cbv zeta.
  destruct (LogFacts.addConversationEvent_log role content action md a)
    as (_ & _ & _ & _ & _ & _ & _ & Hsub).
  split; [exact Hsub|].
  apply sublist_length in Hsub. rewrite length_app, !length_map in Hsub.
  cbn [length] in Hsub. lia.
Qed.

(** X2.  With a clock that never goes back, a log in the order of the
    clock stays in that order under every append: the timestamps do not
    decrease along the log, and none is later than the next reading of the
    clock. *)
Theorem append_keeps_log_chronological (role content : jsstring)
    (action : option jsstring) (md : Metadata) (a : App) :
  LogFacts.monotone (clock (world a)) ->
  LogFacts.chronological a ->
  LogFacts.chronological (exec (Session.addConversationEvent role content action md) a).
Proof. apply LogFacts.addConversationEvent_chronological. Qed.

Lemma append_keeps_log_chronological_witness :
  let a := Sample.appWith Sample.shippedConfig Sample.fiveTurns Sample.idleService in
  LogFacts.monotone (clock (world a))
  /\ LogFacts.chronological a
  /\ LogFacts.chronological
       (exec (Session.addConversationEvent (js "model") (js "a3") None ∅) a).
Proof.
  cbv zeta.
  assert (Hmono : LogFacts.monotone
            (clock (world (Sample.appWith Sample.shippedConfig Sample.fiveTurns
                             Sample.idleService)))).
  { intros m n Hmn. cbn. lia. }
  assert (Hchrono : LogFacts.chronological
            (Sample.appWith Sample.shippedConfig Sample.fiveTurns Sample.idleService)).
  { split.
    - cbn.
      repeat first [apply SSorted_nil | apply SSorted_cons | apply List.Forall_nil
                   | apply List.Forall_cons]; lia.
    - unfold EvictionFacts.nextReading. cbn.
      repeat first [apply List.Forall_nil | apply List.Forall_cons]; lia. }
  split; [exact Hmono|]. split; [exact Hchrono|].
  apply (append_keeps_log_chronological (js "model") (js "a3") None ∅
           (Sample.appWith Sample.shippedConfig Sample.fiveTurns Sample.idleService)
           Hmono Hchrono).
Defined.

(** ** Categories *)

Module CategoryFacts.
Import Session.

(** The three roles are no keys of the table. *)
Lemma role_is_general (role : jsstring) :
  In role [js "user"; js "model"; js "system"] -> categorizeAction role = js "general".
Proof. cbn [In]. intros [<-|[<-|[<-|[]]]]; by vm_compute. Qed.

End CategoryFacts.

(** X3.  An event appended without an action takes its action from its role
    but its category from the role itself, which is no key of the table: a
    user, model or system event appended that way is of category [general],
    whereas the action inferred for a model event, [model_response], is of
    category [ai]. *)
Theorem omitted_action_is_general (role content : jsstring) (md : Metadata) (a : App) :
  In role [js "user"; js "model"; js "system"] ->
  let e := eval (Session.addConversationEvent role content None md) a in
  ev_action e = Session.inferActionFromRole role
  /\ ev_category e = js "general"
  /\ (role = js "model" -> Session.categorizeAction (ev_action e) = js "ai").
Proof.
  intros Hrole. cbv zeta.
  destruct (LogFacts.addConversationEvent_log role content None md a)
    as (_ & _ & _ & _ & _ & Haction & Hcategory & _).
  rewrite Haction, Hcategory. cbn [Session.orElse].
  split; [done|]. split; [by apply CategoryFacts.role_is_general|].
  intros ->. by vm_compute.
Qed.

Lemma omitted_action_is_general_witness :
  let a := Sample.appWith Sample.shippedConfig Sample.fiveTurns Sample.idleService in
  let e := eval (Session.addConversationEvent (js "model") (js "a3") None ∅) a in
  In (js "model") [js "user"; js "model"; js "system"]
  /\ ev_action e = js "model_response"
  /\ ev_category e = js "general".
Proof.
  cbv zeta.
  assert (Hrole : In (js "model") [js "user"; js "model"; js "system"]) by (right; by left).
  split; [exact Hrole|].
  destruct (omitted_action_is_general (js "model") (js "a3") ∅
              (Sample.appWith Sample.shippedConfig Sample.fiveTurns Sample.idleService)
              Hrole) as (Haction & Hcategory & _).
  split; [exact Haction|exact Hcategory].
Defined.

(** ** The topic index *)

Module TopicFacts.
Import Session.

(** Every occurrence in the index has the property [Q]. *)
Definition every (Q : TopicEntry -> Prop) (tags : gmap jsstring (list TopicEntry)) : Prop :=
  forall topic entries, tags !! topic = Some entries -> Forall Q entries.

(** And every topic has an occurrence. *)
Definition wellFormed (Q : TopicEntry -> Prop) (tags : gmap jsstring (list TopicEntry))
    : Prop :=
  forall topic entries, tags !! topic = Some entries -> entries <> [] /\ Forall Q entries.

Lemma wellFormed_every (Q : TopicEntry -> Prop) (tags : gmap jsstring (list TopicEntry)) :
  wellFormed Q tags -> every Q tags.
Proof. intros H topic entries Hlook. by apply (H _ _ Hlook). Qed.

Lemma tagTopic_every (Q : TopicEntry -> Prop) (entry : TopicEntry)
    (tags : gmap jsstring (list TopicEntry)) (found : jsstring) :
  Q entry -> every Q tags -> every Q (tagTopic entry tags found).
Proof.
  intros Hentry Htags topic entries. unfold tagTopic. rewrite lookup_insert.
  destruct (decide (trim (toLowerCase found) = topic)) as [_|_]; [|apply Htags].
  intros [= <-]. apply Forall_app. split; [|by repeat constructor].
  destruct (tags !! trim (toLowerCase found)) as [old|] eqn:Hold; [|constructor].
  by apply (Htags _ _ Hold).
Qed.

Lemma tagPattern_every (Q : TopicEntry -> Prop) (content : jsstring) (timestamp : Z)
    (tags : gmap jsstring (list TopicEntry)) (pattern : Regex.regex) :
  Q (mkTopicEntry (substring0 200 content) timestamp 1) ->
  every Q tags -> every Q (tagPattern content timestamp tags pattern).
Proof.
  intros Hentry. unfold tagPattern.
  destruct (Regex.match_all pattern content) as [matches|]; [|done].
  revert tags. induction matches as [|m matches IH]; intros tags Htags; [done|].
  cbn [fold_left]. by apply IH, tagTopic_every.
Qed.

Lemma extractAndTagTopics_every (Q : TopicEntry -> Prop) (content : jsstring)
    (timestamp : Z) (a : App) :
  Q (mkTopicEntry (substring0 200 content) timestamp 1) ->
  every Q (topicTags (session a)) ->
  every Q (topicTags (session (exec (extractAndTagTopics content timestamp) a))).
Proof.
  intros Hentry Htags. destruct a as [w s l]. unfold extractAndTagTopics.
  destruct (negb (truthy content)); [done|].
  cbn [exec onSession modify snd session setTopicTags topicTags] in *.
  revert Htags. generalize (topicTags s).
  induction topicPatterns as [|p patterns IH]; intros tags Htags; [done|].
  cbn [fold_left]. by apply IH, tagPattern_every.
Qed.

(** The loop of the eviction leaves no topic without an occurrence,
    whatever the index was. *)
Lemma evictTopics_wellFormed (Q : TopicEntry -> Prop) (cutoffTime : Z)
    (tags : gmap jsstring (list TopicEntry)) :
  every Q tags -> wellFormed Q (evictTopics cutoffTime tags).
Proof.
  intros Htags topic kept. rewrite EvictionFacts.evictTopics_lookup.
  destruct (tags !! topic) as [entries|] eqn:Hold; [|done]. cbn [mbind option_bind].
  intros Hkept. apply EvictionFacts.surviving_Some in Hkept as [-> Hsome].
  split; [done|].
  specialize (Htags _ _ Hold). rewrite Forall_forall in Htags. apply Forall_forall.
  intros e He. apply Htags. eapply sublist_subseteq; [apply LogFacts.filter_sublist|done].
Qed.

Lemma addConversationEvent_wellFormed (Q : TopicEntry -> Prop) (role content : jsstring)
    (action : option jsstring) (md : Metadata) (a : App) :
  (forall timestamp, Q (mkTopicEntry (substring0 200 content) timestamp 1)) ->
  every Q (topicTags (session a)) ->
  wellFormed Q (topicTags (session (exec (addConversationEvent role content action md) a))).
Proof.
  intros Hentry Htags. unfold addConversationEvent.
  rewrite !exec_bind, exec_ret.
  destruct (LogFacts.newEvent_log role content action md a) as (_ & Hsession1 & _).
  set (e := eval (newEvent role content action md) a) in *.
  set (a1 := exec (newEvent role content action md) a) in *.
  destruct (LogFacts.push_log e a1) as (_ & _ & _ & Htags2).
  set (a2 := exec (push e) a1) in *.
  assert (H3 : every Q (topicTags (session
                 (exec (extractAndTagTopics content (ev_timestamp e)) a2)))).
  { apply extractAndTagTopics_every; [done|]. by rewrite Htags2, Hsession1. }
  set (a3 := exec (extractAndTagTopics content (ev_timestamp e)) a2) in *.
  destruct (LogFacts.evictExpiredEvents_log a3) as (_ & _ & _ & Htags4).
  set (a4 := exec evictExpiredEvents a3) in *.
  assert (H4 : wellFormed Q (topicTags (session a4))).
  { rewrite Htags4. by apply evictTopics_wellFormed. }
  destruct (LogFacts.performMaintenanceIfNeeded_log a4) as (_ & _ & [[_ ->] | [_ ->]]);
    [exact H4|].
  by apply evictTopics_wellFormed, wellFormed_every.
Qed.

(** An occurrence holds 200 code units of the content at most. *)
Definition snippet (e : TopicEntry) : Prop := length (te_content e) <= 200.

End TopicFacts.

(** X4.  The topic index stays well formed under appends.  When every
    occurrence held so far carries a snippet of at most 200 code units, then
    after [addConversationEvent], whatever its arguments, every topic of the
    index has one occurrence at least and every occurrence still carries a
    snippet of at most 200 code units. *)
Theorem append_keeps_topic_index_well_formed (role content : jsstring)
    (action : option jsstring) (md : Metadata) (a : App) :
  (forall topic entries,
     topicTags (session a) !! topic = Some entries ->
     Forall TopicFacts.snippet entries) ->
  let tags := topicTags (session (exec (Session.addConversationEvent role content action md) a)) in
  forall topic entries,
    tags !! topic = Some entries ->
    entries <> [] /\ Forall TopicFacts.snippet entries.
Proof.
  intros Hold. cbv zeta.
  apply (TopicFacts.addConversationEvent_wellFormed TopicFacts.snippet); [|exact Hold].
  intros timestamp. unfold TopicFacts.snippet. cbn [te_content].
  apply substring0_length.
Qed.

Lemma append_keeps_topic_index_well_formed_witness :
  let a := Expired.app in
  (forall topic entries,
     topicTags (session a) !! topic = Some entries ->
     Forall TopicFacts.snippet entries)
  /\ forall topic entries,
       topicTags (session (exec (Session.addUserInput (js "What about Kafka?") (js "chat")) a))
         !! topic = Some entries ->
       entries <> [] /\ Forall TopicFacts.snippet entries.
Proof.
  cbv zeta.
  assert (Hold : forall topic entries,
            topicTags (session Expired.app) !! topic = Some entries ->
            Forall TopicFacts.snippet entries).
  { intros topic entries. cbn [Expired.app session Session.setMemory Session.setTopicTags
      topicTags]. rewrite !lookup_insert.
    destruct (decide (js "redis" = topic)) as [_|_];
      [|destruct (decide (js "kafka" = topic)) as [_|_]; [|by rewrite lookup_empty]].
    - intros [= <-]. repeat constructor; unfold TopicFacts.snippet; vm_compute; discriminate.
    - intros [= <-]. repeat constructor; unfold TopicFacts.snippet; vm_compute; discriminate. }
  split; [exact Hold|].
  exact (append_keeps_topic_index_well_formed (js "user") (js "What about Kafka?") _ _
           Expired.app Hold).
Defined.

(** ** The start and the end of a session *)

Module LifecycleFacts.
Import Session Views.

Definition startMessage (skill : jsstring) (minutes : Z) : jsstring :=
  js "Interview session started. Mode: " ++ skill ++ js ". Duration: "
  ++ showZ minutes ++ js " minutes.".

(** The skill a session starts in. *)
Definition skillFor (mode : option jsstring) (a : App) : jsstring :=
  default (activeSkill (session a)) (loaded mode).

(** [startSession] up to its append: what it has set by then. *)
Lemma startSession_run (mode : option jsstring) (a : App) :
  exists b,
    exec (startSession mode) a
    = exec (addConversationEvent (js "system")
              (startMessage (skillFor mode a) (maxDurationMinutes (session a)))
              (Some (js "session_start")) ∅) b
    /\ sessionMemory (session b) = []
    /\ topicTags (session b) = ∅
    /\ activeSkill (session b) = skillFor mode a
    /\ sessionStartTime (session b) = Some (EvictionFacts.nextReading a)
    /\ sessionActive (session b) = true
    /\ sessionTimer (session b) = Some (timerCount (world a))
    /\ timers (world b)
       = timers (world a)
         ++ [(timerCount (world a), (maxDurationMinutes (session a) * 60 * 1000)%Z)]
    /\ timerCount (world b) = S (timerCount (world a))
    /\ clock (world b) = clock (world a)
    /\ clockReads (world b) = S (clockReads (world a))
    /\ maxSize (session b) = maxSize (session a)
    /\ maxDurationMinutes (session b) = maxDurationMinutes (session a)
    /\ calls (world b) = calls (world a)
    /\ service b = service a.
Proof.
  destruct a as [w s l]. unfold skillFor, startSession, startMessage.
  destruct (loaded mode) as [m|];
    unfold exec, bind; cbn -[addConversationEvent js showZ app Z.mul];
    match goal with
    | |- context [addConversationEvent _ _ _ _ ?b] => exists b
    end;
    (split; [by destruct (addConversationEvent _ _ _ _ _)|]);
    cbn -[Z.mul]; by repeat split.
Qed.

Lemma cutoffAt_same (a b : App) (reading : nat) :
  clock (world b) = clock (world a) ->
  maxDurationMinutes (session b) = maxDurationMinutes (session a) ->
  LogFacts.cutoffAt b reading = LogFacts.cutoffAt a reading.
Proof. intros Hc Hm. unfold LogFacts.cutoffAt. by rewrite Hc, Hm. Qed.

(** An append to an empty log leaves the new event alone in the log, when
    the log may hold an event and the clock stays inside the window. *)
Lemma append_to_empty (role content : jsstring) (action : option jsstring) (md : Metadata)
    (b : App) :
  sessionMemory (session b) = [] ->
  0 < maxSize (session b) ->
  LogFacts.unhurried b 5 ->
  sessionMemory (session (exec (addConversationEvent role content action md) b))
  = [eval (addConversationEvent role content action md) b].
Proof.
  intros Hempty Hsize Hsteady.
  destruct (LogFacts.addConversationEvent_log role content action md b)
    as (_ & _ & Hts & _).
  destruct (LogFacts.addConversationEvent_memory role content action md b)
    as (reading & Hreading & Hmem).
  cbv zeta in Hmem. rewrite Hempty in Hmem. cbn [app List.filter] in Hmem.
  set (e := eval (addConversationEvent role content action md) b) in *.
  assert (Hkeep : forall j, S (clockReads (world b)) <= j -> j < clockReads (world b) + 5 ->
            keepEvent (LogFacts.cutoffAt b j) e = true).
  { intros j Hlo Hhi. apply EvictionFacts.keepEvent_true. left. rewrite Hts.
    apply Hsteady; lia. }
  rewrite (Hkeep reading) in Hmem by lia. cbn [List.filter] in Hmem.
  rewrite (Hkeep (S reading)) in Hmem by lia. cbn [consolidate length] in Hmem.
  replace (1 - maxSize (session b)) with 0 in Hmem by lia. cbn [skipn] in Hmem.
  by destruct Hmem.
Qed.

Lemma unhurried_later (a b : App) (n k : nat) :
  clock (world b) = clock (world a) ->
  maxDurationMinutes (session b) = maxDurationMinutes (session a) ->
  clockReads (world a) <= clockReads (world b) ->
  clockReads (world b) + k <= clockReads (world a) + n ->
  LogFacts.unhurried a n -> LogFacts.unhurried b k.
Proof.
  intros Hc Hm Hlo Hhi Ha i j Hi Hij Hj.
  rewrite (cutoffAt_same a b) by done. rewrite Hc. apply Ha; lia.
Qed.

(** The two counts of a summary add up to the length of its transcript. *)
Lemma user_and_model_count (events : list Event) :
  length (List.filter (fun e => str_eq (ev_role e) (js "user")) events)
  + length (List.filter (fun e => str_eq (ev_role e) (js "model")) events)
  = length (List.filter isUserOrModel events).
Proof.
  induction events as [|e events IH]; [done|].
  cbn [List.filter]. unfold isUserOrModel at 1.
  destruct (str_eq (ev_role e) (js "user")) eqn:Hu;
    destruct (str_eq (ev_role e) (js "model")) eqn:Hm; cbn [orb length]; try lia.
  apply str_eq_true in Hu, Hm. rewrite Hu in Hm. by vm_compute in Hm.
Qed.

Definition withoutTimer (held : option nat) (pending : list (nat * Z)) : list (nat * Z) :=
  match held with
  | Some handle => List.filter (fun t => negb (Nat.eqb (fst t) handle)) pending
  | None => pending
  end.

(** Reading the timer view leaves everything but the clock's counter. *)
Lemma getSessionTimer_run (percentOf : Z -> Z -> Z) (a : App) :
  let a' := exec (getSessionTimer percentOf) a in
  session a' = session a /\ service a' = service a
  /\ timers (world a') = timers (world a) /\ calls (world a') = calls (world a).
Proof.
  destruct a as [w s l]. cbv zeta. unfold getSessionTimer, exec, bind, this, gets.
  cbn [session fst snd]. by destruct (sessionStartTime s) as [[|t|t]|].
Qed.

Lemma getElapsedMinutes_quiet (a : App) :
  let a' := exec getElapsedMinutes a in
  session a' = session a /\ service a' = service a
  /\ timers (world a') = timers (world a) /\ calls (world a') = calls (world a).
Proof.
  destruct a as [w s l]. cbv zeta. unfold getElapsedMinutes, exec, bind, this, gets.
  cbn [session fst snd]. by destruct (sessionStartTime s) as [[|t|t]|].
Qed.

Lemma generateSessionSummary_run (percentOf : Z -> Z -> Z) (a : App) :
  let a' := exec (generateSessionSummary percentOf) a in
  let summary := eval (generateSessionSummary percentOf) a in
  session a' = session a /\ service a' = service a
  /\ timers (world a') = timers (world a) /\ calls (world a') = calls (world a)
  /\ sum_mode summary = activeSkill (session a)
  /\ sum_totalEvents summary = length (sessionMemory (session a))
  /\ sum_transcript summary
     = List.map transcriptEntry (List.filter isUserOrModel (sessionMemory (session a)))
  /\ sum_userMessages summary + sum_aiResponses summary = length (sum_transcript summary)
  /\ sum_topicsCovered summary = dom (topicTags (session a))
  /\ sum_topicCount summary = size (topicTags (session a)).
Proof.
  cbv zeta. unfold generateSessionSummary.
  rewrite !eval_bind, !exec_bind, eval_ret, exec_ret.
  destruct (getSessionTimer_run percentOf a) as (Hs1 & Hl1 & Ht1 & Hc1).
  set (a1 := exec (getSessionTimer percentOf) a) in *.
  assert (Hgets : exec (gets session) a1 = a1 /\ eval (gets session) a1 = session a1)
    by done.
  destruct Hgets as [-> ->].
  destruct (getElapsedMinutes_quiet a1) as (Hs2 & Hl2 & Ht2 & Hc2).
  cbn [sum_mode sum_totalEvents sum_transcript sum_userMessages sum_aiResponses
         sum_topicsCovered sum_topicCount].
  rewrite length_map, user_and_model_count, size_dom, Hs1.
  repeat split; congruence.
Qed.

Lemma release_run (a : App) :
  let a' :=
    exec (match sessionTimer (session a) with
          | Some handle => clearTimeout handle ;; onSession (setSessionTimer None)
          | None => ret tt
          end) a in
  session a' = setSessionTimer None (session a)
  /\ service a' = service a
  /\ timers (world a') = withoutTimer (sessionTimer (session a)) (timers (world a))
  /\ calls (world a') = calls (world a).
Proof.
  destruct a as [w s l]. cbv zeta. cbn [session].
  destruct (sessionTimer s) as [h|] eqn:Hh; cbn; [done|].
  repeat split. destruct s. cbn in *. by rewrite Hh.
Qed.

Lemma endSession_run (percentOf : Z -> Z -> Z) (a : App) :
  let a' := exec (endSession percentOf) a in
  let summary := eval (endSession percentOf) a in
  sessionMemory (session a') = sessionMemory (session a)
  /\ topicTags (session a') = topicTags (session a)
  /\ activeSkill (session a') = activeSkill (session a)
  /\ sessionStartTime (session a') = sessionStartTime (session a)
  /\ sessionActive (session a') = false
  /\ sessionTimer (session a') = None
  /\ timers (world a') = withoutTimer (sessionTimer (session a)) (timers (world a))
  /\ calls (world a') = calls (world a)
  /\ service a' = service a
  /\ sum_mode summary = activeSkill (session a)
  /\ sum_totalEvents summary = length (sessionMemory (session a))
  /\ sum_transcript summary
     = List.map transcriptEntry (List.filter isUserOrModel (sessionMemory (session a)))
  /\ sum_userMessages summary + sum_aiResponses summary = length (sum_transcript summary)
  /\ sum_topicsCovered summary = dom (topicTags (session a))
  /\ sum_topicCount summary = size (topicTags (session a)).
Proof.
  cbv zeta. unfold endSession.
  rewrite eval_bind, exec_bind.
  change (eval (this sessionTimer) a) with (sessionTimer (session a)).
  change (exec (this sessionTimer) a) with a. cbv beta.
  rewrite eval_bind, exec_bind.
  destruct (release_run a) as (Hs1 & Hl1 & Ht1 & Hc1). cbv zeta in Hs1, Hl1, Ht1, Hc1.
  set (a1 := exec (match sessionTimer (session a) with Some _ => _ | None => _ end) a) in *.
  rewrite !eval_bind, !exec_bind, eval_ret, exec_ret.
  destruct (generateSessionSummary_run percentOf a1)
    as (Hs2 & Hl2 & Ht2 & Hc2 & H5 & H6 & H7 & H8 & H9 & H10).
  set (a2 := exec (generateSessionSummary percentOf) a1) in *.
  set (summary := eval (generateSessionSummary percentOf) a1) in *.
  set (a3 := exec (onSession (setSessionActive false)) a2).
  assert (H3 : session a3 = setSessionActive false (session a2)
               /\ service a3 = service a2 /\ world a3 = world a2) by (by destruct a2).
  destruct H3 as (Hs3 & Hl3 & Hw3).
  destruct (getElapsedMinutes_quiet a3) as (Hs4 & Hl4 & Ht4 & Hc4).
  rewrite Hs4, Hs3, Hs2, Hs1, Ht4, Hc4, Hl4, Hw3, Ht2, Hc2, Hl3, Hl2, Hl1, Ht1, Hc1.
  rewrite H5, H6, H7, H9, H10, Hs1. rewrite H7, Hs1 in H8.
  repeat split; first [reflexivity | exact H8].
Qed.

(** Some appends in a row. *)
Definition Appended : Type := jsstring * jsstring * option jsstring * Metadata.

Definition appendAll (items : list Appended) : M unit :=
  forEach items (fun '(role, content, action, md) =>
    addConversationEvent role content action md ;; ret tt).

Lemma appendAll_log (items : list Appended) :
  forall a, LogFacts.onlyLog a (exec (appendAll items) a).
Proof.
  induction items as [|[[[role content] action] md] items IH]; intros a.
  - apply LogFacts.onlyLog_refl.
  - unfold appendAll. cbn [forEach]. rewrite !exec_bind, exec_ret.
    destruct (LogFacts.addConversationEvent_log role content action md a) as (Hlog & _).
    eapply LogFacts.onlyLog_trans; [exact Hlog|]. apply IH.
Qed.

(** *** The shape of a time *)

Definition twoDigits (n : Z) : jsstring :=
  [Z.to_N (48 + n / 10); Z.to_N (48 + n mod 10)].

Lemma pad2_twoDigits (n : Z) : (0 <= n < 100)%Z -> pad2 n = twoDigits n.
Proof.
  intros Hn.
  assert (Hall : forallb (fun k => bool_decide (pad2 (Z.of_nat k) = twoDigits (Z.of_nat k)))
                   (seq 0 100) = true) by (vm_compute; reflexivity).
  rewrite forallb_forall in Hall.
  specialize (Hall (Z.to_nat n)). rewrite Z2Nat.id in Hall by lia.
  apply bool_decide_eq_true in Hall; [done|]. apply in_seq. lia.
Qed.

Lemma formatTime_minutes (t : Z) :
  (0 <= t < 3600)%Z ->
  formatTime t = twoDigits (t / 60) ++ js ":" ++ twoDigits (t mod 60).
Proof.
  intros Ht. unfold formatTime.
  rewrite (Z.div_small t 3600) by lia. cbn [Z.ltb Z.compare].
  rewrite !Z.rem_mod_nonneg by lia. rewrite (Z.mod_small t 3600) by lia.
  rewrite !pad2_twoDigits; [done|..].
  - pose proof (Z.mod_pos_bound t 60). lia.
  - split; [apply Z.div_pos; lia|]. apply Z.div_lt_upper_bound; lia.
Qed.

Lemma formatTime_hours (t : Z) :
  (3600 <= t < 360000)%Z ->
  formatTime t
  = twoDigits (t / 3600) ++ js ":" ++ twoDigits (t mod 3600 / 60) ++ js ":"
    ++ twoDigits (t mod 60).
Proof.
  intros Ht. unfold formatTime.
  assert (Hh : (1 <= t / 3600 < 100)%Z).
  { split; [apply Z.div_le_lower_bound; lia|apply Z.div_lt_upper_bound; lia]. }
  assert (Hpos : (0 <? t / 3600)%Z = true) by (apply Z.ltb_lt; lia).
  rewrite Hpos. rewrite !Z.rem_mod_nonneg by lia.
  pose proof (Z.mod_pos_bound t 3600). pose proof (Z.mod_pos_bound t 60).
  rewrite !pad2_twoDigits; [done|lia| |lia].
  split; [apply Z.div_pos; lia|]. apply Z.div_lt_upper_bound; lia.
Qed.

End LifecycleFacts.

(** X5.  [startSession] replaces the log: when the log may hold an event
    and the clock stays inside the window during the call, the log afterwards
    is exactly one event, the [session_start] event of the system with the
    mode and the duration in its text; in particular the baseline events of
    the skill prompts are gone.  The session is active, its start is the
    first reading of the clock, and one more timer is pending, for the whole
    duration. *)
Theorem startSession_replaces_the_log (mode : option jsstring) (a : App) :
  0 < maxSize (session a) ->
  LogFacts.unhurried a 6 ->
  let a' := exec (Session.startSession mode) a in
  let skill := LifecycleFacts.skillFor mode a in
  let minutes := maxDurationMinutes (session a) in
  (exists e,
     sessionMemory (session a') = [e]
     /\ ev_role e = js "system"
     /\ ev_action e = js "session_start"
     /\ ev_category e = js "system"
     /\ ev_content e = LifecycleFacts.startMessage skill minutes)
  /\ activeSkill (session a') = skill
  /\ sessionStartTime (session a') = Some (EvictionFacts.nextReading a)
  /\ sessionActive (session a') = true
  /\ sessionTimer (session a') = Some (timerCount (world a))
  /\ timers (world a') = timers (world a) ++ [(timerCount (world a), (minutes * 60 * 1000)%Z)].
Proof.
  intros Hsize Hsteady. cbv zeta.
  destruct (LifecycleFacts.startSession_run mode a)
    as (b & -> & Hmem & _ & Hskill & Hstart & Hactive & Htimer & Htimers & _ & Hclock
        & Hreads & Hmax & Hminutes & _).
  set (content := LifecycleFacts.startMessage _ _).
  destruct (LogFacts.addConversationEvent_log (js "system") content
              (Some (js "session_start")) ∅ b)
    as (Hlog & _ & _ & Hrole & Hcontent & Haction & Hcategory & _).
  split.
  - eexists. split.
    + apply LifecycleFacts.append_to_empty; [done|lia|].
      apply (LifecycleFacts.unhurried_later a b 6 5); [done|done|lia|lia|done].
    + split; [done|]. split; [by rewrite Haction|]. split; [|done].
      rewrite Hcategory. by vm_compute.
  - apply LogFacts.onlyLog_fields in Hlog
      as (_ & -> & _ & _ & _ & _ & _ & -> & -> & -> & -> & _).
    by repeat split.
Qed.

Lemma startSession_replaces_the_log_witness :
  let a := Sample.appWith Sample.shippedConfig Sample.fiveTurns Sample.idleService in
  0 < maxSize (session a)
  /\ LogFacts.unhurried a 6
  /\ length (sessionMemory (session (exec (Session.startSession (Some (js "dsa"))) a))) = 1
  /\ sessionActive (session (exec (Session.startSession (Some (js "dsa"))) a)) = true.
Proof.
  cbv zeta.
  assert (Hsize : 0 < maxSize (session (Sample.appWith Sample.shippedConfig Sample.fiveTurns
                                          Sample.idleService))) by (cbn; lia).
  assert (Hsteady : LogFacts.unhurried
            (Sample.appWith Sample.shippedConfig Sample.fiveTurns Sample.idleService) 6).
  { intros i j Hi Hij Hj. unfold LogFacts.cutoffAt. cbn in *. lia. }
  split; [exact Hsize|]. split; [exact Hsteady|].
  destruct (startSession_replaces_the_log (Some (js "dsa")) _ Hsize Hsteady)
    as ((e & -> & _) & _ & _ & Hactive & _).
  split; [reflexivity|exact Hactive].
Defined.

(** X6.  [endSession] ends the session and nothing else: the log, the
    topic index, the skill and the start time stay as they are (so the timer
    view goes on counting), the session is not active, the timer it held is
    no longer pending and none is held; no call is sent.  The summary it
    returns counts the whole log, and its numbers of user messages and of
    answers add up to the length of its transcript, which holds the user and
    model events in the order of the log. *)
Theorem endSession_only_ends (percentOf : Z -> Z -> Z) (a : App) :
  let a' := exec (Views.endSession percentOf) a in
  let summary := eval (Views.endSession percentOf) a in
  sessionMemory (session a') = sessionMemory (session a)
  /\ topicTags (session a') = topicTags (session a)
  /\ activeSkill (session a') = activeSkill (session a)
  /\ sessionStartTime (session a') = sessionStartTime (session a)
  /\ sessionActive (session a') = false
  /\ sessionTimer (session a') = None
  /\ (forall handle ms, sessionTimer (session a) = Some handle ->
        ~ In (handle, ms) (timers (world a')))
  /\ calls (world a') = calls (world a)
  /\ sum_totalEvents summary = length (sessionMemory (session a))
  /\ sum_transcript summary
     = List.map Views.transcriptEntry
         (List.filter Views.isUserOrModel (sessionMemory (session a)))
  /\ sum_userMessages summary + sum_aiResponses summary = length (sum_transcript summary).
Proof.
  cbv zeta.
  destruct (LifecycleFacts.endSession_run percentOf a)
    as (H1 & H2 & H3 & H4 & H5 & H6 & H7 & H8 & _ & _ & H11 & H12 & H13 & _).
  repeat (split; [done|]). split; [|by repeat split].
  intros handle ms Hheld Hin. rewrite H7, Hheld in Hin. cbn in Hin.
  apply filter_In in Hin as [_ Hin]. cbn in Hin. by rewrite Nat.eqb_refl in Hin.
Qed.

(** X7.  A session that is started, used and ended leaves no timer behind:
    when the handles of the pending timers are below the counter of the
    handles, the timers pending after [startSession], any appends to the log
    and [endSession] are the timers that were pending before, and no timer is
    held. *)
Theorem session_leaves_no_timer (percentOf : Z -> Z -> Z) (mode : option jsstring)
    (items : list LifecycleFacts.Appended) (a : App) :
  Forall (fun t => fst t < timerCount (world a)) (timers (world a)) ->
  let a' := exec (Session.startSession mode ;; LifecycleFacts.appendAll items ;;
                  Views.endSession percentOf) a in
  timers (world a') = timers (world a)
  /\ sessionTimer (session a') = None
  /\ sessionActive (session a') = false.
Proof.
  intros Hfresh. cbv zeta. rewrite !exec_bind.
  destruct (LifecycleFacts.startSession_run mode a)
    as (b & -> & _ & _ & _ & _ & _ & Htimer & Htimers & _).
  set (content := LifecycleFacts.startMessage _ _).
  destruct (LogFacts.addConversationEvent_log (js "system") content
              (Some (js "session_start")) ∅ b) as (Hlog1 & _).
  set (a1 := exec (Session.addConversationEvent _ _ _ _) b) in *.
  pose proof (LifecycleFacts.appendAll_log items a1) as Hlog2.
  set (a2 := exec (LifecycleFacts.appendAll items) a1) in *.
  pose proof (LogFacts.onlyLog_trans _ _ _ Hlog1 Hlog2) as Hlog.
  apply LogFacts.onlyLog_fields in Hlog
    as (_ & Htimers2 & _ & _ & _ & _ & _ & _ & _ & _ & Htimer2 & _).
  destruct (LifecycleFacts.endSession_run percentOf a2)
    as (_ & _ & _ & _ & H5 & H6 & H7 & _).
  split; [|by split].
  rewrite H7, Htimer2, Htimers2, Htimer, Htimers. cbn [LifecycleFacts.withoutTimer].
  rewrite List.filter_app. cbn [List.filter fst]. rewrite Nat.eqb_refl. cbn [negb].
  rewrite app_nil_r. apply forallb_filter_id. apply forallb_forall. intros t Ht.
  rewrite List.Forall_forall in Hfresh. apply Hfresh in Ht.
  apply negb_true_iff, Nat.eqb_neq. lia.
Qed.

Lemma session_leaves_no_timer_witness :
  let a := Sample.appWith Sample.shippedConfig Sample.fiveTurns Sample.idleService in
  let a' := exec (Session.startSession None ;;
                  LifecycleFacts.appendAll [(js "user", js "hello", None, ∅)] ;;
                  Views.endSession (fun _ _ => 0%Z)) a in
  Forall (fun t => fst t < timerCount (world a)) (timers (world a))
  /\ timers (world a') = timers (world a).
Proof.
  cbv zeta.
  assert (Hfresh : Forall (fun t => fst t < timerCount (world (Sample.appWith
            Sample.shippedConfig Sample.fiveTurns Sample.idleService)))
            (timers (world (Sample.appWith Sample.shippedConfig Sample.fiveTurns
                              Sample.idleService)))) by constructor.
  split; [exact Hfresh|].
  exact (proj1 (session_leaves_no_timer (fun _ _ => 0%Z) None
                  [(js "user", js "hello", None, ∅)] _ Hfresh)).
Defined.

(** X8.  The shape of a time.  [formatTime] writes a number of seconds under
    one hour as two digits of minutes, a colon and two digits of seconds, and
    a number of seconds from one hour to under a hundred hours as two digits
    of hours, of minutes and of seconds with colons between them. *)
Theorem formatTime_shape (t : Z) :
  ((0 <= t < 3600)%Z ->
   Views.formatTime t
   = LifecycleFacts.twoDigits (t / 60) ++ js ":" ++ LifecycleFacts.twoDigits (t mod 60))
  /\ ((3600 <= t < 360000)%Z ->
      Views.formatTime t
      = LifecycleFacts.twoDigits (t / 3600) ++ js ":"
        ++ LifecycleFacts.twoDigits (t mod 3600 / 60) ++ js ":"
        ++ LifecycleFacts.twoDigits (t mod 60)).
Proof.
  split; [apply LifecycleFacts.formatTime_minutes|apply LifecycleFacts.formatTime_hours].
Qed.

Lemma formatTime_shape_witness :
  (0 <= 754 < 3600)%Z /\ Views.formatTime 754 = js "12:34"
  /\ (3600 <= 14399 < 360000)%Z /\ Views.formatTime 14399 = js "03:59:59".
Proof.
  assert (H1 : (0 <= 754 < 3600)%Z) by lia.
  assert (H2 : (3600 <= 14399 < 360000)%Z) by lia.
  split; [exact H1|]. split; [|split; [exact H2|]].
  - rewrite (proj1 (formatTime_shape 754) H1). reflexivity.
  - rewrite (proj2 (formatTime_shape 14399) H2). reflexivity.
Defined.

(** ** Histories *)

Module HistoryFacts.
Import Session Views.

Lemma sliceLast_sublist {A : Type} (n : nat) (l : list A) : sublist (sliceLast n l) l.
Proof. destruct n; [done|]. apply sublist_drop. Qed.

Lemma sliceLast_length {A : Type} (n : nat) (l : list A) :
  length (sliceLast n l) = if n =? 0 then length l else Nat.min n (length l).
Proof. destruct n; [done|]. cbn [sliceLast Nat.eqb]. rewrite length_skipn. lia. Qed.

(** A slice from the end is the end of the list. *)
Lemma sliceLast_suffix {A : Type} (n : nat) (l : list A) :
  exists earlier, l = earlier ++ sliceLast n l.
Proof.
  destruct n; [by exists []|].
  exists (firstn (length l - S n) l). cbn [sliceLast]. by rewrite firstn_skipn.
Qed.

Lemma sublist_Forall {A : Type} (P : A -> Prop) (l k : list A) :
  sublist l k -> Forall P k -> Forall P l.
Proof.
  intros Hsub Hall. rewrite Forall_forall in Hall. apply Forall_forall.
  intros x Hx. apply Hall. by eapply sublist_subseteq.
Qed.

Lemma filter_Forall {A : Type} (p : A -> bool) (l : list A) :
  Forall (fun x => p x = true) (List.filter p l).
Proof.
  induction l as [|x l IH]; [constructor|].
  cbn [List.filter]. destruct (p x) eqn:Hp; [by constructor|done].
Qed.

Lemma getConversationHistory_run (maxEntries : nat) (a : App) :
  getConversationHistory maxEntries a
  = (List.map transcriptEntry
       (sliceLast maxEntries (List.filter isUserOrModel (sessionMemory (session a)))), a).
Proof. by destruct a. Qed.

(** What [getOptimizedHistory] returns and leaves, in terms of the state
    the eviction leaves. *)
Lemma getOptimizedHistory_run (percentOf : Z -> Z -> Z) (limit : nat) (a : App) :
  let evicted := exec evictExpiredEvents a in
  let memory := sessionMemory (session evicted) in
  let h := eval (getOptimizedHistory percentOf limit) a in
  let a' := exec (getOptimizedHistory percentOf limit) a in
  session a' = session evicted
  /\ oh_recent h = sliceLast limit (List.filter isRecent memory)
  /\ oh_important h = sliceLast 5 (List.filter isImportant memory)
  /\ oh_topics h = dom (topicTags (session evicted))
  /\ oh_eventCount h = length memory.
Proof.
  cbv zeta. unfold getOptimizedHistory.
  rewrite !eval_bind, !exec_bind, eval_ret, exec_ret.
  set (evicted := exec evictExpiredEvents a).
  change (exec (this sessionMemory) evicted) with evicted.
  change (eval (this sessionMemory) evicted) with (sessionMemory (session evicted)).
  change (exec (this topicTags) evicted) with evicted.
  change (eval (this topicTags) evicted) with (topicTags (session evicted)).
  destruct (LifecycleFacts.getSessionTimer_run percentOf evicted) as (Hs & _).
  by rewrite Hs.
Qed.

(** An event whose action is [ocr_capture] is of category [capture]. *)
Definition categorised (e : Event) : Prop :=
  ev_action e = js "ocr_capture" -> ev_category e = js "capture".

Lemma categorised_identity (e e' : Event) :
  LogFacts.identity e = LogFacts.identity e' -> categorised e' -> categorised e.
Proof. unfold categorised, LogFacts.identity. intros [= _ _ _ -> ->]. done. Qed.

Lemma Forall_categorised_identity (l k : list Event) :
  sublist (List.map LogFacts.identity l) (List.map LogFacts.identity k) ->
  Forall categorised k -> Forall categorised l.
Proof.
  intros Hsub Hall. apply Forall_forall. intros e He.
  assert (Hin : LogFacts.identity e ∈ List.map LogFacts.identity k).
  { eapply sublist_subseteq; [exact Hsub|]. by apply list_elem_of_fmap_2. }
  apply list_elem_of_fmap in Hin as (e' & Hid & He').
  rewrite Forall_forall in Hall. by eapply categorised_identity, Hall.
Qed.

Lemma inferred_is_no_capture (role : jsstring) :
  inferActionFromRole role <> js "ocr_capture".
Proof.
  unfold inferActionFromRole.
  repeat (match goal with |- context [str_eq ?x ?y] => destruct (str_eq x y) end);
    by vm_compute.
Qed.

Lemma newEvent_categorised (role : jsstring) (action : option jsstring) (e : Event) :
  ev_action e = orElse action (inferActionFromRole role) ->
  ev_category e = categorizeAction (orElse action role) ->
  categorised e.
Proof.
  intros Haction Hcategory Hcapture. rewrite Hcategory. rewrite Haction in Hcapture.
  destruct action as [[|c given]|]; cbn [orElse truthy] in *;
    [by apply inferred_is_no_capture in Hcapture| |by apply inferred_is_no_capture in Hcapture].
  rewrite Hcapture. by vm_compute.
Qed.

Lemma important_is_no_capture (e : Event) :
  categorised e -> isImportant e = true -> ev_action e <> js "ocr_capture".
Proof.
  intros Hcat Himportant Hcapture. specialize (Hcat Hcapture).
  unfold isImportant in Himportant. rewrite Hcat in Himportant.
  by vm_compute in Himportant.
Qed.

(** The message of an event of the recent history is the assistant's or
    the user's. *)
Lemma formatEvent_recent (e : Event) :
  isRecent e = true ->
  msg_role (LLM.formatEvent e) = js "assistant" \/ msg_role (LLM.formatEvent e) = js "user".
Proof.
  unfold isRecent, LLM.formatEvent. cbn [msg_role].
  destruct (str_eq (ev_role e) (js "model")); [by left|].
  destruct (str_eq (ev_role e) (js "user")); [by right|]. cbn [orb].
  intros ->. by right.
Qed.

Lemma formatSessionMemory_sublist (events : list Event) :
  exists kept, LLM.formatSessionMemory events = List.map LLM.formatEvent kept
               /\ sublist kept events /\ length kept <= 20.
Proof.
  unfold LLM.formatSessionMemory, LLM.last20. eexists. split; [reflexivity|]. split.
  - etrans; [apply sublist_drop|apply LogFacts.filter_sublist].
  - rewrite length_skipn. lia.
Qed.

End HistoryFacts.

(** X9.  [getConversationHistory] is a view of the user and model events:
    it changes nothing, its entries are those events in the order of the
    log, and for a count [n >= 1] it is the end of that dialogue, its last
    [n] entries, or all of them when there are fewer: the dialogue is some
    earlier entries followed by the result.  For the count 0 the slice is
    the whole array and the result is the whole dialogue. *)
Theorem conversation_history_is_a_window (maxEntries : nat) (a : App) :
  let h := eval (Views.getConversationHistory maxEntries) a in
  let dialogue := List.filter Views.isUserOrModel (sessionMemory (session a)) in
  exec (Views.getConversationHistory maxEntries) a = a
  /\ Forall (fun x => he_role x = js "user" \/ he_role x = js "model") h
  /\ sublist h (List.map Views.transcriptEntry dialogue)
  /\ length h = (if maxEntries =? 0 then length dialogue
                 else Nat.min maxEntries (length dialogue))
  /\ (exists earlier,
        List.map Views.transcriptEntry dialogue = earlier ++ h
        /\ length earlier = (if maxEntries =? 0 then 0
                             else length dialogue - maxEntries))
  /\ (maxEntries = 0 \/ length dialogue <= maxEntries ->
      h = List.map Views.transcriptEntry dialogue).
Proof.
  cbv zeta. unfold eval, exec. rewrite HistoryFacts.getConversationHistory_run. cbn [fst snd].
  split; [done|]. split; [|split; [|split; [|split]]].
  - apply Forall_forall. intros x Hx.
    apply list_elem_of_fmap in Hx as (e & -> & He). cbn [Views.transcriptEntry he_role].
    assert (Hin : e ∈ List.filter Views.isUserOrModel (sessionMemory (session a))).
    { eapply sublist_subseteq; [apply HistoryFacts.sliceLast_sublist|done]. }
    pose proof (HistoryFacts.filter_Forall Views.isUserOrModel (sessionMemory (session a)))
      as Hall.
    rewrite Forall_forall in Hall. specialize (Hall e Hin).
    unfold Views.isUserOrModel in Hall. apply orb_true_iff in Hall.
    destruct Hall as [H|H]; apply str_eq_true in H; tauto.
  - apply LogFacts.map_sublist, HistoryFacts.sliceLast_sublist.
  - rewrite length_map. apply HistoryFacts.sliceLast_length.
  - set (dialogue := List.filter Views.isUserOrModel (sessionMemory (session a))).
    destruct (HistoryFacts.sliceLast_suffix maxEntries dialogue) as (earlier & Hsplit).
    exists (List.map Views.transcriptEntry earlier). split.
    + by rewrite <- map_app, <- Hsplit.
    + rewrite length_map. apply (f_equal (@length Event)) in Hsplit.
      rewrite length_app, HistoryFacts.sliceLast_length in Hsplit.
      destruct maxEntries; cbn [Nat.eqb] in *; lia.
  - intros Hall. f_equal. destruct maxEntries as [|n]; [done|].
    cbn [Session.sliceLast]. destruct Hall as [Hzero|Hfew]; [done|].
    replace (length _ - S n) with 0 by lia. done.
Qed.

(** X10.  [getOptimizedHistory] is no pure view: it evicts first, and the
    log and the topic index it leaves are those the eviction leaves.  Its
    count and its topics are those of the evicted log; its recent events
    and its important events are events of that log in their order, five
    important ones at most and, for a limit [n >= 1], [n] recent ones at
    most, each of them a user event, a model event or a capture of the
    system. *)
Theorem optimized_history_evicts (percentOf : Z -> Z -> Z) (limit : nat) (a : App) :
  let h := eval (Views.getOptimizedHistory percentOf limit) a in
  let a' := exec (Views.getOptimizedHistory percentOf limit) a in
  sessionMemory (session a')
  = List.filter (Session.keepEvent (EvictionFacts.cutoffOf a)) (sessionMemory (session a))
  /\ topicTags (session a')
     = Session.evictTopics (EvictionFacts.cutoffOf a) (topicTags (session a))
  /\ oh_eventCount h = length (sessionMemory (session a'))
  /\ oh_topics h = dom (topicTags (session a'))
  /\ sublist (oh_recent h) (sessionMemory (session a'))
  /\ sublist (oh_important h) (sessionMemory (session a'))
  /\ length (oh_important h) <= 5
  /\ (0 < limit -> length (oh_recent h) <= limit)
  /\ Forall (fun e => Views.isRecent e = true) (oh_recent h).
Proof.
  cbv zeta.
  destruct (HistoryFacts.getOptimizedHistory_run percentOf limit a)
    as (-> & -> & -> & -> & ->).
  destruct (LogFacts.evictExpiredEvents_log a) as (_ & _ & -> & ->).
  set (memory := List.filter _ (sessionMemory (session a))).
  repeat (split; [done|]).
  split; [etrans; [apply HistoryFacts.sliceLast_sublist|apply LogFacts.filter_sublist]|].
  split; [etrans; [apply HistoryFacts.sliceLast_sublist|apply LogFacts.filter_sublist]|].
  split; [rewrite HistoryFacts.sliceLast_length; cbn [Nat.eqb]; lia|].
  split.
  - intros Hlimit. rewrite HistoryFacts.sliceLast_length.
    destruct limit; [lia|]. cbn [Nat.eqb]. lia.
  - eapply HistoryFacts.sublist_Forall; [apply HistoryFacts.sliceLast_sublist|].
    apply HistoryFacts.filter_Forall.
Qed.

(** X11.  The events the program appends keep their captures apart: when
    every event of the log whose action is [ocr_capture] is of category
    [capture], the same holds after [addConversationEvent], whatever its
    arguments. *)
Theorem append_keeps_captures_categorised (role content : jsstring)
    (action : option jsstring) (md : Metadata) (a : App) :
  Forall HistoryFacts.categorised (sessionMemory (session a)) ->
  Forall HistoryFacts.categorised
    (sessionMemory (session (exec (Session.addConversationEvent role content action md) a))).
Proof.
  intros Hold.
  destruct (LogFacts.addConversationEvent_log role content action md a)
    as (_ & _ & _ & _ & _ & Haction & Hcategory & Hsub).
  rewrite <- (map_app LogFacts.identity _
                [eval (Session.addConversationEvent role content action md) a]) in Hsub.
  eapply HistoryFacts.Forall_categorised_identity; [exact Hsub|].
  apply Forall_app. split; [exact Hold|]. constructor; [|constructor].
  by eapply HistoryFacts.newEvent_categorised.
Qed.

Lemma append_keeps_captures_categorised_witness :
  let memory := Sample.fiveTurns ++ [Sample.captured 999006 (js "two sum")] in
  let a := Sample.appWith Sample.shippedConfig memory Sample.idleService in
  Forall HistoryFacts.categorised (sessionMemory (session a))
  /\ Forall HistoryFacts.categorised
       (sessionMemory (session (exec (Session.addOCREvent (js "three sum") ∅) a))).
Proof.
  cbv zeta.
  assert (Hold : Forall HistoryFacts.categorised
            (sessionMemory (session (Sample.appWith Sample.shippedConfig
               (Sample.fiveTurns ++ [Sample.captured 999006 (js "two sum")])
               Sample.idleService)))).
  { cbn [Sample.appWith session Session.setMemory sessionMemory Sample.fiveTurns app].
    repeat (apply List.Forall_cons;
            [intros H; first [by vm_compute in H | by vm_compute]|]).
    apply List.Forall_nil. }
  split; [exact Hold|].
  exact (append_keeps_captures_categorised (js "system") _ _ _ _ Hold).
Defined.

(** X12.  The important events of [getOptimizedHistory] never hold a
    capture: its third test asks for an event of category [system] whose
    action is [ocr_capture], and in a log whose captures are of category
    [capture] no event passes it.  The recent events are where the captures
    are. *)
Theorem important_history_has_no_capture (percentOf : Z -> Z -> Z) (limit : nat)
    (a : App) :
  Forall HistoryFacts.categorised (sessionMemory (session a)) ->
  let h := eval (Views.getOptimizedHistory percentOf limit) a in
  Forall (fun e => ev_action e <> js "ocr_capture") (oh_important h)
  /\ Forall (fun e => ev_category e = js "interaction" \/ ev_category e = js "ai")
       (oh_important h).
Proof.
  intros Hold. cbv zeta.
  destruct (HistoryFacts.getOptimizedHistory_run percentOf limit a)
    as (_ & _ & -> & _ & _).
  destruct (LogFacts.evictExpiredEvents_log a) as (_ & _ & -> & _).
  set (memory := List.filter _ (sessionMemory (session a))).
  assert (Hmem : Forall HistoryFacts.categorised memory).
  { eapply HistoryFacts.sublist_Forall; [apply LogFacts.filter_sublist|exact Hold]. }
  assert (Hall : Forall (fun e => HistoryFacts.categorised e /\ Views.isImportant e = true)
                   (Session.sliceLast 5 (List.filter Views.isImportant memory))).
  { eapply HistoryFacts.sublist_Forall; [apply HistoryFacts.sliceLast_sublist|].
    apply Forall_and. split; [|apply HistoryFacts.filter_Forall].
    eapply HistoryFacts.sublist_Forall; [apply LogFacts.filter_sublist|exact Hmem]. }
  split; (eapply Forall_impl; [exact Hall|]); cbv beta; intros e [Hcat Himportant].
  - by apply HistoryFacts.important_is_no_capture.
  - pose proof (HistoryFacts.important_is_no_capture e Hcat Himportant) as Hno.
    unfold Views.isImportant in Himportant.
    destruct (str_eq (ev_category e) (js "interaction")) eqn:H1;
      [left; by apply str_eq_true|].
    destruct (str_eq (ev_category e) (js "ai")) eqn:H2; [right; by apply str_eq_true|].
    cbn [orb] in Himportant. apply andb_true_iff in Himportant as [_ H3].
    by apply str_eq_true in H3.
Qed.

Lemma important_history_has_no_capture_witness :
  let memory := Sample.fiveTurns ++ [Sample.captured 999006 (js "two sum")] in
  let a := Sample.appWith Sample.shippedConfig memory Sample.idleService in
  let h := eval (Views.getOptimizedHistory (fun _ _ => 0%Z) 15) a in
  Forall HistoryFacts.categorised (sessionMemory (session a))
  /\ Forall (fun e => ev_action e <> js "ocr_capture") (oh_important h)
  /\ length (oh_recent h) = 6.
Proof.
  cbv zeta.
  assert (Hold : Forall HistoryFacts.categorised
            (sessionMemory (session (Sample.appWith Sample.shippedConfig
               (Sample.fiveTurns ++ [Sample.captured 999006 (js "two sum")])
               Sample.idleService)))).
  { cbn [Sample.appWith session Session.setMemory sessionMemory Sample.fiveTurns app].
    repeat (apply List.Forall_cons;
            [intros H; first [by vm_compute in H | by vm_compute]|]).
    apply List.Forall_nil. }
  split; [exact Hold|].
  split; [exact (proj1 (important_history_has_no_capture (fun _ _ => 0%Z) 15 _ Hold))|].
  by vm_compute.
Defined.

(** X13.  What the model is given of the history.  The callers pass the
    recent events of [getOptimizedHistory] to the service; the messages
    [buildMessages] makes of them are the system prompt, then for a limit
    [n >= 1] at most [n] and never more than 20 remembered messages, each
    of them the assistant's or the user's, then the new text of the user.
    No remembered message has the role of the system. *)
Theorem recent_history_as_messages (percentOf : Z -> Z -> Z) (limit : nat)
    (systemPrompt userText : jsstring) (a : App) :
  0 < limit ->
  let h := eval (Views.getOptimizedHistory percentOf limit) a in
  exists remembered,
    LLM.buildMessages systemPrompt userText (oh_recent h)
    = [mkMessage (js "system") (Text systemPrompt)] ++ remembered
      ++ [mkMessage (js "user") (Text userText)]
    /\ length remembered <= Nat.min limit 20
    /\ Forall (fun m => msg_role m = js "assistant" \/ msg_role m = js "user") remembered.
Proof.
  intros Hlimit. cbv zeta.
  destruct (HistoryFacts.getOptimizedHistory_run percentOf limit a)
    as (_ & -> & _ & _ & _).
  set (memory := sessionMemory (session (exec Session.evictExpiredEvents a))).
  set (recent := Session.sliceLast limit (List.filter Views.isRecent memory)).
  assert (Hrecent : Forall (fun e => Views.isRecent e = true) recent).
  { eapply HistoryFacts.sublist_Forall; [apply HistoryFacts.sliceLast_sublist|].
    apply HistoryFacts.filter_Forall. }
  assert (Hlen : length recent <= limit).
  { unfold recent. rewrite HistoryFacts.sliceLast_length.
    destruct limit; [lia|]. cbn [Nat.eqb]. lia. }
  destruct (HistoryFacts.formatSessionMemory_sublist recent) as (kept & Hkept & Hsub & H20).
  exists (LLM.formatSessionMemory recent). split; [reflexivity|].
  rewrite Hkept, length_map. split.
  - apply sublist_length in Hsub. lia.
  - apply Forall_forall. intros m Hm. apply list_elem_of_fmap in Hm as (e & -> & He).
    apply HistoryFacts.formatEvent_recent.
    eapply HistoryFacts.sublist_Forall in Hrecent; [|exact Hsub].
    rewrite Forall_forall in Hrecent. by apply Hrecent.
Qed.

Lemma recent_history_as_messages_witness :
  let a := Sample.appWith Sample.shippedConfig Sample.fiveTurns Sample.idleService in
  let h := eval (Views.getOptimizedHistory (fun _ _ => 0%Z) 15) a in
  0 < 15
  /\ exists remembered,
       LLM.buildMessages (js "You help.") (js "And now?") (oh_recent h)
       = [mkMessage (js "system") (Text (js "You help."))] ++ remembered
         ++ [mkMessage (js "user") (Text (js "And now?"))]
       /\ length remembered <= Nat.min 15 20.
Proof.
  cbv zeta.
  assert (Hlimit : 0 < 15) by lia.
  split; [exact Hlimit|].
  destruct (recent_history_as_messages (fun _ _ => 0%Z) 15 (js "You help.") (js "And now?")
              (Sample.appWith Sample.shippedConfig Sample.fiveTurns Sample.idleService)
              Hlimit) as (remembered & Heq & Hlen & _).
  exists remembered. split; [exact Heq|exact Hlen].
Defined.

(** ** Round trips through the log *)

Module RoundTripFacts.
Import Regex Session.

(** A greedy star that nothing follows takes every white space there is. *)
Lemma star_space_takes_all (s : jsstring) :
  forall prev cap,
    repeat_k true Chars.is_space 0 None prev s cap (fun _ s' cap' => Some (s', cap'))
    = Some (trimStart s, cap).
Proof.
  induction s as [|c s IH]; intros prev cap; [done|].
  cbn [repeat_k trimStart may_repeat Nat.pred option_map].
  destruct (Chars.is_space c); cbn [andb orelse]; [|done].
  by rewrite IH.
Qed.

(** A literal without regard to case matches itself. *)
Lemma literal_matches_itself (cs : list N) :
  cs <> [] ->
  forall prev rest cap k,
    match_k (cats (List.map chr_i cs)) prev (cs ++ rest) cap k
    = k (last cs) rest cap.
Proof.
  induction cs as [|c cs IH]; [done|]. intros _ prev rest cap k.
  assert (Hc : (Chars.fold_ascii c =? Chars.fold_ascii c)%N = true) by apply N.eqb_refl.
  destruct cs as [|c' cs].
  - cbn [List.map cats chr_i match_k app]. by rewrite Hc.
  - change (cats (List.map chr_i (c :: c' :: cs)))
      with (Cat (chr_i c) (cats (List.map chr_i (c' :: cs)))).
    change ((c :: c' :: cs) ++ rest) with (c :: ((c' :: cs) ++ rest)).
    cbn [match_k chr_i]. rewrite Hc.
    rewrite (IH ltac:(done)). done.
Qed.

Definition captionWords : jsstring := js "Screenshot captured:".

Lemma screenshotPrefix_words : screenshotPrefix = captionWords ++ [32%N].
Proof. by vm_compute. Qed.

(** Replacing the caption of a stored capture: the caption and the white
    space after it go, the replacement comes. *)
Lemma replace_caption (by_ text : jsstring) :
  replace prefixRegex by_ (screenshotPrefix ++ text) = by_ ++ trimStart text.
Proof.
  rewrite screenshotPrefix_words, <- app_assoc.
  unfold replace, firstMatch.
  assert (Hhere : match_here prefixRegex None (captionWords ++ [32%N] ++ text)
                  = Some (trimStart text, None)).
  { unfold match_here, prefixRegex, lit_i.
    change (cats [Start; cats (List.map chr_i (js "Screenshot captured:"));
                  star Chars.is_space])
      with (Cat Start (Cat (cats (List.map chr_i captionWords)) (star Chars.is_space))).
    cbn [match_k]. rewrite literal_matches_itself by (by vm_compute).
    unfold star. cbn [match_k]. rewrite star_space_takes_all.
    assert (Hspace : Chars.is_space 32 = true) by (by vm_compute).
    cbn [app trimStart]. by rewrite Hspace. }
  destruct (captionWords ++ [32%N] ++ text) as [|c s] eqn:Hs.
  - by vm_compute in Hs.
  - cbn [search_from]. rewrite Hhere. reflexivity.
Qed.

(** *** The tail of the log under an append *)

Lemma filter_keeps_tail {A : Type} (p : A -> bool) (front tail : list A) :
  Forall (fun x => p x = true) tail ->
  List.filter p (front ++ tail) = List.filter p front ++ tail.
Proof.
  intros Hall. rewrite List.filter_app. f_equal.
  induction Hall as [|x tail Hx _ IH]; [done|]. cbn [List.filter]. by rewrite Hx, IH.
Qed.

Lemma consolidate_keeps_tail (front tail : list Event) :
  Forall (fun e => ev_category e <> js "system") tail ->
  consolidate (front ++ tail) = consolidate front ++ tail.
Proof.
  induction tail as [|e tail IH] using rev_ind; intros Hall.
  - by rewrite !app_nil_r.
  - apply Forall_app in Hall as [Htail He]. inversion He; subst.
    rewrite !app_assoc, AppendFacts.consolidate_snoc by done. by rewrite IH.
Qed.

(** The events at the end of the log that are not of category [system]
    and that the window keeps stay where they are under an append, the new
    event behind them, as long as the hard limit has room for them. *)
Lemma append_keeps_tail (role content : jsstring) (action : option jsstring)
    (md : Metadata) (front tail : list Event) (a : App) :
  sessionMemory (session a) = front ++ tail ->
  Forall (fun e => ev_category e <> js "system") tail ->
  categorizeAction (orElse action role) <> js "system" ->
  (forall j, S (clockReads (world a)) <= j -> j < clockReads (world a) + 5 ->
     Forall (fun e => (LogFacts.cutoffAt a j <= ev_timestamp e)%Z) tail) ->
  LogFacts.unhurried a 5 ->
  S (length tail) <= maxSize (session a) ->
  exists front',
    sessionMemory (session (exec (addConversationEvent role content action md) a))
    = front' ++ tail ++ [eval (addConversationEvent role content action md) a].
Proof.
  intros Hmem Hcats Hcat Hfresh Hsteady Hroom.
  destruct (LogFacts.addConversationEvent_log role content action md a)
    as (_ & _ & Hts & _ & _ & _ & Hcategory & _).
  destruct (LogFacts.addConversationEvent_memory role content action md a)
    as (reading & Hreading & Hafter).
  cbv zeta in Hafter. rewrite Hmem, <- app_assoc in Hafter.
  set (e := eval (addConversationEvent role content action md) a) in *.
  assert (Hkeep : forall j, S (clockReads (world a)) <= j -> j < clockReads (world a) + 5 ->
            Forall (fun x => keepEvent (LogFacts.cutoffAt a j) x = true) (tail ++ [e])).
  { intros j Hlo Hhi. apply Forall_app. split.
    - eapply Forall_impl; [apply (Hfresh j Hlo Hhi)|]. cbv beta. intros x Hx.
      apply EvictionFacts.keepEvent_true. by left.
    - constructor; [|constructor]. apply EvictionFacts.keepEvent_true. left.
      rewrite Hts. apply Hsteady; lia. }
  rewrite (filter_keeps_tail _ front) in Hafter by (apply Hkeep; lia).
  rewrite (filter_keeps_tail _ _ (tail ++ [e])) in Hafter by (apply Hkeep; lia).
  rewrite consolidate_keeps_tail in Hafter.
  2:{ apply Forall_app. split; [done|]. constructor; [|constructor]. by rewrite Hcategory. }
  destruct Hafter as [-> | ->]; [by eexists|].
  set (tidy := consolidate _).
  rewrite skipn_app, length_app.
  replace (length tidy + length (tail ++ [e]) - maxSize (session a) - length tidy) with 0.
  2:{ rewrite length_app. cbn [length]. lia. }
  cbn [skipn]. by eexists.
Qed.

(** *** The pairing of the last two events *)

Lemma pairsFrom_tail (question answer_ : Event) (text origin : jsstring)
    (front : list Event) :
  relevant question = true ->
  FollowUpSpec.asQuestion question = Some (text, origin) ->
  truthy text = true ->
  relevant answer_ = true ->
  FollowUpSpec.asQuestion answer_ = None ->
  forall current,
    exists earlier,
      FollowUpSpec.pairsFrom current (front ++ [question; answer_])
      = earlier ++ [mkPair text (ev_content answer_) (Some origin)].
Proof.
  intros Hq Hquestion Htext Ha Hanswer.
  induction front as [|e front IH]; intros current.
  - exists []. cbn [app FollowUpSpec.pairsFrom].
    by rewrite Hq, Hquestion, Ha, Hanswer, Htext.
  - cbn [app FollowUpSpec.pairsFrom]. destruct (negb (relevant e)); [apply IH|].
    destruct (FollowUpSpec.asQuestion e) as [q'|]; [apply IH|].
    destruct current as [[text' origin']|]; [|apply IH].
    destruct (truthy text'); [|apply IH].
    destruct (IH None) as [earlier ->]. by eexists (_ :: earlier).
Qed.

(** The context in terms of the pairs, for a count that is not 0. *)
Lemma followUpContextOf_pairs (memory : list Event) (maxPairs : nat) :
  0 < maxPairs ->
  followUpContextOf memory maxPairs
  = match FollowUpSpec.pairsFrom None memory with
    | [] => []
    | pairs => renderPairs (FollowUpSpec.lastN maxPairs pairs)
    end.
Proof.
  intros Hpos. unfold followUpContextOf.
  destruct (length (List.filter relevant memory) =? 0) eqn:Hnone.
  - apply Nat.eqb_eq, length_zero_iff_nil in Hnone.
    by rewrite FollowUpSpec.pairsFrom_irrelevant.
  - rewrite FollowUpSpec.buildPairs_spec.
    destruct (FollowUpSpec.pairsFrom None memory) as [|p ps]; [done|].
    cbn [length Nat.eqb]. by rewrite FollowUpSpec.sliceLast_lastN.
Qed.

Lemma lastN_one {A : Type} (front : list A) (x : A) :
  FollowUpSpec.lastN 1 (front ++ [x]) = [x].
Proof.
  unfold FollowUpSpec.lastN. rewrite length_app. cbn [length].
  replace (length front + 1 - 1) with (length front) by lia.
  by rewrite skipn_app, skipn_all, Nat.sub_diag.
Qed.

(** A question, then the answer of the model: the last pair of the
    context is that question with that answer. *)
Lemma question_then_answer (role content : jsstring) (action : jsstring) (md md' : Metadata)
    (reply text origin : jsstring) (a : App) :
  action <> [] ->
  categorizeAction action <> js "system" ->
  (forall e, ev_role e = role -> ev_content e = content -> ev_action e = action ->
     relevant e = true /\ FollowUpSpec.asQuestion e = Some (text, origin)) ->
  text <> [] ->
  2 <= maxSize (session a) ->
  LogFacts.unhurried a 10 ->
  let a' := exec (addConversationEvent role content (Some action) md ;;
                  addModelResponse reply md') a in
  exists earlier,
    FollowUpSpec.pairsFrom None (sessionMemory (session a'))
    = earlier ++ [mkPair text reply (Some origin)]
    /\ eval (getFollowUpContext 1) a' = renderPairs [mkPair text reply (Some origin)].
Proof.
  intros Haction Hcat Hquestion Htext Hsize Hsteady. cbv zeta.
  rewrite exec_bind.
  assert (Hor : orElse (Some action) role = action) by (by destruct action).
  destruct (LogFacts.addConversationEvent_log role content (Some action) md a)
    as (Hlog1 & Hreads1 & Hts1 & Hrole1 & Hcontent1 & Haction1 & Hcategory1 & _).
  rewrite Hor in Hcategory1.
  assert (Hact1 : ev_action (eval (addConversationEvent role content (Some action) md) a)
                  = action) by (rewrite Haction1; by destruct action).
  destruct (append_keeps_tail role content (Some action) md (sessionMemory (session a)) [] a)
    as (front1 & Hmem1).
  { by rewrite app_nil_r. }
  { constructor. }
  { by rewrite Hor. }
  { intros; constructor. }
  { intros i j Hi Hij Hj. apply Hsteady; lia. }
  { cbn [length]. lia. }
  cbn [app] in Hmem1.
  set (e1 := eval (addConversationEvent role content (Some action) md) a) in *.
  set (a1 := exec (addConversationEvent role content (Some action) md) a) in *.
  pose proof (LogFacts.onlyLog_fields _ _ Hlog1)
    as (Hclock & _ & _ & _ & Hmax & _ & Hminutes & _).
  assert (Hcut : forall j, LogFacts.cutoffAt a1 j = LogFacts.cutoffAt a j).
  { intros j. by apply LifecycleFacts.cutoffAt_same. }
  unfold addModelResponse.
  set (md2 := md' ∪ _).
  destruct (LogFacts.addConversationEvent_log (js "model") reply (Some (js "model_response"))
              md2 a1) as (_ & _ & _ & Hrole2 & Hcontent2 & Haction2 & _).
  destruct (append_keeps_tail (js "model") reply (Some (js "model_response")) md2
              front1 [e1] a1) as (front2 & Hmem2).
  { exact Hmem1. }
  { constructor; [by rewrite Hcategory1|constructor]. }
  { by vm_compute. }
  { intros j Hlo Hhi. constructor; [|constructor]. rewrite Hcut, Hts1.
    apply Hsteady; lia. }
  { eapply (LifecycleFacts.unhurried_later a a1 10 5); [done|done|lia|lia|done]. }
  { cbn [length]. lia. }
  set (e2 := eval (addConversationEvent (js "model") reply (Some (js "model_response")) md2)
               a1) in *.
  set (a2 := exec (addConversationEvent (js "model") reply (Some (js "model_response")) md2)
               a1) in *.
  destruct (Hquestion e1 Hrole1 Hcontent1 Hact1) as [Hrel1 Hq1].
  assert (Hrel2 : relevant e2 = true).
  { unfold relevant. rewrite Hrole2. by vm_compute. }
  assert (Hq2 : FollowUpSpec.asQuestion e2 = None).
  { unfold FollowUpSpec.asQuestion. rewrite Haction2, Hrole2. by vm_compute. }
  destruct (pairsFrom_tail e1 e2 text origin front2 Hrel1 Hq1 ltac:(by destruct text)
              Hrel2 Hq2 None) as [earlier Hpairs].
  rewrite Hcontent2 in Hpairs.
  exists earlier. cbn [app] in Hmem2. rewrite Hmem2. split; [exact Hpairs|].
  unfold getFollowUpContext. rewrite eval_bind, eval_ret.
  change (eval (this sessionMemory) a2) with (sessionMemory (session a2)).
  rewrite Hmem2, followUpContextOf_pairs by lia. rewrite Hpairs.
  destruct (earlier ++ [mkPair text reply (Some origin)]) as [|p ps] eqn:Hsome;
    [by destruct earlier|].
  rewrite <- Hsome. by rewrite lastN_one.
Qed.

End RoundTripFacts.

(** X14.  What [addOCREvent] stores, the two readers read back.  The
    content of the event is the caption and the text kept of the capture;
    [getFollowUpContext] strips the caption and [formatSessionMemory]
    replaces it by its label, and both are left with the kept text without
    the white space at its start.  The message the model is given for the
    event is a message of the user. *)
Theorem stored_capture_reads_back (extractedText : jsstring) (md : Metadata) (a : App) :
  let e := eval (Session.addOCREvent extractedText md) a in
  let kept := trimStart (Session.safeText extractedText) in
  Session.stripPrefix (ev_content e) = kept
  /\ LLM.formatEvent e = mkMessage (js "user") (Text (LLM.screenContentLabel ++ kept)).
Proof.
  cbv zeta. unfold Session.addOCREvent.
  set (md' := md ∪ _).
  set (content := Session.screenshotPrefix ++ Session.safeText extractedText).
  destruct (LogFacts.addConversationEvent_log (js "system") content
              (Some (js "ocr_capture")) md' a)
    as (_ & _ & _ & Hrole & Hcontent & Haction & _).
  cbn [Session.orElse truthy] in Haction.
  assert (Hcapture : ev_action (eval (Session.addConversationEvent (js "system") content
                                        (Some (js "ocr_capture")) md') a)
                     = js "ocr_capture") by (rewrite Haction; by vm_compute).
  split.
  - unfold Session.stripPrefix. rewrite Hcontent. unfold content.
    by rewrite RoundTripFacts.replace_caption.
  - unfold LLM.formatEvent. rewrite Hrole, Hcapture, Hcontent. unfold content.
    rewrite RoundTripFacts.replace_caption.
    assert (H1 : str_eq (js "system") (js "model") = false) by (by vm_compute).
    assert (H2 : str_eq (js "system") (js "user") = false) by (by vm_compute).
    by rewrite H1, H2, !str_eq_refl.
Qed.

(** X15.  A question and its answer are the last turn of the context.
    After [addUserInput] with a text that is not empty and then
    [addModelResponse], when the hard limit has room for two events and the
    clock stays inside the window during the two calls, the pairs of the log
    end with that text and that answer, and [getFollowUpContext(1)] renders
    exactly that pair, as a message of the user. *)
Theorem question_and_answer_are_the_last_turn (text source reply : jsstring)
    (md : Metadata) (a : App) :
  text <> [] ->
  2 <= maxSize (session a) ->
  LogFacts.unhurried a 10 ->
  let a' := exec (Session.addUserInput text source ;; Session.addModelResponse reply md) a in
  let pair := Session.mkPair text reply (Some (js "voice/chat")) in
  (exists earlier,
     FollowUpSpec.pairsFrom None (sessionMemory (session a')) = earlier ++ [pair])
  /\ eval (Session.getFollowUpContext 1) a' = Session.renderPairs [pair].
Proof.
  intros Htext Hsize Hsteady. cbv zeta. unfold Session.addUserInput.
  set (md1 := <[js "textLength" := _]> _).
  assert (Hquestion : forall action e,
            action = js "voice_input" \/ action = js "chat_input" ->
            ev_role e = js "user" -> ev_content e = text -> ev_action e = action ->
            Session.relevant e = true
            /\ FollowUpSpec.asQuestion e = Some (text, js "voice/chat")).
  { intros action e Hact Hrole Hcontent Haction.
    unfold Session.relevant, FollowUpSpec.asQuestion. rewrite Hrole, Hcontent, Haction.
    destruct Hact as [-> | ->]; by vm_compute. }
  destruct (str_eq source (js "speech")).
  - destruct (RoundTripFacts.question_then_answer (js "user") text (js "voice_input") md1 md
                reply text (js "voice/chat") a) as (earlier & Hpairs & Hcontext);
      [by vm_compute|by vm_compute| |done..|].
    + intros e. apply Hquestion. by left.
    + split; [by exists earlier|exact Hcontext].
  - destruct (RoundTripFacts.question_then_answer (js "user") text (js "chat_input") md1 md
                reply text (js "voice/chat") a) as (earlier & Hpairs & Hcontext);
      [by vm_compute|by vm_compute| |done..|].
    + intros e. apply Hquestion. by right.
    + split; [by exists earlier|exact Hcontext].
Qed.

Lemma question_and_answer_are_the_last_turn_witness :
  let a := Sample.appWith Sample.shippedConfig Sample.fiveTurns Sample.idleService in
  let a' := exec (Session.addUserInput (js "What is a heap?") (js "chat") ;;
                  Session.addModelResponse (js "A tree kept in an array.") ∅) a in
  js "What is a heap?" <> []
  /\ 2 <= maxSize (session a)
  /\ LogFacts.unhurried a 10
  /\ eval (Session.getFollowUpContext 1) a'
     = Session.renderPairs
         [Session.mkPair (js "What is a heap?") (js "A tree kept in an array.")
            (Some (js "voice/chat"))].
Proof.
  cbv zeta.
  assert (Htext : js "What is a heap?" <> []) by (by vm_compute).
  assert (Hsize : 2 <= maxSize (session (Sample.appWith Sample.shippedConfig
                                           Sample.fiveTurns Sample.idleService)))
    by (cbn; lia).
  assert (Hsteady : LogFacts.unhurried
            (Sample.appWith Sample.shippedConfig Sample.fiveTurns Sample.idleService) 10).
  { intros i j Hi Hij Hj. unfold LogFacts.cutoffAt. cbn in *. lia. }
  split; [exact Htext|]. split; [exact Hsize|]. split; [exact Hsteady|].
  exact (proj2 (question_and_answer_are_the_last_turn (js "What is a heap?") (js "chat")
                  (js "A tree kept in an array.") ∅ _ Htext Hsize Hsteady)).
Defined.

(** X16.  A capture and its answer are the last turn of the context.
    After [addOCREvent] and then [addModelResponse], as the screenshot
    handler calls them, when the text kept of the capture is more than white
    space, the hard limit has room for two events and the clock stays inside
    the window during the two calls, [getFollowUpContext(1)] renders exactly
    one turn: the kept text without the caption and the white space at its
    start, as screen content, with that answer. *)
Theorem capture_and_answer_are_the_last_turn (extractedText reply : jsstring)
    (md md' : Metadata) (a : App) :
  trimStart (Session.safeText extractedText) <> [] ->
  2 <= maxSize (session a) ->
  LogFacts.unhurried a 10 ->
  let a' := exec (Session.addOCREvent extractedText md ;;
                  Session.addModelResponse reply md') a in
  let pair :=
    Session.mkPair (trimStart (Session.safeText extractedText)) reply (Some (js "screen")) in
  (exists earlier,
     FollowUpSpec.pairsFrom None (sessionMemory (session a')) = earlier ++ [pair])
  /\ eval (Session.getFollowUpContext 1) a' = Session.renderPairs [pair].
Proof.
  intros Htext Hsize Hsteady. cbv zeta. unfold Session.addOCREvent.
  set (md1 := md ∪ _).
  destruct (RoundTripFacts.question_then_answer (js "system")
              (Session.screenshotPrefix ++ Session.safeText extractedText)
              (js "ocr_capture") md1 md' reply
              (trimStart (Session.safeText extractedText)) (js "screen") a)
    as (earlier & Hpairs & Hcontext); [by vm_compute|by vm_compute| |done..|].
  - intros e Hrole Hcontent Haction.
    unfold Session.relevant, FollowUpSpec.asQuestion, Session.stripPrefix.
    rewrite Hrole, Hcontent, Haction, RoundTripFacts.replace_caption.
    by rewrite !str_eq_refl.
  - split; [by exists earlier|exact Hcontext].
Qed.

Lemma capture_and_answer_are_the_last_turn_witness :
  let a := Sample.appWith Sample.shippedConfig Sample.fiveTurns Sample.idleService in
  let a' := exec (Session.addOCREvent (js "  Two Sum: given an array") ∅ ;;
                  Session.addModelResponse (js "Use a hash map.") ∅) a in
  trimStart (Session.safeText (js "  Two Sum: given an array")) <> []
  /\ 2 <= maxSize (session a)
  /\ LogFacts.unhurried a 10
  /\ eval (Session.getFollowUpContext 1) a'
     = Session.renderPairs
         [Session.mkPair (js "Two Sum: given an array") (js "Use a hash map.")
            (Some (js "screen"))].
Proof.
  cbv zeta.
  assert (Htext : trimStart (Session.safeText (js "  Two Sum: given an array")) <> [])
    by (by vm_compute).
  assert (Hsize : 2 <= maxSize (session (Sample.appWith Sample.shippedConfig
                                           Sample.fiveTurns Sample.idleService)))
    by (cbn; lia).
  assert (Hsteady : LogFacts.unhurried
            (Sample.appWith Sample.shippedConfig Sample.fiveTurns Sample.idleService) 10).
  { intros i j Hi Hij Hj. unfold LogFacts.cutoffAt. cbn in *. lia. }
  split; [exact Htext|]. split; [exact Hsize|]. split; [exact Hsteady|].
  exact (proj2 (capture_and_answer_are_the_last_turn (js "  Two Sum: given an array")
                  (js "Use a hash map.") ∅ ∅ _ Htext Hsize Hsteady)).
Defined.

(** ** The entry points of the service *)

Module EntryFacts.
Import LLM.

(** A computation that only reads. *)
Definition reads {A : Type} (m : M A) : Prop := forall a, exec m a = a.

Lemma reads_ret {A : Type} (x : A) : reads (ret x).
Proof. by intros a. Qed.

Lemma reads_gets {A : Type} (f : App -> A) : reads (gets f).
Proof. by intros a. Qed.

Lemma reads_bind {A B : Type} (m : M A) (k : A -> M B) :
  reads m -> (forall x, reads (k x)) -> reads (bind m k).
Proof. intros Hm Hk a. by rewrite exec_bind, Hm, Hk. Qed.

Lemma reads_buildSystemPrompt (texts : Texts) (skill complexity : jsstring)
    (language : option jsstring) :
  reads (buildSystemPrompt texts skill complexity language).
Proof. apply reads_bind; [apply reads_gets|intros; apply reads_ret]. Qed.


Lemma reads_getGenerationConfig (overrides : GenerationDefaults) :
  reads (getGenerationConfig overrides).
Proof. apply reads_bind; [apply reads_gets|intros; apply reads_ret]. Qed.





(** The [catch] of an entry point. *)
Lemma recover_run (text skill : jsstring) (a : App) :
  eval (recover text skill) a = generateFallbackResponse text skill
  /\ session (exec (recover text skill) a) = session a
  /\ service (exec (recover text skill) a) = bumpErrorCount (service a)
  /\ calls (world (exec (recover text skill) a)) = calls (world a).
Proof. by destruct a. Qed.

(** An entry point has answered and has counted its answer: the response is
    not empty; the session is as it was; either the answer is the model's
    and one more request is counted, or it is the canned one and one more
    error is counted; [sent] are the calls that went out. *)
Definition Counted (run : M Response) (a : App) (sent : list Call) : Prop :=
  let r := eval run a in
  let a' := exec run a in
  response r <> []
  /\ session a' = session a
  /\ calls (world a') = calls (world a) ++ sent
  /\ ((md_usedFallback (metadata r) = false
       /\ service a' = bumpRequestCount (service a))
      \/ (md_usedFallback (metadata r) = true
          /\ md_model (metadata r) = js "fallback"
          /\ service a' = bumpErrorCount (service a))).


Lemma bind_run {A B : Type} (m : M A) (k : A -> M B) (a : App) :
  bind m k a = k (eval m a) (exec m a).
Proof. unfold bind, eval, exec. by destruct (m a). Qed.

Lemma dateNow_quiet (a : App) :
  session (exec dateNow a) = session a /\ service (exec dateNow a) = service a
  /\ calls (world (exec dateNow a)) = calls (world a)
  /\ config (world (exec dateNow a)) = config (world a).
Proof. by destruct a. Qed.

Lemma Counted_intro (run : M Response) (a a' : App) (r : Response) (sent : list Call) :
  run a = (r, a') ->
  response r <> [] ->
  session a' = session a ->
  calls (world a') = calls (world a) ++ sent ->
  (md_usedFallback (metadata r) = false /\ service a' = bumpRequestCount (service a))
  \/ (md_usedFallback (metadata r) = true /\ md_model (metadata r) = js "fallback"
      /\ service a' = bumpErrorCount (service a)) ->
  Counted run a sent.
Proof. intros Hrun. unfold Counted, eval, exec. by rewrite Hrun. Qed.








End EntryFacts.





(** ** Image analysis, the connection test and the key *)

Module ConnectionFacts.
Import LLM Connection EntryFacts.

(** A service whose backend completes every call without a text. *)
Definition silentApp : App :=
  let w := Sample.quietWorld Sample.shippedConfig in
  mkApp (mkWorld (clock w) (clockReads w) (random w) (randomDraws w) (prompts w) (config w)
           (base64 w) (toJPEG w) (fun _ _ => Completion None) (timers w) (timerCount w)
           (calls w) (sleeps w))
    (Session.setMemory Sample.fiveTurns (Session.fresh Sample.shippedConfig))
    Sample.readyService.

(** What [processImageWithSkill] has returned and counted for the reply
    [reply] to its call. *)
Definition ImageAnswered (skill : jsstring) (reply : Reply) (r : Response) (a a' : App)
    : Prop :=
  match reply with
  | Completion content =>
      response r = default (js "No response generated.") (loaded content)
      /\ md_usedFallback (metadata r) = false
      /\ md_model (metadata r) = js "llama-3.2-11b-vision-preview"
      /\ md_skill (metadata r) = skill
      /\ md_isImageAnalysis (metadata r) = Some true
      /\ requestCount (service a') = S (requestCount (service a))
      /\ errorCount (service a') = errorCount (service a)
  | Rejected _ =>
      r = generateFallbackResponse imageFailed skill
      /\ FallbackFacts.Canned (js "Image analysis failed") skill r
      /\ requestCount (service a') = requestCount (service a)
      /\ errorCount (service a') = S (errorCount (service a))
  end.

(** [processImageWithSkill] with a client, up to the reply. *)
Lemma processImageWithSkill_run (texts : Texts) (rules request : jsstring)
    (imageBuffer : list N) (mimeType skill : jsstring) (memory : list Event)
    (language : option jsstring) (a : App) :
  isInitialized (service a) = true ->
  client (service a) = true ->
  let run := processImageWithSkill texts rules request imageBuffer mimeType skill memory
               language in
  exists messages genConfig,
    let c := requestCall imageModel messages genConfig in
    temperature genConfig = (1 # 10)%Q
    /\ call_model c = js "llama-3.2-11b-vision-preview"
    /\ Counted run a [c]
    /\ ImageAnswered skill (backend (world a) (calls (world a)) c) (eval run a) a
         (exec run a).
Proof.
  intros Hready Hclient. cbv zeta.
  destruct (processImageWithSkill texts rules request imageBuffer mimeType skill memory
              language a) as [r a'] eqn:Hrun.
  pose proof Hrun as Hrun0.
  unfold processImageWithSkill in Hrun.
  destruct (dateNow_quiet a) as (Hs0 & Hl0 & Hc0 & Hcfg0).
  assert (Hb0 : backend (world (exec dateNow a)) = backend (world a)) by (by destruct a).
  rewrite bind_run in Hrun.
  set (a0 := exec dateNow a) in *. set (startTime := eval dateNow a) in *.
  rewrite bind_run in Hrun.
  change (exec (self isInitialized) a0) with a0 in Hrun.
  change (eval (self isInitialized) a0) with (isInitialized (service a0)) in Hrun.
  rewrite Hl0, Hready in Hrun. cbn [negb] in Hrun.
  rewrite bind_run, reads_buildSystemPrompt in Hrun. cbv zeta in Hrun.
  rewrite bind_run in Hrun.
  change (exec (gets world) a0) with a0 in Hrun.
  change (eval (gets world) a0) with (world a0) in Hrun. cbv zeta in Hrun.
  rewrite bind_run in Hrun.
  change (exec (self client) a0) with a0 in Hrun.
  change (eval (self client) a0) with (client (service a0)) in Hrun.
  rewrite Hl0, Hclient in Hrun. cbn [negb] in Hrun.
  rewrite bind_run, reads_getGenerationConfig in Hrun.
  set (genConfig := eval (getGenerationConfig _) a0) in *.
  rewrite bind_run in Hrun.
  match type of Hrun with
  | context [create (requestCall imageModel ?m genConfig)] => set (messages := m) in *
  end.
  set (c := requestCall imageModel messages genConfig) in *.
  assert (Hcreate : eval (create c) a0 = backend (world a) (calls (world a)) c
                    /\ session (exec (create c) a0) = session a
                    /\ service (exec (create c) a0) = service a
                    /\ calls (world (exec (create c) a0)) = calls (world a) ++ [c]).
  { rewrite <- Hb0, <- Hc0, <- Hs0, <- Hl0. by destruct a0. }
  destruct Hcreate as (Hreply & Hs1 & Hl1 & Hc1).
  set (a1 := exec (create c) a0) in *.
  exists messages, genConfig. fold c.
  split; [reflexivity|]. split; [reflexivity|].
  assert (Heval : eval (processImageWithSkill texts rules request imageBuffer mimeType skill
                          memory language) a = r) by (unfold eval; by rewrite Hrun0).
  assert (Hexec : exec (processImageWithSkill texts rules request imageBuffer mimeType skill
                          memory language) a = a') by (unfold exec; by rewrite Hrun0).
  rewrite Heval, Hexec.
  rewrite Hreply in Hrun.
  destruct (backend (world a) (calls (world a)) c) as [content|err]; cbn [ImageAnswered].
  - rewrite bind_run in Hrun.
    assert (Hend : r = mkResponse (default noResponse (loaded content)) None None None None
                     (mkResponseMetadata (eval dateNow a1 - startTime) imageModel None skill
                        None None false None None (Some true) None)
                   /\ session a' = session a1 /\ service a' = bumpRequestCount (service a1)
                   /\ calls (world a') = calls (world a1)).
    { destruct a1 as [w1 s1 l1]. cbn in Hrun. injection Hrun as <- <-. by repeat split. }
    destruct Hend as (Hr & Hs2 & Hl2 & Hc2).
    split; [|by rewrite Hr, Hl2, Hl1].
    apply (Counted_intro _ _ _ _ _ Hrun0); rewrite ?Hr;
      cbn [response metadata md_usedFallback].
    + destruct (loaded content) as [text|] eqn:Hloaded; cbn [default].
      * unfold loaded in Hloaded. destruct content as [text'|]; [|done].
        destruct (truthy text') eqn:Ht; [|done]. injection Hloaded as <-. by destruct text'.
      * by vm_compute.
    + congruence.
    + by rewrite Hc2, Hc1.
    + left. split; [done|]. by rewrite Hl2, Hl1.
  - destruct (recover_run imageFailed skill a1) as (Hr & Hs & Hl & Hc).
    unfold eval, exec in Hr, Hs, Hl, Hc. rewrite Hrun in Hr, Hs, Hl, Hc.
    cbn [fst snd] in Hr, Hs, Hl, Hc.
    destruct (FallbackFacts.fallback_is_skill_aware imageFailed skill)
      as (Hfb & Hmodel & _ & _ & Hne).
    split.
    + apply (Counted_intro _ _ _ _ _ Hrun0).
      * by rewrite Hr.
      * congruence.
      * by rewrite Hc, Hc1.
      * right. rewrite Hr, Hl, Hl1. by repeat split.
    + split; [exact Hr|]. split.
      * rewrite Hr. apply (FallbackFacts.generateFallbackResponse_canned imageFailed skill).
      * by rewrite Hl, Hl1.
Qed.

(** [testConnection], case by case. *)
Lemma testConnection_run (a : App) :
  let report := eval testConnection a in
  let a' := exec testConnection a in
  let c := testCall (model (service a)) in
  session a' = session a /\ service a' = service a
  /\ if client (service a)
     then calls (world a') = calls (world a) ++ [c]
          /\ match backend (world a) (calls (world a)) c with
             | Completion content =>
                 cr_success report = true
                 /\ cr_response report = Some (trim (default [] (loaded content)))
                 /\ cr_model report = Some (model (service a))
                 /\ cr_error report = None
             | Rejected e =>
                 cr_success report = false /\ cr_error report = Some (err_message e)
                 /\ cr_response report = None
             end
     else calls (world a') = calls (world a)
          /\ report = mkConnectionReport false None None None (Some noClient).
Proof.
  destruct a as [w s l]. cbv zeta. unfold testConnection, eval, exec, bind, self, gets.
  cbn [service fst snd]. destruct (client l); cbn [negb]; [|done].
  cbn [dateNow create world session service fst snd calls backend].
  destruct (backend w (calls w) (testCall (model l))); by repeat split.
Qed.

Lemma initializeClient_run (apiKey : option jsstring) (a : App) :
  let a' := exec (initializeClient apiKey) a in
  session a' = session a /\ world a' = world a
  /\ requestCount (service a') = requestCount (service a)
  /\ errorCount (service a') = errorCount (service a)
  /\ match loaded apiKey with
     | Some _ =>
         isInitialized (service a') = true /\ client (service a') = true
         /\ model (service a')
            = Session.orElse (cfg_model (config (world a))) defaultModel
     | None =>
         isInitialized (service a') = false
         /\ client (service a') = client (service a)
         /\ model (service a') = model (service a)
     end.
Proof.
  destruct a as [w s l]. cbv zeta. unfold initializeClient.
  destruct (loaded apiKey); by repeat split.
Qed.

End ConnectionFacts.

(** X19.  The image entry point asks once and takes what it gets.  With
    an initialised service that has a client, [processImageWithSkill] sends
    exactly one call, to the model [llama-3.2-11b-vision-preview] at the
    temperature 0.1, and never a second one.  A completion is counted as a
    request even when it has no text: [requestCount] goes up by one,
    [errorCount] stays, [usedFallback] is false and the response is the text
    of the completion or, without one, [No response generated.], where the
    request executor of the other entry points would have counted a failure
    and tried again.  A rejection is counted as an error, [errorCount] up by
    one and [requestCount] as it was, and answered with the canned response
    for [Image analysis failed]. *)
Theorem image_entry_point_asks_once (texts : Texts) (rules request : jsstring)
    (imageBuffer : list N) (mimeType skill : jsstring) (memory : list Event)
    (language : option jsstring) (a : App) :
  isInitialized (service a) = true ->
  client (service a) = true ->
  let run := Connection.processImageWithSkill texts rules request imageBuffer mimeType skill
               memory language in
  exists messages genConfig,
    let c := LLM.requestCall Connection.imageModel messages genConfig in
    LLM.temperature genConfig = (1 # 10)%Q
    /\ call_model c = js "llama-3.2-11b-vision-preview"
    /\ EntryFacts.Counted run a [c]
    /\ ConnectionFacts.ImageAnswered skill (backend (world a) (calls (world a)) c)
         (eval run a) a (exec run a).
Proof. apply ConnectionFacts.processImageWithSkill_run. Qed.

Lemma image_entry_point_asks_once_witness :
  let run := Connection.processImageWithSkill Flaky.someTexts (js "Rules.") (js "Extract.")
               Flaky.png (js "image/png") (js "dsa") Sample.fiveTurns None in
  let silent := ConnectionFacts.silentApp in
  let refusing := Sample.appWith Sample.shippedConfig Sample.fiveTurns Sample.readyService in
  (isInitialized (service silent) = true
   /\ client (service silent) = true
   /\ length (calls (world (exec run silent))) = 1
   /\ response (eval run silent) = js "No response generated."
   /\ md_usedFallback (metadata (eval run silent)) = false
   /\ requestCount (service (exec run silent)) = 1
   /\ errorCount (service (exec run silent)) = 0)
  /\ (isInitialized (service refusing) = true
      /\ client (service refusing) = true
      /\ length (calls (world (exec run refusing))) = 1
      /\ md_usedFallback (metadata (eval run refusing)) = true
      /\ requestCount (service (exec run refusing)) = 0
      /\ errorCount (service (exec run refusing)) = 1).
Proof.
  cbv zeta. split.
  - assert (Hready : isInitialized (service ConnectionFacts.silentApp) = true)
      by reflexivity.
    assert (Hclient : client (service ConnectionFacts.silentApp) = true) by reflexivity.
    split; [exact Hready|]. split; [exact Hclient|].
    destruct (image_entry_point_asks_once Flaky.someTexts (js "Rules.") (js "Extract.")
                Flaky.png (js "image/png") (js "dsa") Sample.fiveTurns None _ Hready Hclient)
      as (messages & genConfig & _ & _ & (_ & _ & Hcalls & _) & Hanswered).
    change (backend (world ConnectionFacts.silentApp) _ _) with (Completion None)
      in Hanswered.
    destruct Hanswered as (Hresponse & Hfallback & _ & _ & _ & Hrequests & Herrors).
    split; [by rewrite Hcalls|]. split; [exact Hresponse|]. split; [exact Hfallback|].
    split; [exact Hrequests|exact Herrors].
  - assert (Hready : isInitialized (service (Sample.appWith Sample.shippedConfig
              Sample.fiveTurns Sample.readyService)) = true) by reflexivity.
    assert (Hclient : client (service (Sample.appWith Sample.shippedConfig
              Sample.fiveTurns Sample.readyService)) = true) by reflexivity.
    split; [exact Hready|]. split; [exact Hclient|].
    destruct (image_entry_point_asks_once Flaky.someTexts (js "Rules.") (js "Extract.")
                Flaky.png (js "image/png") (js "dsa") Sample.fiveTurns None _ Hready Hclient)
      as (messages & genConfig & _ & _ & (_ & _ & Hcalls & _) & Hanswered).
    change (backend (world (Sample.appWith Sample.shippedConfig Sample.fiveTurns
                              Sample.readyService)) _ _)
      with (Rejected Sample.unreachable) in Hanswered.
    destruct Hanswered as (Hresponse & _ & Hrequests & Herrors).
    split; [by rewrite Hcalls|]. split; [by rewrite Hresponse|].
    split; [exact Hrequests|exact Herrors].
Defined.

(** X20.  [testConnection] asks the client, not the flag, and counts
    nothing.  It leaves the session and the service, the two counters
    included, as they are.  Without a client object it sends nothing and
    reports the missing client; with one it sends exactly one call to the
    model of the service, whether or not the service is initialised, and
    reports a success for every completion, also one without text, whose
    response is then the empty string; a rejection is reported with its
    message. *)
Theorem testConnection_asks_the_client (a : App) :
  let report := eval Connection.testConnection a in
  let a' := exec Connection.testConnection a in
  let c := Connection.testCall (model (service a)) in
  session a' = session a /\ service a' = service a
  /\ (client (service a) = false ->
      calls (world a') = calls (world a)
      /\ cr_success report = false /\ cr_error report = Some Connection.noClient)
  /\ (client (service a) = true ->
      calls (world a') = calls (world a) ++ [c]
      /\ match backend (world a) (calls (world a)) c with
         | Completion content =>
             cr_success report = true
             /\ cr_response report = Some (trim (default [] (loaded content)))
         | Rejected e =>
             cr_success report = false /\ cr_error report = Some (err_message e)
         end).
Proof.
  cbv zeta. destruct (ConnectionFacts.testConnection_run a) as (Hs & Hl & Hrest).
  split; [done|]. split; [done|]. split; intros Hclient; rewrite Hclient in Hrest.
  - destruct Hrest as [Hcalls ->]. by repeat split.
  - destruct Hrest as [Hcalls Hreply]. split; [done|].
    destruct (backend (world a) (calls (world a)) _); tauto.
Qed.

(** X21.  An empty key switches the entry points off and leaves the client
    in place.  [updateApiKey] keeps the two counters, the session and the
    world.  With a key that is not empty the service is initialised, has a
    client and takes the configured model, or the default one.  With the
    empty key the service is marked as not initialised, as [getStats]
    reports, but the client object it had stays: every entry point then
    answers with the canned response without a call, while
    [testConnection] still sends its call through the old client. *)
Theorem empty_key_leaves_the_client (texts : Texts) (newApiKey text skill complexity : jsstring)
    (memory : list Event) (language : option jsstring) (isFollowUp : bool) (a : App) :
  let a' := exec (Connection.updateApiKey newApiKey) a in
  session a' = session a /\ world a' = world a
  /\ st_requestCount (eval Connection.getStats a') = requestCount (service a)
  /\ st_errorCount (eval Connection.getStats a') = errorCount (service a)
  /\ (newApiKey <> [] ->
      st_isInitialized (eval Connection.getStats a') = true
      /\ client (service a') = true
      /\ st_model (eval Connection.getStats a')
         = Session.orElse (cfg_model (config (world a))) LLM.defaultModel)
  /\ (newApiKey = [] ->
      st_isInitialized (eval Connection.getStats a') = false
      /\ client (service a') = client (service a)
      /\ FallbackFacts.AnswersCanned
           (LLM.processTextWithSkill texts text skill memory language complexity isFollowUp)
           (LLM.generateFallbackResponse text skill) a'
      /\ (client (service a) = true ->
          calls (world (exec Connection.testConnection a'))
          = calls (world a) ++ [Connection.testCall (model (service a))])).
Proof.
  cbv zeta. unfold Connection.updateApiKey.
  destruct (ConnectionFacts.initializeClient_run (Some newApiKey) a)
    as (Hs & Hw & Hrq & Her & Hkey).
  set (a' := exec (LLM.initializeClient (Some newApiKey)) a) in *.
  assert (Hstats : eval Connection.getStats a'
                   = mkStats (isInitialized (service a')) (model (service a'))
                       (requestCount (service a')) (errorCount (service a')) (js "groq"))
    by reflexivity.
  rewrite Hstats. cbn [st_requestCount st_errorCount st_isInitialized st_model].
  split; [done|]. split; [done|]. split; [done|]. split; [done|]. split.
  - intros Hkey'. destruct newApiKey as [|c key]; [done|]. cbn [loaded truthy] in Hkey. tauto.
  - intros ->. cbn [loaded truthy] in Hkey. destruct Hkey as (Hidle & Hclient & Hmodel).
    split; [done|]. split; [done|]. split.
    + unfold LLM.processTextWithSkill. by apply FallbackFacts.guarded_answers_canned.
    + intros Hhad. destruct (ConnectionFacts.testConnection_run a') as (_ & _ & Hrest).
      rewrite Hclient, Hhad in Hrest. destruct Hrest as [-> _]. by rewrite Hw, Hmodel.
Qed.

(** ** What consolidation spares, and the timer view *)

Module SparingFacts.
Import Session Views.

Definition notSystem (e : Event) : bool := negb (str_eq (ev_category e) (js "system")).

Lemma consolidate_spares (events : list Event) :
  List.filter notSystem (consolidate events) = List.filter notSystem events.
Proof.
  induction events as [| e | a b l IH1 IH2] using ConsolidationFacts.by_pairs; [done..|].
  rewrite ConsolidationFacts.consolidate_pair.
  destruct (sameSystemAction a b) eqn:Hsame.
  - unfold sameSystemAction in Hsame.
    apply andb_true_iff in Hsame as [Hsame _]. apply andb_true_iff in Hsame as [Ha Hb].
    assert (Hna : notSystem a = false) by (unfold notSystem; by rewrite Ha).
    assert (Hnb : notSystem b = false) by (unfold notSystem; by rewrite Hb).
    assert (Hnm : notSystem (merged a) = false) by (unfold notSystem; cbn [merged ev_category]; by rewrite Ha).
    cbn [List.filter]. by rewrite Hna, Hnb, Hnm, IH1.
  - cbn [List.filter] in *. by rewrite IH2.
Qed.

(** An event of the consolidated log is an event of the log, or the
    merge of one whose category is [system]. *)
Lemma consolidate_origin (events : list Event) :
  Forall (fun e => In e events
                   \/ exists first, In first events /\ ev_category first = js "system"
                                    /\ e = merged first)
    (consolidate events).
Proof.
  induction events as [| e | a b l IH1 IH2] using ConsolidationFacts.by_pairs.
  - constructor.
  - constructor; [left; by left|constructor].
  - rewrite ConsolidationFacts.consolidate_pair.
    destruct (sameSystemAction a b) eqn:Hsame.
    + unfold sameSystemAction in Hsame.
      apply andb_true_iff in Hsame as [Hsame _]. apply andb_true_iff in Hsame as [Ha _].
      apply str_eq_true in Ha. constructor.
      * right. exists a. split; [by left|done].
      * eapply Forall_impl; [exact IH1|]. cbv beta.
        intros e [Hin | (first & Hin & Hcat & ->)].
        -- left. right. by right.
        -- right. exists first. split; [right; by right|done].
    + constructor; [left; by left|].
      eapply Forall_impl; [exact IH2|]. cbv beta.
      intros e [Hin | (first & Hin & Hcat & ->)].
      * left. by right.
      * right. exists first. split; [by right|done].
Qed.

Lemma getSessionTimer_view (percentOf : Z -> Z -> Z) (a : App) :
  let v := eval (getSessionTimer percentOf) a in
  let total := (maxDurationMinutes (session a) * 60)%Z in
  match sessionStartTime (session a) with
  | None | Some 0%Z =>
      v = mkTimerView 0 total None None false None
      /\ exec (getSessionTimer percentOf) a = a
  | Some t =>
      let elapsed := ((EvictionFacts.nextReading a - t) / 1000)%Z in
      tv_elapsed v = elapsed
      /\ tv_remaining v = Z.max 0 (total - elapsed)
      /\ tv_elapsedFormatted v = Some (formatTime elapsed)
      /\ tv_remainingFormatted v = Some (formatTime (tv_remaining v))
      /\ tv_isActive v = sessionActive (session a)
      /\ tv_percentComplete v = Some (percentOf elapsed total)
  end.
Proof.
  destruct a as [w s l]. cbv zeta. unfold getSessionTimer, eval, exec, bind, this, gets.
  cbn [session fst snd]. by destruct (sessionStartTime s) as [[|t|t]|].
Qed.

End SparingFacts.

(** X22.  Consolidation spares everything that is not of category
    [system]: the events of the other categories (the messages of the user,
    the answers of the model, the captures) are after
    [consolidateSimilarEvents] the same events in the same order as before,
    and every event of the consolidated log is an event of the log as it was
    or the merge of one of its [system] events. *)
Theorem consolidation_spares_the_dialogue (a : App) :
  let before := sessionMemory (session a) in
  let after := sessionMemory (session (exec Session.consolidateSimilarEvents a)) in
  List.filter SparingFacts.notSystem after = List.filter SparingFacts.notSystem before
  /\ Forall (fun e => In e before
                      \/ exists first, In first before /\ ev_category first = js "system"
                                       /\ e = Session.merged first) after.
Proof.
  cbv zeta. rewrite ConsolidationFacts.consolidateSimilarEvents_run. split.
  - apply SparingFacts.consolidate_spares.
  - apply SparingFacts.consolidate_origin.
Qed.


(** ** The views of a cleared and of a started session *)

Module ViewFacts.
Import Session Views.

Lemma baseline_is_no_dialogue (skills : list jsstring) (events : list Event) :
  Forall2 ClearFacts.baselineOf skills events ->
  List.filter (fun e => negb (str_eq (ev_action e) (js "skill_init"))) events = []
  /\ List.filter isUserOrModel events = []
  /\ List.filter relevant events = [].
Proof.
  induction 1 as [|skill e skills events (Hrole & Haction & _) _ (IH1 & IH2 & IH3)];
    [done|].
  cbn [List.filter]. unfold isUserOrModel at 1. unfold relevant at 1.
  rewrite Hrole, Haction, IH1, IH2, IH3. by vm_compute.
Qed.

Lemma getMemoryUsage_run (percentOf : Z -> Z -> Z) (a : App) :
  mu_eventCount (eval (getMemoryUsage percentOf) a) = length (sessionMemory (session a))
  /\ mu_topicCount (eval (getMemoryUsage percentOf) a) = size (topicTags (session a))
  /\ mu_sessionActive (eval (getMemoryUsage percentOf) a) = sessionActive (session a).
Proof.
  unfold getMemoryUsage. rewrite !eval_bind, eval_ret.
  by change (eval (gets session) a) with (session a).
Qed.

End ViewFacts.

(** X24.  A cleared manager has a log and no history.  After [clear] the
    log holds the baseline events of the skill prompts, one [skill_init]
    event of the system for each skill whose prompt is there, in the order
    of the skills.  [getMemoryUsage] counts them and [getRecentEvents]
    returns them: for every count its result is the end of that log, the
    whole of it for the count 0 and for every count that is not below the
    number of the events, the default count 10 among them when there are ten
    skills at most.  None of the views of the conversation shows them:
    [getFullConversationHistory] and [getConversationHistory] are empty and
    [getFollowUpContext] is the empty string, whatever their counts. *)
Theorem cleared_manager_has_no_history (percentOf : Z -> Z -> Z) (n count : nat)
    (a : App) :
  let a' := exec Session.clear a in
  let skills := default Session.defaultModes (cfg_availableModes (config (world a))) in
  let baseline := sessionMemory (session a') in
  let recent := eval (Views.getRecentEvents count) a' in
  eval Views.getFullConversationHistory a' = []
  /\ eval (Views.getConversationHistory n) a' = []
  /\ eval (Session.getFollowUpContext n) a' = []
  /\ mu_eventCount (eval (Views.getMemoryUsage percentOf) a')
     = length (List.filter (ClearFacts.loads (world a)) skills)
  /\ mu_sessionActive (eval (Views.getMemoryUsage percentOf) a') = false
  /\ eval (Views.getRecentEvents 0) a' = baseline
  /\ Forall2 ClearFacts.baselineOf (List.filter (ClearFacts.loads (world a)) skills) baseline
  /\ (exists earlier,
        baseline = earlier ++ recent
        /\ length earlier = (if count =? 0 then 0 else length baseline - count))
  /\ (count = 0 \/ length baseline <= count -> recent = baseline)
  /\ (length skills <= 10 -> eval (Views.getRecentEvents 10) a' = baseline).
Proof.
  cbv zeta. destruct (ClearFacts.clear_resets a) as (Hbase & _ & _ & Hactive & _).
  destruct (ViewFacts.baseline_is_no_dialogue _ _ Hbase) as (H1 & H2 & H3).
  destruct (ViewFacts.getMemoryUsage_run percentOf (exec Session.clear a)) as (Hcount & _ & Hact).
  assert (Hrecent : forall k b,
             eval (Views.getRecentEvents k) b
             = Session.sliceLast k (sessionMemory (session b)))
    by (intros k b; by destruct b).
  pose proof (Forall2_length _ _ _ Hbase) as Hlength.
  set (a' := exec Session.clear a) in *.
  split.
  { unfold Views.getFullConversationHistory. rewrite eval_bind, eval_ret.
    change (eval (Session.this sessionMemory) a') with (sessionMemory (session a')).
    by rewrite H1. }
  split.
  { unfold eval. rewrite HistoryFacts.getConversationHistory_run. cbn [fst].
    rewrite H2. by destruct n. }
  split.
  { unfold Session.getFollowUpContext. rewrite eval_bind, eval_ret.
    change (eval (Session.this sessionMemory) a') with (sessionMemory (session a')).
    unfold Session.followUpContextOf. by rewrite H3. }
  split; [by rewrite Hcount|].
  split; [by rewrite Hact|].
  split; [by rewrite Hrecent|].
  split; [exact Hbase|].
  rewrite !Hrecent.
  split; [|split].
  - destruct (HistoryFacts.sliceLast_suffix count (sessionMemory (session a')))
      as (earlier & Hsplit).
    exists earlier. split; [exact Hsplit|].
    apply (f_equal (@length Event)) in Hsplit.
    rewrite length_app, HistoryFacts.sliceLast_length in Hsplit.
    destruct count; cbn [Nat.eqb] in *; lia.
  - intros Hall. destruct count as [|k]; [done|].
    cbn [Session.sliceLast]. destruct Hall as [Hzero|Hfew]; [done|].
    replace (length _ - S k) with 0 by lia. done.
  - intros Hfew. cbn [Session.sliceLast].
    pose proof (filter_length_le (ClearFacts.loads (world a))
                  (default Session.defaultModes (cfg_availableModes (config (world a)))))
      as Hfilter.
    replace (length _ - 10) with 0 by lia. done.
Qed.

(** X25.  The view [startSession] returns is that of a running session:
    when the first reading of the clock is not 0, the view is active and its
    elapsed time is counted from that reading; the manager does not take a
    start at the time 0 for a start, and the view of a session started then
    is the one of a manager that has not started. *)
Theorem startSession_returns_a_running_view (percentOf : Z -> Z -> Z)
    (mode : option jsstring) (a : App) :
  let v := eval (Views.startSessionTimer percentOf mode) a in
  let started := exec (Session.startSession mode) a in
  (EvictionFacts.nextReading a <> 0%Z ->
   tv_isActive v = true
   /\ tv_elapsed v
      = ((EvictionFacts.nextReading started - EvictionFacts.nextReading a) / 1000)%Z)
  /\ (EvictionFacts.nextReading a = 0%Z ->
      tv_isActive v = false /\ tv_elapsed v = 0%Z /\ tv_elapsedFormatted v = None).
Proof.
  cbv zeta. unfold Views.startSessionTimer. rewrite eval_bind.
  destruct (LifecycleFacts.startSession_run mode a)
    as (b & Hrun & _ & _ & _ & Hstart & Hactive & _).
  rewrite Hrun.
  set (content := LifecycleFacts.startMessage _ _).
  destruct (LogFacts.addConversationEvent_log (js "system") content
              (Some (js "session_start")) ∅ b) as (Hlog & _).
  apply LogFacts.onlyLog_fields in Hlog
    as (_ & _ & _ & _ & _ & _ & _ & _ & Hstart' & Hactive' & _).
  set (a1 := exec (Session.addConversationEvent _ _ _ _) b) in *.
  pose proof (SparingFacts.getSessionTimer_view percentOf a1) as Hview. cbv zeta in Hview.
  rewrite Hstart', Hstart in Hview. split.
  - intros Hnow.
    destruct (EvictionFacts.nextReading a) as [|t|t] eqn:Ht; [done| |];
      destruct Hview as (He & _ & _ & _ & Hact & _); by rewrite He, Hact, Hactive', Hactive.
  - intros Hnow. rewrite Hnow in Hview. destruct Hview as [-> _]. by repeat split.
Qed.

(** ** The metadata of a stored event *)

Module MetadataFacts.
Import Session.

Lemma newEvent_metadata (role content : jsstring) (action : option jsstring) (md : Metadata)
    (a : App) :
  exists elapsed,
    ev_metadata (eval (newEvent role content action md) a)
    = <[js "sessionElapsed" := MNumber elapsed]>
        (<[js "skill" := MString (activeSkill (session a))]> md)
    /\ (sessionStartTime (session a) = None -> elapsed = 0%Z).
Proof.
  unfold newEvent. rewrite !eval_bind, eval_ret. cbn [ev_metadata].
  destruct (LogFacts.generateEventId_log a) as (_ & Hs1 & _).
  set (a1 := exec generateEventId a) in *.
  destruct (LogFacts.dateNow_log a1) as (_ & Hs2 & _).
  set (a2 := exec dateNow a1) in *.
  change (exec (this activeSkill) a2) with a2.
  change (eval (this activeSkill) a2) with (activeSkill (session a2)).
  rewrite Hs2, Hs1. eexists. split; [reflexivity|].
  intros Hnone. unfold getElapsedMinutes. rewrite eval_bind.
  change (exec (this sessionStartTime) a2) with a2.
  change (eval (this sessionStartTime) a2) with (sessionStartTime (session a2)).
  by rewrite Hs2, Hs1, Hnone.
Qed.

Lemma addConversationEvent_eval (role content : jsstring) (action : option jsstring)
    (md : Metadata) (a : App) :
  eval (addConversationEvent role content action md) a
  = eval (newEvent role content action md) a.
Proof. unfold addConversationEvent. by rewrite !eval_bind, eval_ret. Qed.


End MetadataFacts.


(** ** Evictions in a row *)

Module CumulativeFacts.
Import Session.

Lemma keepEvent_later (c1 c2 : Z) (e : Event) :
  (c1 <= c2)%Z -> keepEvent c2 e = true -> keepEvent c1 e = true.
Proof.
  intros Hle H. apply EvictionFacts.keepEvent_true in H.
  apply EvictionFacts.keepEvent_true. destruct H as [H|H]; [left; lia|by right].
Qed.

Lemma filter_filter_later {A : Type} (p q : A -> bool) (l : list A) :
  (forall x, q x = true -> p x = true) ->
  List.filter q (List.filter p l) = List.filter q l.
Proof.
  intros Himp. induction l as [|x l IH]; [done|].
  cbn [List.filter]. destruct (p x) eqn:Hp; cbn [List.filter].
  - by rewrite IH.
  - destruct (q x) eqn:Hq; [|done]. apply Himp in Hq. congruence.
Qed.

Lemma surviving_later (c1 c2 : Z) (entries : list TopicEntry) :
  (c1 <= c2)%Z ->
  EvictionFacts.surviving c1 entries ≫= EvictionFacts.surviving c2
  = EvictionFacts.surviving c2 entries.
Proof.
  intros Hle.
  assert (Hfilter : List.filter (keepEntry c2) (List.filter (keepEntry c1) entries)
                    = List.filter (keepEntry c2) entries).
  { apply filter_filter_later. intros x. unfold keepEntry. rewrite !Z.leb_le. lia. }
  unfold EvictionFacts.surviving. rewrite <- Hfilter.
  by destruct (List.filter (keepEntry c1) entries) as [|e kept].
Qed.

Lemma evictTopics_later (c1 c2 : Z) (tags : gmap jsstring (list TopicEntry)) :
  (c1 <= c2)%Z -> evictTopics c2 (evictTopics c1 tags) = evictTopics c2 tags.
Proof.
  intros Hle. apply map_eq. intros topic.
  rewrite !EvictionFacts.evictTopics_lookup.
  destruct (tags !! topic) as [entries|]; [|done]. cbn [mbind option_bind].
  by apply surviving_later.
Qed.

End CumulativeFacts.

(** X27.  Evictions are cumulative.  With a clock that never goes back,
    [evictExpiredEvents] run twice in a row leaves the log and the topic
    index that one eviction at the time of the second one would leave: the
    second eviction of an append, the one of its maintenance, never undoes or
    misses what the first one did. *)
Theorem evictions_are_cumulative (a : App) :
  LogFacts.monotone (clock (world a)) ->
  let twice := exec (Session.evictExpiredEvents ;; Session.evictExpiredEvents) a in
  let cutoff := LogFacts.cutoffAt a (S (clockReads (world a))) in
  sessionMemory (session twice)
  = List.filter (Session.keepEvent cutoff) (sessionMemory (session a))
  /\ topicTags (session twice) = Session.evictTopics cutoff (topicTags (session a)).
Proof.
  intros Hmono. cbv zeta. rewrite exec_bind.
  destruct (LogFacts.evictExpiredEvents_log a) as (Hlog & Hreads & Hmem & Htags).
  set (a1 := exec Session.evictExpiredEvents a) in *.
  destruct (LogFacts.evictExpiredEvents_log a1) as (_ & _ & -> & ->).
  rewrite Hmem, Htags.
  apply LogFacts.onlyLog_fields in Hlog as (Hclock & _ & _ & _ & _ & _ & Hminutes & _).
  assert (Hcut : EvictionFacts.cutoffOf a1 = LogFacts.cutoffAt a (S (clockReads (world a)))).
  { unfold EvictionFacts.cutoffOf, EvictionFacts.nextReading, LogFacts.cutoffAt.
    by rewrite Hclock, Hminutes, Hreads. }
  assert (Hle : (EvictionFacts.cutoffOf a <= EvictionFacts.cutoffOf a1)%Z).
  { rewrite Hcut. unfold EvictionFacts.cutoffOf, EvictionFacts.nextReading, LogFacts.cutoffAt.
    pose proof (Hmono (clockReads (world a)) (S (clockReads (world a))) ltac:(lia)). lia. }
  rewrite <- Hcut. split.
  - apply CumulativeFacts.filter_filter_later. intros e.
    by apply CumulativeFacts.keepEvent_later.
  - by apply CumulativeFacts.evictTopics_later.
Qed.

Lemma evictions_are_cumulative_witness :
  let twice := exec (Session.evictExpiredEvents ;; Session.evictExpiredEvents) Expired.app in
  LogFacts.monotone (clock (world Expired.app))
  /\ sessionMemory (session twice) = [Expired.baseline; Expired.newQuestion].
Proof.
  cbv zeta.
  assert (Hmono : LogFacts.monotone (clock (world Expired.app))).
  { intros m n _. cbn. lia. }
  split; [exact Hmono|].
  rewrite (proj1 (evictions_are_cumulative Expired.app Hmono)). by vm_compute.
Defined.

(** ** A switch of the mode *)

Module SwitchFacts.
Import Session.

(** Below the threshold the maintenance does not run, and an append leaves
    the events the window keeps, the new one at the end. *)
Lemma append_below_threshold (role content : jsstring) (action : option jsstring)
    (md : Metadata) (a : App) :
  length (sessionMemory (session a)) < compressionThreshold (session a) ->
  LogFacts.unhurried a 5 ->
  exists front,
    sessionMemory (session (exec (addConversationEvent role content action md) a))
    = front ++ [eval (addConversationEvent role content action md) a].
Proof.
  intros Hbelow Hsteady. unfold addConversationEvent.
  rewrite !eval_bind, !exec_bind, eval_ret, exec_ret.
  destruct (LogFacts.newEvent_log role content action md a)
    as (Hlog1 & Hsession1 & Hreads1 & Hts & _).
  set (e := eval (newEvent role content action md) a) in *.
  set (a1 := exec (newEvent role content action md) a) in *.
  destruct (LogFacts.push_log e a1) as (Hlog2 & Hreads2 & Hmem2 & _).
  set (a2 := exec (push e) a1) in *.
  destruct (LogFacts.extractAndTagTopics_log content (ev_timestamp e) a2)
    as (Hlog3 & Hreads3 & Hmem3).
  set (a3 := exec (extractAndTagTopics content (ev_timestamp e)) a2) in *.
  destruct (LogFacts.evictExpiredEvents_log a3) as (Hlog4 & Hreads4 & Hmem4 & _).
  set (a4 := exec evictExpiredEvents a3) in *.
  assert (H13 : LogFacts.onlyLog a a3).
  { eapply LogFacts.onlyLog_trans; [exact Hlog1|]. by eapply LogFacts.onlyLog_trans. }
  assert (H14 : LogFacts.onlyLog a a4) by (by eapply LogFacts.onlyLog_trans).
  assert (Hkeep : keepEvent (EvictionFacts.cutoffOf a3) e = true).
  { apply EvictionFacts.keepEvent_true. left. rewrite Hts.
    unfold EvictionFacts.cutoffOf, EvictionFacts.nextReading.
    apply LogFacts.onlyLog_fields in H13 as (-> & _ & _ & _ & _ & _ & -> & _).
    rewrite Hreads3, Hreads2. apply Hsteady; lia. }
  assert (Hmem : sessionMemory (session a4)
                 = List.filter (keepEvent (EvictionFacts.cutoffOf a3))
                     (sessionMemory (session a)) ++ [e]).
  { rewrite Hmem4, Hmem3, Hmem2, Hsession1, List.filter_app. cbn [List.filter].
    by rewrite Hkeep. }
  rewrite MaintenanceFacts.performMaintenanceIfNeeded_run.
  assert (Hquiet : (compressionThreshold (session a4) <? length (sessionMemory (session a4)))
                   = false).
  { apply Nat.ltb_ge.
    apply LogFacts.onlyLog_fields in H14 as (_ & _ & _ & _ & _ & -> & _).
    rewrite Hmem, length_app. cbn [length].
    pose proof (sublist_length _ _ (LogFacts.filter_sublist
                  (keepEvent (EvictionFacts.cutoffOf a3)) (sessionMemory (session a)))).
    lia. }
  rewrite Hquiet. by eexists.
Qed.

Definition switchMessage (previous skill : jsstring) : jsstring :=
  js "Interview mode switched from " ++ previous ++ js " to " ++ skill.

Lemma setActiveSkill_run (skill : jsstring) (a : App) :
  exists b,
    exec (setActiveSkill skill) a
    = exec (addConversationEvent (js "system")
              (switchMessage (activeSkill (session a)) skill) (Some (js "skill_change"))
              (<[js "to" := MString skill]>
                 (<[js "from" := MString (activeSkill (session a))]> ∅))) b
    /\ session b = setActiveSkillField skill (session a)
    /\ world b = world a.
Proof.
  destruct a as [w s l]. unfold setActiveSkill, switchMessage.
  unfold exec, bind; cbn -[addConversationEvent js app insert].
  match goal with
  | |- context [addConversationEvent _ _ _ _ ?b] => exists b
  end.
  split; [by destruct (addConversationEvent _ _ _ _ _)|done].
Qed.

End SwitchFacts.

(** X28.  Below the threshold a switch of the mode is always recorded.
    When the log is shorter than the compression threshold and the clock
    stays inside the window during the call, [setActiveSkill] makes the
    skill the active one and leaves as the last event of the log the
    [skill_change] event of the system that names the previous skill and the
    new one, in its text and under [from] and [to]; the event is stamped with
    the new skill, not the previous one.  The skill is not checked against
    the available modes, and a switch to the skill that is active already is
    recorded like any other. *)
Theorem mode_switch_is_recorded (skill : jsstring) (a : App) :
  length (sessionMemory (session a)) < compressionThreshold (session a) ->
  LogFacts.unhurried a 5 ->
  let a' := exec (Session.setActiveSkill skill) a in
  let previous := activeSkill (session a) in
  activeSkill (session a') = skill
  /\ exists e,
       last (sessionMemory (session a')) = Some e
       /\ ev_role e = js "system"
       /\ ev_action e = js "skill_change"
       /\ ev_category e = js "system"
       /\ ev_content e = SwitchFacts.switchMessage previous skill
       /\ ev_metadata e !! js "from" = Some (MString previous)
       /\ ev_metadata e !! js "to" = Some (MString skill)
       /\ ev_metadata e !! js "skill" = Some (MString skill).
Proof.
  intros Hbelow Hsteady. cbv zeta.
  destruct (SwitchFacts.setActiveSkill_run skill a) as (b & -> & Hsession & Hworld).
  set (content := SwitchFacts.switchMessage _ _).
  set (md := <[js "to" := _]> _).
  destruct (LogFacts.addConversationEvent_log (js "system") content
              (Some (js "skill_change")) md b)
    as (Hlog & _ & _ & Hrole & Hcontent & Haction & Hcategory & _).
  destruct (SwitchFacts.append_below_threshold (js "system") content
              (Some (js "skill_change")) md b) as (front & Hmem).
  { by rewrite Hsession. }
  { intros i j Hi Hij Hj. unfold LogFacts.cutoffAt. rewrite Hworld, Hsession.
    apply Hsteady; by rewrite <- ?Hworld. }
  apply LogFacts.onlyLog_fields in Hlog
    as (_ & _ & _ & _ & _ & _ & _ & Hskill & _).
  split; [by rewrite Hskill, Hsession|].
  eexists. split; [rewrite Hmem; apply last_snoc|].
  split; [done|]. split; [by rewrite Haction|].
  split; [rewrite Hcategory; by vm_compute|]. split; [done|].
  rewrite MetadataFacts.addConversationEvent_eval.
  destruct (MetadataFacts.newEvent_metadata (js "system") content (Some (js "skill_change"))
              md b) as (elapsed & -> & _).
  rewrite Hsession. unfold md. cbn [activeSkill Session.setActiveSkillField].
  split; [rewrite !lookup_insert_ne by (by vm_compute); by rewrite lookup_insert_eq|].
  split; [rewrite !lookup_insert_ne by (by vm_compute); by rewrite lookup_insert_eq|].
  rewrite lookup_insert_ne by (by vm_compute). by rewrite lookup_insert_eq.
Qed.

Lemma mode_switch_is_recorded_witness :
  let a := Sample.appWith Sample.shippedConfig Sample.fiveTurns Sample.idleService in
  length (sessionMemory (session a)) < compressionThreshold (session a)
  /\ LogFacts.unhurried a 5
  /\ activeSkill (session (exec (Session.setActiveSkill (js "dsa")) a)) = js "dsa".
Proof.
  cbv zeta.
  assert (Hbelow : length (sessionMemory (session (Sample.appWith Sample.shippedConfig
            Sample.fiveTurns Sample.idleService)))
          < compressionThreshold (session (Sample.appWith Sample.shippedConfig
              Sample.fiveTurns Sample.idleService))) by (cbn; lia).
  assert (Hsteady : LogFacts.unhurried
            (Sample.appWith Sample.shippedConfig Sample.fiveTurns Sample.idleService) 5).
  { intros i j Hi Hij Hj. unfold LogFacts.cutoffAt. cbn in *. lia. }
  split; [exact Hbelow|]. split; [exact Hsteady|].
  exact (proj1 (mode_switch_is_recorded (js "dsa") _ Hbelow Hsteady)).
Defined.

(** ** How long ago *)

(** X29.  [formatTimeAgo] rounds the age of a timestamp to the nearest
    minute, a half going up: an age under 30 seconds, and any timestamp that
    lies in the future, is [just now]; an age from 30 seconds to under a
    minute and a half is [1 minute ago]; from then on it is the rounded
    number of minutes, 2 at least, before [minutes ago]. *)
Theorem formatTimeAgo_thresholds (timestamp : Z) (a : App) :
  let age := (EvictionFacts.nextReading a - timestamp)%Z in
  let said := eval (Views.formatTimeAgo timestamp) a in
  ((age < 30000)%Z -> said = js "just now")
  /\ ((30000 <= age < 90000)%Z -> said = js "1 minute ago")
  /\ ((90000 <= age)%Z ->
      said = showZ ((age + 30000) / 60000) ++ js " minutes ago"
      /\ (2 <= (age + 30000) / 60000)%Z).
Proof.
  cbv zeta. unfold Views.formatTimeAgo. rewrite eval_bind.
  destruct (AppendFacts.dateNow_run a) as (-> & _).
  fold (EvictionFacts.nextReading a). unfold Session.roundMinutes.
  set (age := (EvictionFacts.nextReading a - timestamp)%Z).
  split; [|split].
  - intros Hage.
    assert (H : ((age + 30000) / 60000 <? 1)%Z = true).
    { apply Z.ltb_lt. apply Z.div_lt_upper_bound; lia. }
    by rewrite H.
  - intros Hage.
    assert (H : ((age + 30000) / 60000 = 1)%Z).
    { symmetry. apply Z.div_unique with (r := (age - 30000)%Z); lia. }
    by rewrite H.
  - intros Hage.
    assert (H : (2 <= (age + 30000) / 60000)%Z).
    { apply Z.div_le_lower_bound; lia. }
    split; [|exact H].
    assert (H1 : ((age + 30000) / 60000 <? 1)%Z = false) by (apply Z.ltb_ge; lia).
    assert (H2 : ((age + 30000) / 60000 =? 1)%Z = false) by (apply Z.eqb_neq; lia).
    by rewrite H1, H2.
Qed.
